(** * mtuq: grid search and waveform processing

    A shallow embedding of [mtuq/grid_search.py] and of the [ProcessData]
    class of [mtuq/process_data.py], with the properties of the
    specification stated and proved against it.

    Python exceptions are results of type [result]; the state of a
    [ProcessData] instance is threaded explicitly. *)

From Stdlib Require Import ZArith QArith Lia Ascii String.
From stdpp Require Import gmap strings list fin_maps.

Local Open Scope nat_scope.

(** ** Exceptions *)

(** The exceptions of the code; [Blocked] stands for a collective MPI
    call that never returns. *)

Inductive exn : Type :=
  | Exception
  | ValueError
  | AssertionError
  | KeyError
  | TypeError
  | AttributeError
  | IndexError
  | NotImplementedError
  | ZeroDivisionError
  | OverflowError
  | Blocked.

Inductive result (A : Type) : Type :=
  | Ok (a : A)
  | Raise (e : exn).
Arguments Ok {A} a.
Arguments Raise {A} e.

Definition rbind {A B} (r : result A) (k : A → result B) : result B :=
  match r with
  | Ok a => k a
  | Raise e => Raise e
  end.

#[export] Instance result_ret : MRet result := λ A a, Ok a.
#[export] Instance result_bind : MBind result := λ A B k r, rbind r k.

Fixpoint rsequence {A} (rs : list (result A)) : result (list A) :=
  match rs with
  | [] => Ok []
  | r :: rs' =>
      rbind r (λ a, rbind (rsequence rs') (λ l, Ok (a :: l)))
  end.

(** ** numpy arrays of rank two

    An array of shape [(length rows, ncols)]; [ncols] is kept apart so that
    the shape [(0, k)] is represented. *)

Module Numpy.
Section Ndarray.
Context {V : Type}.

Record ndarray : Type := mk_ndarray {
  rows : list (list V);
  ncols : nat;
}.

Definition nrows (a : ndarray) : nat := length (rows a).
Definition shape (a : ndarray) : nat * nat := (nrows a, ncols a).

(** Every row of a real array has [ncols] entries. *)
Definition wf (a : ndarray) : Prop :=
  Forall (λ r, length r = ncols a) (rows a).

(** The values of column [i], top to bottom. *)
Definition column (i : nat) (a : ndarray) : list (option V) :=
  (λ r, r !! i) <$> rows a.

(** An array of shape [(length vs, 1)]. *)
Definition column_of (vs : list V) : ndarray :=
  {| rows := (λ v, [v]) <$> vs; ncols := 1 |}.

(** Rows of [a] followed, entry by entry, by the rows of the others. *)
Fixpoint hcat (a : list (list V)) (rest : list (list (list V)))
  : list (list V) :=
  match rest with
  | [] => a
  | b :: rest' => zip_with app a (hcat b rest')
  end.

(** [np.concatenate(arrs, axis=1)]: needs one array at least, and the
    same number of rows in all of them. *)
Definition concatenate_axis1 (arrs : list ndarray) : result ndarray :=
  match arrs with
  | [] => Raise ValueError
  | a :: rest =>
      if forallb (λ b, nrows b =? nrows a) rest
      then Ok {| rows := hcat (rows a) (rows <$> rest);
                 ncols := foldr (λ b n, ncols b + n) 0 (a :: rest) |}
      else Raise ValueError
  end.

(** [np.concatenate(arrs)], along axis 0: needs one array at least, and
    the same number of columns in all of them. *)
Definition concatenate_axis0 (arrs : list ndarray) : result ndarray :=
  match arrs with
  | [] => Raise ValueError
  | a :: rest =>
      if forallb (λ b, ncols b =? ncols a) rest
      then Ok {| rows := concat (rows <$> (a :: rest)); ncols := ncols a |}
      else Raise ValueError
  end.
End Ndarray.
Arguments ndarray V : clear implicits.
End Numpy.

(** ** mtuq/grid_search.py *)

Module GridSearch.
Import Numpy.

(** [mtuq.util.ProgressCallback(start=, stop=, percent=)] *)
Record ProgressCallback : Type := {
  start : nat;
  stop : nat;
  percent : Z;
}.

(** What [_is_mpi_env] and [MPI.COMM_WORLD] see of the process. *)
Record mpi_env : Type := {
  mpi4py_importable : bool;
  mpi4py_MPI_importable : bool;
  COMM_WORLD_size : nat;
  COMM_WORLD_rank : nat;
}.

Definition _is_mpi_env (env : mpi_env) : bool :=
  if negb (mpi4py_importable env) then false
  else if negb (mpi4py_MPI_importable env) then false
  else if 1 <? COMM_WORLD_size env then true
  else false.

Section GridSearch.
Context {Data Greens Origin Source V : Type}.

(** [greens.select(origin)] *)
Variable select : Greens → Origin → Greens.
(** [sources.partition(nproc)] of [mtuq.grid] *)
Variable partition : list Source → nat → list (list Source).

(** The injected misfit callable. *)
Definition misfit_fn : Type :=
  Data → Greens → list Source → ProgressCallback → ndarray V.

(** [origins = iterable(origins)] is taken as already a list. *)
Definition _grid_search_serial (data : Data) (greens : Greens)
    (misfit : misfit_fn) (origins : list Origin) (sources : list Source)
    (msg_interval : Z) : result (ndarray V) :=
  let ni := length origins in
  let nj := length sources in
  let results :=
    imap (λ _i origin,
            let msg_handle :=
              {| start := _i * nj; stop := ni * nj;
                 percent := msg_interval |} in
            misfit data (select greens origin) sources msg_handle)
         origins in
  concatenate_axis1 results.

(** [comm.scatter(sources, root=0)] on rank [iproc], [parts] being the
    list the root passes (what the other ranks pass is ignored).  The
    root's list must hold one item per process: otherwise mpi4py raises
    [ValueError] on the root, and the other ranks wait in the call for
    ever. *)
Definition scatter (parts : list (list Source)) (nproc iproc : nat)
  : result (list Source) :=
  if length parts =? nproc then
    match parts !! iproc with
    | Some p => Ok p
    | None => Raise ValueError
    end
  else if iproc =? 0 then Raise ValueError
  else Raise Blocked.

(** The body of [grid_search] up to the gather, on rank [iproc] of
    [nproc], every rank being called with the same arguments. *)
Definition rank_results (data : Data) (greens : Greens)
    (misfit : misfit_fn) (origins : list Origin) (sources : list Source)
    (msg_interval : Z) (nproc iproc : nat) : result (ndarray V) :=
  rbind (scatter (partition sources nproc) nproc iproc) (λ sources,
  let msg_interval := if negb (iproc =? 0) then 0%Z else msg_interval in
  _grid_search_serial data greens misfit origins sources msg_interval).

(** [comm.allgather(results)]: the results of all ranks, in rank order.
    A rank reaches the call once its own results are there; a rank that
    has raised never enters it, and the others then wait for ever. *)
Definition allgather_results (data : Data) (greens : Greens)
    (misfit : misfit_fn) (origins : list Origin) (sources : list Source)
    (msg_interval : Z) (nproc : nat) : result (list (ndarray V)) :=
  match
    rsequence
      ((λ r, rank_results data greens misfit origins sources msg_interval
               nproc r) <$> seq 0 nproc)
  with
  | Ok results => Ok results
  | Raise _ => Raise Blocked
  end.

Definition grid_search (env : mpi_env) (data : Data) (greens : Greens)
    (misfit : misfit_fn) (origins : list Origin) (sources : list Source)
    (msg_interval : Z) (allgather : bool) : result (ndarray V) :=
  let iproc := COMM_WORLD_rank env in
  let nproc := COMM_WORLD_size env in
  rbind
    (if _is_mpi_env env
     then rank_results data greens misfit origins sources msg_interval
            nproc iproc
     else _grid_search_serial data greens misfit origins sources
            msg_interval)
    (λ results,
       if allgather && _is_mpi_env env
       then rbind (allgather_results data greens misfit origins sources
                     msg_interval nproc)
                  concatenate_axis0
       else Ok results).

(** The gather of the specification: the per-partition outputs of the
    serial evaluator, concatenated along the source axis. *)
Definition gather_serial (data : Data) (greens : Greens)
    (misfit : misfit_fn) (origins : list Origin)
    (parts : list (list Source)) (msg_interval : Z)
  : result (ndarray V) :=
  rbind
    (rsequence
       ((λ p, _grid_search_serial data greens misfit origins p
                msg_interval) <$> parts))
    concatenate_axis0.
End GridSearch.
End GridSearch.

(** ** mtuq/process_data.py *)

Module ProcessData.

(** *** Numbers

    Python floats and the operations the module applies to them.  The
    embedding does not fix their rounding: it is stated over any carrier
    with these operations. *)

Class Float (F : Type) : Type := {
  lit : Q → F;                 (* a literal, e.g. [lit 0.4] *)
  fadd : F → F → F;
  fsub : F → F → F;
  fmul : F → F → F;
  fdiv : F → F → F;
  fpow : F → F → F;            (* [x ** y] *)
  (* the exception that [x ** y] raises, if it raises: [ZeroDivisionError]
     for zero to a negative power, [OverflowError] *)
  pow_error : F → F → option exn;
  (* [x ** y] is a complex number: [x] negative and [y] fractional *)
  pow_complex : F → F → bool;
  feqb : F → F → bool;         (* [x == y] *)
  fltb : F → F → bool;         (* [x < y] *)
  fleb : F → F → bool;         (* [x <= y] *)
  below_inf : F → bool;        (* [x < np.inf] *)
  float_of_str : string → result F;   (* [float(s)] *)
}.

(** What the proofs use of the comparisons: zero equals zero, and a number
    above zero does not. *)
Class FloatLaws (F : Type) `{Float F} : Prop := {
  feqb_zero : feqb (lit 0 : F) (lit 0) = true;
  fltb_nonzero : ∀ x : F, fltb (lit 0) x = true → feqb x (lit 0) = false;
}.

(** [if x:] on a float *)
Definition truthy `{Float F} (x : F) : bool := negb (feqb x (lit 0)).

(** [x / y] and [x ** y] on Python floats: the division raises for a
    divisor that equals zero, the power as the carrier says. *)
Definition truediv `{Float F} (x y : F) : result F :=
  if feqb y (lit 0) then Raise ZeroDivisionError else Ok (fdiv x y).

Definition power `{Float F} (x y : F) : result F :=
  match pow_error x y with
  | Some e => Raise e
  | None => Ok (fpow x y)
  end.

(** Exact rationals are one such carrier; [**] is computed for integral
    exponents, which is all the examples below use. *)
Definition Qpow (x y : Q) : Q := Qpower x (Qnum y / Z.pos (Qden y)).

#[export] Instance Q_Float : Float Q := {|
  lit := λ q, q;
  fadd := Qplus;
  fsub := Qminus;
  fmul := Qmult;
  fdiv := Qdiv;
  fpow := Qpow;
  pow_error := λ x y,
    if Qeq_bool x 0 && (if Qlt_le_dec y 0 then true else false)
    then Some ZeroDivisionError else None;
  pow_complex := λ x y,
    (if Qlt_le_dec x 0 then true else false)
    && negb (Pos.eqb (Qden (Qred y)) 1);
  feqb := Qeq_bool;
  fltb := λ x y, if Qlt_le_dec x y then true else false;
  fleb := Qle_bool;
  below_inf := λ _, true;
  float_of_str := λ _, Raise ValueError;   (* the examples parse no text *)
|}.

(** *** Data *)

(** A value of the keyword dictionary [**parameters]. *)
Inductive value (F : Type) : Type :=
  | VFloat (x : F)
  | VStr (s : string).
Arguments VFloat {F} x.
Arguments VStr {F} s.

Definition num {F} (v : value F) : result F :=
  match v with
  | VFloat x => Ok x
  | VStr _ => Raise TypeError
  end.

Definition str {F} (v : value F) : result string :=
  match v with
  | VStr s => Ok s
  | VFloat _ => Raise TypeError
  end.

Record Station (F : Type) : Type := {
  station_latitude : F;
  station_longitude : F;
}.
Arguments station_latitude {F} _.
Arguments station_longitude {F} _.

Record Origin (F : Type) : Type := {
  latitude : F;
  longitude : F;
  depth_in_m : F;
  time : F;
}.
Arguments latitude {F} _.
Arguments longitude {F} _.
Arguments depth_in_m {F} _.
Arguments time {F} _.

(** [trace.sac]: the SAC header fields the module reads. *)
Record SacHeaders (F : Type) : Type := {
  t5 : option F;
  t6 : option F;
}.
Arguments t5 {F} _.
Arguments t6 {F} _.

(** The SAC header of a Green's function of the FK database: the fields
    the module reads, which a file may lack. *)
Record FkHeaders (F : Type) : Type := {
  t1 : option F;
  t2 : option F;
}.
Arguments t1 {F} _.
Arguments t2 {F} _.

(** [trace.stats] *)
Record Stats (F : Type) : Type := {
  channel : string;
  npts : nat;
  delta : F;
  starttime : F;
}.
Arguments channel {F} _.
Arguments npts {F} _.
Arguments delta {F} _.
Arguments starttime {F} _.

(** An obspy [Trace], with the attributes the module reads and sets. *)
Record Trace (F : Type) : Type := {
  stats : Stats F;
  data : list F;
  sac : option (SacHeaders F);
  weight : option F;
}.
Arguments stats {F} _.
Arguments data {F} _.
Arguments sac {F} _.
Arguments weight {F} _.

(** An obspy [Stream] or an mtuq [GreensTensor]: the traces of one
    station, distinct objects, and the attributes read with [getattr] and
    [hasattr]. *)
Record Bundle (F : Type) : Type := {
  traces : list (Trace F);
  id : option string;
  tags : option (list string);
  station : option (Station F);
  origin : option (Origin F);
  preliminary_origin : option (Origin F);
}.
Arguments traces {F} _.
Arguments id {F} _.
Arguments tags {F} _.
Arguments station {F} _.
Arguments origin {F} _.
Arguments preliminary_origin {F} _.

(** An entry of [self._picks]: an [AttribDict] with [P] and [S] once they
    are assigned. *)
Record Picks (F : Type) : Type := {
  P : option F;
  S : option F;
}.
Arguments P {F} _.
Arguments S {F} _.

(** The attributes of a [ProcessData] instance; [None] where [__init__]
    did not assign the attribute. *)
Record Instance (F : Type) : Type := {
  freq_min : option F;
  freq_max : option F;
  freq : option F;
  filter_type : option string;
  _taup_model : option string;
  _fk_database : option string;
  _fk_model : option string;
  _pick_file : option string;
  _picks : gmap string (Picks F);
  pick_type : option string;
  window_type : option string;
  window_length : value F;
  _windows : gmap string (F * F);
  padding_length : value F;
  weights : option (gmap string (list F));
  scaling_power : option (value F);
  scaling_distance : option (value F);
  weight_type : option string;
}.
Arguments freq_min {F} _.
Arguments freq_max {F} _.
Arguments freq {F} _.
Arguments filter_type {F} _.
Arguments _taup_model {F} _.
Arguments _fk_database {F} _.
Arguments _fk_model {F} _.
Arguments _pick_file {F} _.
Arguments _picks {F} _.
Arguments pick_type {F} _.
Arguments window_type {F} _.
Arguments window_length {F} _.
Arguments _windows {F} _.
Arguments padding_length {F} _.
Arguments weights {F} _.
Arguments scaling_power {F} _.
Arguments scaling_distance {F} _.
Arguments weight_type {F} _.

(** *** The libraries and files the module calls *)

Definition Arrivals (F : Type) : Type := list (string * F).

Class World (F : Type) : Type := {
  (* os.path *)
  exists_ : string → bool;
  basename : string → string;
  (* mtuq.util.cap *)
  parse_weight_file : string → result (gmap string (list F));
  cap_taper : list F → list F;
  (* mtuq.util.signal *)
  cut : Trace F → F → F → Trace F;
  get_arrival : Arrivals F → string → result F;
  m_to_deg : F → F;
  (* obspy *)
  gps2dist_azimuth : F → F → F → F → F * F * F;
  TauPyModel : string → result unit;
  get_travel_times : string → F → F → list string → Arrivals F;
  detrend : string → Trace F → list F;
  taper_hann : F → Trace F → list F;
  filter_bandpass : F → F → Trace F → list F;
  filter_lowpass : F → Trace F → list F;
  filter_highpass : F → Trace F → list F;
  (* obspy.read(<fk_database>/<fk_model>_<depth>/<distance>.grn.0)[0].stats.sac *)
  read_fk_headers : string → string → F → F → result (FkHeaders F);
  (* the rows of the pick file that do not start with '#', split *)
  read_pick_file : string → result (list (list string));
}.

(** *** Small Python idioms *)

(** [k in d] and [d[k]] on a dictionary *)
Definition has_key {A} (k : string) (d : gmap string A) : bool :=
  bool_decide (is_Some (d !! k)).

Definition getitem {A} (k : string) (d : gmap string A) : result A :=
  match d !! k with
  | Some v => Ok v
  | None => Raise KeyError
  end.

(** [assert b] *)
Definition assert_ (b : bool) : result unit :=
  if b then Ok () else Raise AssertionError.

(** [raise e] when [b] *)
Definition raise_if (b : bool) (e : exn) : result unit :=
  if b then Raise e else Ok ().

(** [x == 'literal'] for an [x] that is a string or [None] *)
Definition is_ (x : option string) (s : string) : bool :=
  match x with
  | Some x => String.eqb x s
  | None => false
  end.

(** [not x] for an [x] that is a string or [None] *)
Definition not_ (x : option string) : bool :=
  match x with
  | Some x => String.eqb x ""
  | None => true
  end.

(** [obj.attr] for an attribute that may be missing, or for [obj = None] *)
Definition getattr {A} (x : option A) : result A :=
  match x with
  | Some a => Ok a
  | None => Raise AttributeError
  end.

(** *** [ProcessData.__init__] *)

Section Init.
Context {F : Type} `{Float F} `{World F}.

Abbreviation params := (gmap string (value F)).

(** The attributes set by the filter checks, and [parameters], which the
    checks extend. *)
Definition check_filter (filter_type : option string) (parameters : params)
  : result (params * (option F * option F * option F)) :=
  match filter_type with
  | None =>
      (* warn('No filter_type selected.') *)
      Ok (parameters, (None, None, None))
  | Some _ =>
      if is_ filter_type "Bandpass" then
        parameters ←
          (if has_key "period_min" parameters
              && has_key "period_max" parameters
           then
             _ ← assert_ (negb (has_key "freq_min" parameters));
             _ ← assert_ (negb (has_key "freq_max" parameters));
             period_max ← getitem "period_max" parameters ≫= num;
             freq_min ← power period_max (lit (-1));
             let parameters :=
               <["freq_min" := VFloat freq_min]> parameters in
             period_min ← getitem "period_min" parameters ≫= num;
             freq_max ← power period_min (lit (-1));
             Ok (<["freq_max" := VFloat freq_max]> parameters)
           else Ok parameters);
        _ ← raise_if (negb (has_key "freq_min" parameters)) ValueError;
        _ ← raise_if (negb (has_key "freq_max" parameters)) ValueError;
        fmin ← getitem "freq_min" parameters ≫= num;
        _ ← assert_ (fltb (lit 0) fmin);
        fmax ← getitem "freq_max" parameters ≫= num;
        _ ← assert_ (fltb fmin fmax);
        _ ← assert_ (below_inf fmax);
        Ok (parameters, (Some fmin, Some fmax, None))
      else if is_ filter_type "Lowpass" then
        parameters ←
          (if has_key "period" parameters then
             _ ← assert_ (negb (has_key "freq" parameters));
             period ← getitem "period" parameters ≫= num;
             freq ← power period (lit (-1));
             Ok (<["freq" := VFloat freq]> parameters)
           else Ok parameters);
        _ ← raise_if (negb (has_key "freq" parameters)) ValueError;
        f ← getitem "freq" parameters ≫= num;
        _ ← assert_ (fltb (lit 0) f);
        _ ← assert_ (below_inf f);
        Ok (parameters, (None, None, Some f))
      else if is_ filter_type "Highpass" then
        parameters ←
          (if has_key "period" parameters then
             _ ← assert_ (negb (has_key "freq" parameters));
             period ← getitem "period" parameters ≫= num;
             freq ← power period (lit (-1));
             Ok (<["freq" := VFloat freq]> parameters)
           else Ok parameters);
        _ ← raise_if (negb (has_key "freq" parameters)) ValueError;
        f ← getitem "freq" parameters ≫= num;
        _ ← assert_ (fleb (lit 0) f && below_inf f);
        Ok (parameters, (None, None, Some f))
      else Raise ValueError
  end.

(** [_taup_model], [_fk_database], [_fk_model] and [_pick_file] *)
Definition check_pick (pick_type : option string) (parameters : params)
  : result (option string * option string * option string * option string) :=
  match pick_type with
  | None => Raise Exception
  | Some _ =>
      if is_ pick_type "from_taup_model" then
        _ ← assert_ (has_key "taup_model" parameters);
        taup_model ← getitem "taup_model" parameters ≫= str;
        _ ← TauPyModel taup_model;
        Ok (Some taup_model, None, None, None)
      else if is_ pick_type "from_fk_metadata" then
        _ ← assert_ (has_key "fk_database" parameters);
        fk_database ← getitem "fk_database" parameters ≫= str;
        Ok (None, Some fk_database, Some (basename fk_database), None)
      else if is_ pick_type "from_sac_metadata" then
        (* nothing to check now *)
        Ok (None, None, None, None)
      else if is_ pick_type "from_cap_weight_file" then
        Raise NotImplementedError
      else if is_ pick_type "from_pick_file" then
        pick_file ← getitem "pick_file" parameters ≫= str;
        _ ← assert_ (exists_ pick_file);
        Ok (None, None, None, Some pick_file)
      else Raise ValueError
  end.

(** [window_length] and [padding_length] *)
Definition check_window (window_type : option string) (parameters : params)
  : result (value F * value F) :=
  _ ← match window_type with
      | None =>
          (* warn('No window_type selected.') *)
          Ok ()
      | Some _ =>
          if is_ window_type "cap_bw" then
            assert_ (has_key "window_length" parameters)
          else if is_ window_type "cap_sw" then
            assert_ (has_key "window_length" parameters)
          else Raise ValueError
      end;
  window_length ← getitem "window_length" parameters;
  padding_length ←
    (if has_key "padding_length" parameters
     then getitem "padding_length" parameters
     else Ok (VFloat (lit 0)));
  Ok (window_length, padding_length).

(** The body shared by the two weight types, which differ in the default
    of [scaling_power] only. *)
Definition check_cap_weight (default_power : Q) (parameters : params)
  : result (gmap string (list F) * value F * value F) :=
  _ ← assert_ (has_key "cap_weight_file" parameters);
  cap_weight_file ← getitem "cap_weight_file" parameters ≫= str;
  _ ← assert_ (exists_ cap_weight_file);
  weights ← parse_weight_file cap_weight_file;
  scaling_power ←
    (if has_key "scaling power" parameters
     then getitem "scaling_power" parameters
     else Ok (VFloat (lit default_power)));
  scaling_distance ←
    (if has_key "scaling_distance" parameters
     then getitem "scaling_distance" parameters
     else Ok (VFloat (lit 1e5)));
  Ok (weights, scaling_power, scaling_distance).

(** [weights], [scaling_power] and [scaling_distance] *)
Definition check_weight (weight_type : option string) (parameters : params)
  : result (option (gmap string (list F)) * option (value F)
            * option (value F)) :=
  match weight_type with
  | None => Ok (None, None, None)
  | Some _ =>
      if is_ weight_type "cap_bw" then
        '(w, p, d) ← check_cap_weight 1 parameters;
        Ok (Some w, Some p, Some d)
      else if is_ weight_type "cap_sw" then
        '(w, p, d) ← check_cap_weight 0.5 parameters;
        Ok (Some w, Some p, Some d)
      else Raise ValueError
  end.

Definition __init__ (filter_type pick_type window_type weight_type
                       : option string)
    (parameters : params) : result (Instance F) :=
  '(parameters, (freq_min, freq_max, freq)) ←
    check_filter filter_type parameters;
  '(_taup_model, _fk_database, _fk_model, _pick_file) ←
    check_pick pick_type parameters;
  '(window_length, padding_length) ← check_window window_type parameters;
  '(weights, scaling_power, scaling_distance) ←
    check_weight weight_type parameters;
  Ok {| freq_min := freq_min; freq_max := freq_max; freq := freq;
        filter_type := filter_type;
        _taup_model := _taup_model; _fk_database := _fk_database;
        _fk_model := _fk_model; _pick_file := _pick_file;
        _picks := ∅; pick_type := pick_type;
        window_type := window_type; window_length := window_length;
        _windows := ∅; padding_length := padding_length;
        weights := weights; scaling_power := scaling_power;
        scaling_distance := scaling_distance;
        weight_type := weight_type |}.
End Init.

(** *** [ProcessData.__call__]

    A call reads and updates the caches [_picks] and [_windows] of the
    instance, and may raise after it has updated them: a computation takes
    the instance and gives back the instance and a result. *)

Definition M (F A : Type) : Type := Instance F → Instance F * result A.

Definition ret {F A} (a : A) : M F A := λ self, (self, Ok a).

Definition bind {F A B} (m : M F A) (k : A → M F B) : M F B :=
  λ self,
    match m self with
    | (self', Ok a) => k a self'
    | (self', Raise e) => (self', Raise e)
    end.

Definition lift {F A} (r : result A) : M F A := λ self, (self, r).
Definition get {F} : M F (Instance F) := λ self, (self, Ok self).
Definition modify {F} (f : Instance F → Instance F) : M F unit :=
  λ self, (f self, Ok ()).

#[export] Instance M_ret {F} : MRet (M F) := λ A a, ret a.
#[export] Instance M_bind {F} : MBind (M F) := λ A B k m, bind m k.

(** [for x in l: body x], for a body that may raise *)
Fixpoint for_ {F A} (l : list A) (body : A → M F unit) : M F unit :=
  match l with
  | [] => ret ()
  | x :: l' => bind (body x) (λ _, for_ l' body)
  end.

(** [for x in l: x = body x], on the elements in place *)
Fixpoint rmap {A B} (body : A → result B) (l : list A) : result (list B) :=
  match l with
  | [] => Ok []
  | x :: l' => y ← body x; l'' ← rmap body l'; Ok (y :: l'')
  end.

Section Call.
Context {F : Type} `{Float F} `{World F}.

Definition set_data (t : Trace F) (d : list F) : Trace F :=
  {| stats := stats t; data := d; sac := sac t; weight := weight t |}.

Definition set_weight (t : Trace F) (w : F) : Trace F :=
  {| stats := stats t; data := data t; sac := sac t; weight := Some w |}.

Definition set_traces (b : Bundle F) (ts : list (Trace F)) : Bundle F :=
  {| traces := ts; id := id b; tags := tags b; station := station b;
     origin := origin b; preliminary_origin := preliminary_origin b |}.

Definition set_tags (b : Bundle F) (tg : list string) : Bundle F :=
  {| traces := traces b; id := id b; tags := Some tg;
     station := station b; origin := origin b;
     preliminary_origin := preliminary_origin b |}.

Definition set_picks (f : gmap string (Picks F) → gmap string (Picks F))
    (self : Instance F) : Instance F :=
  {| freq_min := freq_min self; freq_max := freq_max self;
     freq := freq self; filter_type := filter_type self;
     _taup_model := _taup_model self; _fk_database := _fk_database self;
     _fk_model := _fk_model self; _pick_file := _pick_file self;
     _picks := f (_picks self); pick_type := pick_type self;
     window_type := window_type self;
     window_length := window_length self;
     _windows := _windows self; padding_length := padding_length self;
     weights := weights self; scaling_power := scaling_power self;
     scaling_distance := scaling_distance self;
     weight_type := weight_type self |}.

Definition set_windows (f : gmap string (F * F) → gmap string (F * F))
    (self : Instance F) : Instance F :=
  {| freq_min := freq_min self; freq_max := freq_max self;
     freq := freq self; filter_type := filter_type self;
     _taup_model := _taup_model self; _fk_database := _fk_database self;
     _fk_model := _fk_model self; _pick_file := _pick_file self;
     _picks := _picks self; pick_type := pick_type self;
     window_type := window_type self;
     window_length := window_length self;
     _windows := f (_windows self); padding_length := padding_length self;
     weights := weights self; scaling_power := scaling_power self;
     scaling_distance := scaling_distance self;
     weight_type := weight_type self |}.

(** [s in tags] *)
Definition has_tag (s : string) (tags : list string) : bool :=
  bool_decide (s ∈ tags).

(** [index = tags.index(old); tags[index] = new], after [old in tags] *)
Definition retag (old new : string) (tags : list string) : list string :=
  match list_find (λ t, t = old) tags with
  | Some (index, _) => <[index := new]> tags
  | None => tags
  end.

(** [trace.data *= x] *)
Definition imul (x : F) (t : Trace F) : Trace F :=
  set_data t ((λ a, fmul a x) <$> data t).

(** [np.cumsum] *)
Fixpoint cumsum_from (acc : F) (l : list F) : list F :=
  match l with
  | [] => []
  | x :: l' => let acc := fadd acc x in acc :: cumsum_from acc l'
  end.

Definition cumsum (l : list F) : list F :=
  match l with
  | [] => []
  | x :: l' => x :: cumsum_from x l'
  end.

(** **** part 1: filter traces *)

Definition prepare (t : Trace F) : Trace F :=
  let t := set_data t (detrend "demean" t) in
  let t := set_data t (detrend "linear" t) in
  set_data t (taper_hann (lit 0.05) t).

Definition filter_traces (self : Instance F) (traces : list (Trace F))
  : result (list (Trace F)) :=
  if is_ (filter_type self) "Bandpass" then
    rmap (λ trace,
            let trace := prepare trace in
            freqmin ← getattr (freq_min self);
            freqmax ← getattr (freq_max self);
            Ok (set_data trace (filter_bandpass freqmin freqmax trace)))
         traces
  else if is_ (filter_type self) "Lowpass" then
    rmap (λ trace,
            let trace := prepare trace in
            freq ← getattr (freq self);
            Ok (set_data trace (filter_lowpass freq trace)))
         traces
  else if is_ (filter_type self) "Highpass" then
    rmap (λ trace,
            let trace := prepare trace in
            freq ← getattr (freq self);
            Ok (set_data trace (filter_highpass freq trace)))
         traces
  else Ok traces.

(** **** part 2: determine phase picks *)

Definition no_picks : Picks F := {| P := None; S := None |}.

(** [self._picks[id]] on the [defaultdict]: the entry is made when it is
    missing. *)
Definition picks_entry (id : string) : M F (Picks F) :=
  self ← get;
  match _picks self !! id with
  | Some picks => ret picks
  | None => _ ← modify (set_picks <[id := no_picks]>); ret no_picks
  end.

(** [self._picks[id].P = x] and [self._picks[id].S = x] *)
Definition assign_P (id : string) (x : F) : M F unit :=
  _ ← picks_entry id;
  modify (set_picks (alter (λ p, {| P := Some x; S := S p |}) id)).

Definition assign_S (id : string) (x : F) : M F unit :=
  _ ← picks_entry id;
  modify (set_picks (alter (λ p, {| P := P p; S := Some x |}) id)).

(** [try: a except: b] *)
Definition try_except {A} (a b : result A) : result A :=
  match a with
  | Ok x => Ok x
  | Raise _ => b
  end.

Definition getindex {A} (i : nat) (l : list A) : result A :=
  match l !! i with
  | Some x => Ok x
  | None => Raise IndexError
  end.

Definition determine_picks (id : string) (traces : list (Trace F))
    (origin : Origin F) (distance_in_m : F) : M F unit :=
  self ← get;
  if not_ (pick_type self) then ret ()
  else if negb (has_key id (_picks self)) then
    _ ← picks_entry id;
    if is_ (pick_type self) "from_taup_model" then
      taup ← lift (getattr (_taup_model self));
      let arrivals :=
        get_travel_times taup (fdiv (depth_in_m origin) (lit 1000))
          (m_to_deg distance_in_m) ["p"; "s"; "P"; "S"]%string in
      p ← lift (try_except (get_arrival arrivals "p")
                           (get_arrival arrivals "P"));
      _ ← assign_P id p;
      s ← lift (try_except (get_arrival arrivals "s")
                           (get_arrival arrivals "S"));
      assign_S id s
    else if is_ (pick_type self) "from_fk_metadata" then
      fk_database ← lift (getattr (_fk_database self));
      fk_model ← lift (getattr (_fk_model self));
      sac_headers ← lift (read_fk_headers fk_database fk_model
                            (depth_in_m origin) distance_in_m);
      p ← lift (getattr (t1 sac_headers));
      _ ← assign_P id p;
      s ← lift (getattr (t2 sac_headers));
      assign_S id s
    else if is_ (pick_type self) "from_sac_metadata" then
      trace ← lift (getindex 0 traces);
      sac_headers ← lift (getattr (sac trace));
      t5 ← lift (getattr (t5 sac_headers));
      _ ← assign_P id t5;
      t6 ← lift (getattr (t6 sac_headers));
      assign_S id t6
    else if is_ (pick_type self) "from_cap_weight_file" then
      lift (Raise NotImplementedError)
    else if is_ (pick_type self) "from_pick_file" then
      pick_file ← lift (getattr (_pick_file self));
      reader ← lift (read_pick_file pick_file);
      for_ reader (λ row,
        _id ← lift (getindex 0 row);
        p ← lift (getindex 1 row ≫= float_of_str);
        _ ← assign_P _id p;
        s ← lift (getindex 2 row ≫= float_of_str);
        assign_S _id s)
    else ret ()
  else ret ().

(** **** part 3a: determine window start and end times *)

Definition determine_window (id : string) (origin : Origin F) : M F unit :=
  self ← get;
  if not_ (window_type self) then ret ()
  else if negb (has_key id (_windows self)) then
    let origin_time := time origin in
    picks ← picks_entry id;
    if is_ (window_type self) "cap_bw" then
      p ← lift (getattr (P picks));
      window_length ← lift (num (window_length self));
      let t1 := fsub p (fmul (lit 0.4) window_length) in
      let t2 := fadd t1 window_length in
      let t1 := fadd t1 origin_time in
      let t2 := fadd t2 origin_time in
      modify (set_windows <[id := (t1, t2)]>)
    else if is_ (window_type self) "cap_sw" then
      s ← lift (getattr (S picks));
      window_length ← lift (num (window_length self));
      let t3 := fsub s (fmul (lit 0.3) window_length) in
      let t4 := fadd t3 window_length in
      let t3 := fadd t3 origin_time in
      let t4 := fadd t4 origin_time in
      modify (set_windows <[id := (t3, t4)]>)
    else if is_ (window_type self) "taup_bw" then
      lift (Raise NotImplementedError)
    else ret ()
  else ret ().

(** **** part 3b: pad Green's functions

    [None] when no window type is set, else [starttime] and [endtime]. *)

Definition pad_window (self : Instance F) (id : string)
    (tags : list string) : result (option (F * F)) :=
  if not_ (window_type self) then Ok None
  else
    window ← getitem id (_windows self);
    if has_tag "type:greens" tags then
      padding_length ← num (padding_length self);
      Ok (Some (fsub window.1 padding_length,
                fadd window.2 padding_length))
    else Ok (Some window).

(** **** part 3c: cut and taper traces *)

Definition cut_and_taper (bounds : option (F * F))
    (traces : list (Trace F)) : list (Trace F) :=
  let traces :=
    match bounds with
    | None => traces
    | Some (starttime, endtime) =>
        (λ trace, cut trace starttime endtime) <$> traces
    end in
  (λ trace, set_data trace (cap_taper (data trace))) <$> traces.

(** **** part 4: determine weights *)

(** [c.upper()] on a character *)
Definition upper (c : ascii) : ascii :=
  let n := nat_of_ascii c in
  if (97 <=? n) && (n <=? 122) then ascii_of_nat (n - 32) else c.

(** [s[-1]] *)
Fixpoint last_char (s : string) : option ascii :=
  match s with
  | EmptyString => None
  | String c EmptyString => Some c
  | String _ s' => last_char s'
  end.

(** [trace.stats.channel[-1].upper()], under [if trace.stats.channel:];
    [None] for an empty channel code. *)
Definition component (trace : Trace F) : option ascii :=
  upper <$> last_char (channel (stats trace)).

(** The weight of the body wave block. *)
Definition cap_bw_weight (self : Instance F) (id : string)
    (component : ascii) : result F :=
  weights ← getattr (weights self);
  if negb (has_key id weights) then Ok (lit 0)
  else if Ascii.eqb component "Z" then
    getitem id weights ≫= getindex 1
  else if Ascii.eqb component "R" then
    getitem id weights ≫= getindex 2
  else Ok (lit 0).

(** The weight of the surface wave block. *)
Definition cap_sw_weight (self : Instance F) (id : string)
    (component : ascii) : result F :=
  weights ← getattr (weights self);
  if negb (has_key id weights) then Ok (lit 0)
  else if Ascii.eqb component "Z" then
    getitem id weights ≫= getindex 3
  else if Ascii.eqb component "R" then
    getitem id weights ≫= getindex 4
  else if Ascii.eqb component "T" then
    getitem id weights ≫= getindex 5
  else Ok (lit 0).

(** [Stats.__eq__] and [Trace.__eq__]: the headers and the samples, not
    the attributes set on the trace. *)
Definition stats_eqb (a b : Stats F) : bool :=
  String.eqb (channel a) (channel b) && (npts a =? npts b)
  && feqb (delta a) (delta b) && feqb (starttime a) (starttime b).

Fixpoint array_equal (a b : list F) : bool :=
  match a, b with
  | [], [] => true
  | x :: a', y :: b' => feqb x y && array_equal a' b'
  | _, _ => false
  end.

Definition trace_eqb (a b : Trace F) : bool :=
  stats_eqb (stats a) (stats b) && array_equal (data a) (data b).

(** The traces of a stream are objects: [heap] holds the trace objects of
    the bundle, and the stream is a list [refs] of indices into it.

    [traces.remove(trace)] is [list.remove] on that list: it drops the
    first item that is the object [k] or is equal to it. *)
Fixpoint remove_first {A} (p : A → bool) (l : list A) : list A :=
  match l with
  | [] => []
  | x :: l' => if p x then l' else x :: remove_first p l'
  end.

Definition stream_remove (heap : list (Trace F)) (k : nat)
    (refs : list nat) : list nat :=
  match heap !! k with
  | None => refs
  | Some trace =>
      remove_first
        (λ j, (j =? k)
              || match heap !! j with
                 | Some item => trace_eqb item trace
                 | None => false
                 end)
        refs
  end.

(** The first loop of a weight block.  [for trace in traces] iterates
    over a copy of the stream's list ([Stream.__iter__] is
    [list(self.traces).__iter__()]): [snapshot] is what is left of that
    copy, and [refs] the stream, from which the body removes. *)
Fixpoint weight_loop (resolve : ascii → result F) (tags : list string)
    (snapshot : list nat) (st : list (Trace F) * list nat)
  : result (list (Trace F) * list nat) :=
  match snapshot with
  | [] => Ok st
  | k :: snapshot' =>
      if has_tag "type:greens" tags then Ok st      (* break *)
      else
        let '(heap, refs) := st in
        st ← match heap !! k with
             | None => Ok st
             | Some trace =>
                 match component trace with
                 | None => Ok st
                 | Some component =>
                     weight ← resolve component;
                     if truthy weight
                     then Ok (<[k := set_weight trace weight]> heap, refs)
                     else Ok (heap, stream_remove heap k refs)
                 end
             end;
        weight_loop resolve tags snapshot' st
  end.

(** One pass of that loop on a trace that is still in the stream: the
    trace is skipped (no channel code), weighted, or removed. *)
Definition weigh (resolve : ascii → result F) (trace : Trace F)
  : result (option (Trace F)) :=
  match component trace with
  | None => Ok (Some trace)
  | Some component =>
      weight ← resolve component;
      Ok (if truthy weight then Some (set_weight trace weight) else None)
  end.

(** The traces of the stream, as the second loop and the caller see
    them. *)
Definition stream_traces (st : list (Trace F) * list nat)
  : list (Trace F) :=
  omap (λ j, st.1 !! j) st.2.

(** The body of the second loop of a weight block.  The factor is
    computed on Python floats, and [trace.data *=], which is numpy's,
    refuses a complex one. *)
Definition scale_trace (self : Instance F) (distance_in_m : F)
    (trace : Trace F) : result (Trace F) :=
  scaling_distance ← getattr (scaling_distance self) ≫= num;
  quotient ← truediv distance_in_m scaling_distance;
  scaling_power ← getattr (scaling_power self) ≫= num;
  factor ← power quotient scaling_power;
  _ ← raise_if (pow_complex quotient scaling_power) TypeError;
  let trace := imul factor trace in
  (* ad hoc factor determined by benchmark_cap_fk.py *)
  Ok (imul (lit 1) trace).

Definition weight_block (resolve : ascii → result F) (self : Instance F)
    (tags : list string) (distance_in_m : F) (traces : list (Trace F))
  : result (list (Trace F)) :=
  let refs := seq 0 (length traces) in
  st ← weight_loop resolve tags refs (traces, refs);
  rmap (scale_trace self distance_in_m) (stream_traces st).

Definition determine_weights (self : Instance F) (id : string)
    (tags : list string) (distance_in_m : F) (traces : list (Trace F))
  : result (list (Trace F)) :=
  if not_ (weight_type self) then
    (* give all traces equal weight if weight_type is false *)
    Ok ((λ trace, set_weight trace (lit 1)) <$> traces)
  else if is_ (weight_type self) "cap_bw" then
    weight_block (cap_bw_weight self id) self tags distance_in_m traces
  else if is_ (weight_type self) "cap_sw" then
    weight_block (cap_sw_weight self id) self tags distance_in_m traces
  else Ok traces.

(** **** The call

    [overwrite] decides whether the caller's bundle or a deep copy of it
    is worked on; the bundle returned is the same either way. *)

Definition __call__ (bundle : Bundle F) (station_arg : option (Station F))
    (origin_arg : option (Origin F)) (overwrite : bool)
  : M F (Bundle F) :=
  let station_ :=
    match station_arg with None => station bundle | Some _ => station_arg
    end in
  let origin_ :=
    match origin_arg with None => origin bundle | Some _ => origin_arg
    end in
  let origin_ :=
    match origin_ with None => preliminary_origin bundle | Some _ => origin_
    end in
  id ← lift (match id bundle with
             | None => Raise Exception
             | Some id => Ok id
             end);
  (* collect location information *)
  origin_ ← lift (getattr origin_);
  station_ ← lift (getattr station_);
  let '(distance_in_m, azimuth, _) :=
    gps2dist_azimuth (latitude origin_) (longitude origin_)
      (station_latitude station_) (station_longitude station_) in
  (* collect time sampling information *)
  trace0 ← lift (getindex 0 (traces bundle));
  let nt := npts (stats trace0) in
  let dt := delta (stats trace0) in
  tags ← lift (match tags bundle with
               | None => Raise Exception
               | Some tags => Ok tags
               end);
  let traces := traces bundle in
  let '(traces, tags) :=
    if has_tag "units:cm" tags
    then (imul (lit 1e-2) <$> traces, retag "units:cm" "units:m" tags)
    else (traces, tags) in
  self ← get;
  traces ← lift (filter_traces self traces);
  let '(traces, tags) :=
    if has_tag "type:velocity" tags
    then ((λ trace, set_data trace
                      ((λ a, fmul a dt) <$> cumsum (data trace)))
            <$> traces,
          retag "type:velocity" "type:displacement" tags)
    else (traces, tags) in
  _ ← determine_picks id traces origin_ distance_in_m;
  _ ← determine_window id origin_;
  self ← get;
  bounds ← lift (pad_window self id tags);
  let traces := cut_and_taper bounds traces in
  traces ← lift (determine_weights self id tags distance_in_m traces);
  ret (set_traces (set_tags bundle tags) traces).
End Call.

(** *** A world to run the model in

    Rational samples; one station in the weight table (columns: distance,
    body wave Z and R, surface wave Z, R and T); signal processing left
    out (the filters, the cut and the taper return their input); every
    station 200 km from the origin. *)

Definition example_weights : gmap string (list Q) :=
  {[ "II.KDAK" := [200; 1; 1; 1; 1; 0]%Q ]}.

Definition example_world : World Q := {|
  exists_ := λ _, true;
  basename := λ s, s;
  parse_weight_file := λ _, Ok example_weights;
  cap_taper := λ d, d;
  cut := λ trace _ _, trace;
  get_arrival := λ arrivals phase,
    match list_find (λ a, a.1 = phase) arrivals with
    | Some (_, a) => Ok a.2
    | None => Raise Exception
    end;
  m_to_deg := λ x, (x / 111195)%Q;
  gps2dist_azimuth := λ _ _ _ _, (200000, 0, 0)%Q;
  TauPyModel := λ _, Ok ();
  get_travel_times := λ _ _ _ _, [("P", 30); ("S", 52)]%Q;
  detrend := λ _ trace, data trace;
  taper_hann := λ _ trace, data trace;
  filter_bandpass := λ _ _ trace, data trace;
  filter_lowpass := λ _ trace, data trace;
  filter_highpass := λ _ trace, data trace;
  read_fk_headers := λ _ _ _ _,
    Ok {| t1 := Some 30%Q; t2 := Some 52%Q |};
  read_pick_file := λ _, Ok [];
|}.

(** The same world with no file on disk. *)
Definition example_world_without_files : World Q := {|
  exists_ := λ _, false;
  basename := @basename Q example_world;
  parse_weight_file := @parse_weight_file Q example_world;
  cap_taper := @cap_taper Q example_world;
  cut := @cut Q example_world;
  get_arrival := @get_arrival Q example_world;
  m_to_deg := @m_to_deg Q example_world;
  gps2dist_azimuth := @gps2dist_azimuth Q example_world;
  TauPyModel := @TauPyModel Q example_world;
  get_travel_times := @get_travel_times Q example_world;
  detrend := @detrend Q example_world;
  taper_hann := @taper_hann Q example_world;
  filter_bandpass := @filter_bandpass Q example_world;
  filter_lowpass := @filter_lowpass Q example_world;
  filter_highpass := @filter_highpass Q example_world;
  read_fk_headers := @read_fk_headers Q example_world;
  read_pick_file := @read_pick_file Q example_world;
|}.

Definition example_trace (channel : string) (data : list Q) : Trace Q :=
  {| stats := {| channel := channel; npts := length data; delta := 1%Q;
                 starttime := 0%Q |};
     data := data; sac := None; weight := None |}.

Definition example_bundle (id : string) (tags : list string)
    (traces : list (Trace Q)) : Bundle Q :=
  {| traces := traces; id := Some id; tags := Some tags;
     station := Some {| station_latitude := 57.8%Q;
                        station_longitude := (-152.6)%Q |};
     origin := Some {| latitude := 61.5%Q; longitude := (-149.7)%Q;
                       depth_in_m := 33000%Q; time := 1000%Q |};
     preliminary_origin := None |}.

Definition example_parameters : gmap string (value Q) :=
  {[ "fk_database" := VStr "greens/scak";
     "window_length" := VFloat 15%Q;
     "cap_weight_file" := VStr "weights.dat" ]}.

(** [ProcessData(pick_type='from_fk_metadata', window_type=...,
    weight_type=..., **parameters)] *)
Definition example_init (window_type weight_type : option string)
    (parameters : gmap string (value Q)) : result (Instance Q) :=
  @__init__ Q Q_Float example_world None (Some "from_fk_metadata")
    window_type weight_type parameters.

(** The instance [example_init] returns for the body wave window and
    weights, before its first call. *)
Definition example_self : Instance Q :=
  {| freq_min := None; freq_max := None; freq := None;
     filter_type := None;
     _taup_model := None; _fk_database := Some "greens/scak"%string;
     _fk_model := Some "greens/scak"%string; _pick_file := None;
     _picks := ∅; pick_type := Some "from_fk_metadata"%string;
     window_type := Some "cap_bw"%string; window_length := VFloat 15%Q;
     _windows := ∅; padding_length := VFloat 0%Q;
     weights := Some example_weights;
     scaling_power := Some (VFloat 1%Q);
     scaling_distance := Some (VFloat 1e5%Q);
     weight_type := Some "cap_bw"%string |}.

(** [self(bundle)]: the instance after the call, and what the call
    returned. *)
Definition example_call (self : Instance Q) (bundle : Bundle Q)
  : Instance Q * result (Bundle Q) :=
  @__call__ Q Q_Float example_world bundle None None false self.

(** The channel code, samples (in lowest terms) and weight attribute of
    the traces of a bundle. *)
Definition summary (traces : list (Trace Q))
  : list (string * list Q * option Q) :=
  (λ trace, (channel (stats trace), Qred <$> data trace,
             Qred <$> weight trace)) <$> traces.

(** *** A world with a pick file

    [float(s)] on the strings of decimal digits, which is all the rows of
    the example file hold; three rows, two of them for the same station. *)

Definition digit (c : ascii) : option nat :=
  let n := nat_of_ascii c in
  if (48 <=? n) && (n <=? 57) then Some (n - 48) else None.

Fixpoint float_of_digits (acc : nat) (s : string) : result Q :=
  match s with
  | EmptyString => Ok (inject_Z (Z.of_nat acc))
  | String c s' =>
      match digit c with
      | Some d => float_of_digits (10 * acc + d) s'
      | None => Raise ValueError
      end
  end.

Definition Q_Float_digits : Float Q := {|
  lit := @lit Q Q_Float;
  fadd := @fadd Q Q_Float;
  fsub := @fsub Q Q_Float;
  fmul := @fmul Q Q_Float;
  fdiv := @fdiv Q Q_Float;
  fpow := @fpow Q Q_Float;
  pow_error := @pow_error Q Q_Float;
  pow_complex := @pow_complex Q Q_Float;
  feqb := @feqb Q Q_Float;
  fltb := @fltb Q Q_Float;
  fleb := @fleb Q Q_Float;
  below_inf := @below_inf Q Q_Float;
  float_of_str := λ s,
    match s with
    | EmptyString => Raise ValueError
    | _ => float_of_digits 0 s
    end;
|}.

Definition example_pick_file : list (list string) :=
  [["II.KDAK"; "30"; "52"]; ["IU.COLA"; "10"; "18"];
   ["II.KDAK"; "31"; "53"]]%string.

Definition example_world_with_pick_file : World Q := {|
  exists_ := @exists_ Q example_world;
  basename := @basename Q example_world;
  parse_weight_file := @parse_weight_file Q example_world;
  cap_taper := @cap_taper Q example_world;
  cut := @cut Q example_world;
  get_arrival := @get_arrival Q example_world;
  m_to_deg := @m_to_deg Q example_world;
  gps2dist_azimuth := @gps2dist_azimuth Q example_world;
  TauPyModel := @TauPyModel Q example_world;
  get_travel_times := @get_travel_times Q example_world;
  detrend := @detrend Q example_world;
  taper_hann := @taper_hann Q example_world;
  filter_bandpass := @filter_bandpass Q example_world;
  filter_lowpass := @filter_lowpass Q example_world;
  filter_highpass := @filter_highpass Q example_world;
  read_fk_headers := @read_fk_headers Q example_world;
  read_pick_file := λ _, Ok example_pick_file;
|}.

(** [ProcessData(pick_type='from_pick_file', pick_file='picks.dat',
    window_type='cap_bw', window_length=15.)], before its first call. *)
Definition example_self_with_pick_file : Instance Q :=
  {| freq_min := None; freq_max := None; freq := None;
     filter_type := None;
     _taup_model := None; _fk_database := None; _fk_model := None;
     _pick_file := Some "picks.dat"%string;
     _picks := ∅; pick_type := Some "from_pick_file"%string;
     window_type := Some "cap_bw"%string; window_length := VFloat 15%Q;
     _windows := ∅; padding_length := VFloat 0%Q;
     weights := None; scaling_power := None; scaling_distance := None;
     weight_type := None |}.

(** The instance [example_self] for another weight file. *)
Definition example_self_with_weights (table : gmap string (list Q))
  : Instance Q :=
  {| freq_min := None; freq_max := None; freq := None;
     filter_type := None;
     _taup_model := None; _fk_database := Some "greens/scak"%string;
     _fk_model := Some "greens/scak"%string; _pick_file := None;
     _picks := ∅; pick_type := Some "from_fk_metadata"%string;
     window_type := Some "cap_bw"%string; window_length := VFloat 15%Q;
     _windows := ∅; padding_length := VFloat 0%Q;
     weights := Some table;
     scaling_power := Some (VFloat 1%Q);
     scaling_distance := Some (VFloat 1e5%Q);
     weight_type := Some "cap_bw"%string |}.

End ProcessData.

(** ** mtuq/graphics/header.py

    Figure headers.  What the module does to a matplotlib figure is the
    list of the calls it makes, in order; what it reads of the figure and
    of the libraries is given with the class [Libraries]. *)

Module Header.

(** The arguments of the string operator [%]: text or a number, or a
    keyword value of a [ProcessData] instance. *)
Inductive arg (F : Type) : Type :=
  | AStr (s : string)
  | ANum (x : F)
  | AValue (v : ProcessData.value F).
Arguments AStr {F} s.
Arguments ANum {F} x.
Arguments AValue {F} v.

(** An entry of an item of a [TextHeader]. *)
Inductive object (F : Type) : Type :=
  | OFloat (x : F)
  | OStr (s : string)
  | ODict (kwargs : list (string * arg F)).
Arguments OFloat {F} x.
Arguments OStr {F} s.
Arguments ODict {F} kwargs.

(** The calls made to matplotlib. *)
Inductive event (F : Type) : Type :=
  (* fig.add_axes(rect); ax.set_xlim(xlim); ax.set_ylim(ylim), and the
     lines, ticks and labels of the axes hidden *)
  | add_axes (rect xlim ylim : list F)
  (* ax.imshow(img, extent=extent) *)
  | imshow (extent : F * F * F * F)
  (* pyplot.text(x, y, text, fontsize=fontsize, transform=ax.transAxes),
     with fontproperties=FontProperties() from _write_bold *)
  | pyplot_text (x y : F) (text : string) (fontsize : Z)
      (fontproperties : bool).
Arguments add_axes {F} rect xlim ylim.
Arguments imshow {F} extent.
Arguments pyplot_text {F} x y text fontsize fontproperties.

Class Libraries (F MomentTensor : Type) : Type := {
  (* unary minus *)
  fneg : F → F;
  (* the string operator % *)
  format : string → list (arg F) → result string;
  (* mt.magnitude() *)
  magnitude : MomentTensor → F;
  (* pyplot.gcf().get_size_inches() *)
  get_size_inches : F * F;
  (* mtuq.graphics.beachball.plot_beachball and pyplot.imread *)
  plot_beachball : string → MomentTensor → result unit;
  imread : string → result unit;
  (* np.degrees(np.arccos(h)) *)
  degrees_arccos : F → F;
  (* mtuq.util.math.to_delta_gamma *)
  to_delta_gamma : F → F → result (F * F);
}.

(** A computation that calls matplotlib and may raise. *)
Definition W (F A : Type) : Type := list (event F) * result A.

Definition ret {F A} (a : A) : W F A := ([], Ok a).

Definition bind {F A B} (m : W F A) (k : A → W F B) : W F B :=
  match m with
  | (calls, Ok a) => let '(calls', r) := k a in (calls ++ calls', r)
  | (calls, Raise e) => (calls, Raise e)
  end.

Definition lift {F A} (r : result A) : W F A := ([], r).
Definition call {F} (e : event F) : W F unit := ([e], Ok ()).

#[export] Instance W_ret {F} : MRet (W F) := λ A a, ret a.
#[export] Instance W_bind {F} : MBind (W F) := λ A B k m, bind m k.

(** [misfit_bw], of which the module reads the norm *)
Record Misfit : Type := {
  norm : string;
}.

(** *** [Base] *)

Module Base.
Section Base.
Context {F MomentTensor : Type} `{ProcessData.Float F}
  `{Libraries F MomentTensor}.

Definition __init__ : result unit := Raise NotImplementedError.

(** [fig] is the current figure.  Its size is a numpy array, and a
    division by a numpy number does not raise. *)
Definition _get_axis (height : F) : W F unit :=
  let '(width, figure_height) := get_size_inches in
  _ ← lift (ProcessData.assert_ (ProcessData.fltb height figure_height));
  let x0 := ProcessData.lit 0 in
  let y0 :=
    ProcessData.fsub (ProcessData.lit 1)
      (ProcessData.fdiv height figure_height) in
  call (add_axes
          [x0; y0; ProcessData.lit 1; ProcessData.fdiv height figure_height]
          [ProcessData.lit 0; width] [ProcessData.lit 0; height]).

Definition write : W F unit := lift (Raise NotImplementedError).
End Base.
End Base.

(** *** [TextHeader] *)

Module TextHeader.
Section TextHeader.
Context {F : Type} `{ProcessData.Float F}.

(** [0. <= x <= 1.] *)
Definition within_0_1 (x : object F) : result bool :=
  match x with
  | OFloat x =>
      Ok (ProcessData.fleb (ProcessData.lit 0) x
          && ProcessData.fleb x (ProcessData.lit 1))
  | _ => Raise TypeError
  end.

(** The instance is its attribute [items]. *)
Definition __init__ (items : list (list (object F)))
  : result (list (list (object F))) :=
  (* validates items *)
  _ ← ProcessData.rmap (λ item,
        _ ← ProcessData.assert_ (3 <=? length item);
        xp ← ProcessData.getindex 0 item;
        yp ← ProcessData.getindex 1 item;
        text ← ProcessData.getindex 2 item;
        b ← within_0_1 xp;
        _ ← ProcessData.assert_ b;
        b ← within_0_1 yp;
        ProcessData.assert_ b) items;
  Ok items.
End TextHeader.
End TextHeader.

(** *** [MomentTensorHeader] *)

Module MomentTensorHeader.
Section MomentTensorHeader.
Context {F MomentTensor : Type} `{ProcessData.Float F}
  `{Libraries F MomentTensor}.

(** The attributes of an instance; [None] where [__init__] did not assign
    the attribute. *)
Record Instance : Type := {
  event_name : string;
  magnitude_ : F;
  depth_in_m : F;
  depth_in_km : F;
  model : string;
  solver : string;
  mt : MomentTensor;
  lune_dict : gmap string F;
  origin : ProcessData.Origin F;
  best_misfit_bw : F;
  best_misfit_sw : F;
  best_misfit : F;
  process_bw : option (ProcessData.Instance F);
  process_sw : option (ProcessData.Instance F);
  misfit_bw : option (ProcessData.Instance F);
  misfit_sw : option (ProcessData.Instance F);
  norm_ : string;
  bw_T_min : option F;
  bw_T_max : option F;
  bw_win_len : option (ProcessData.value F);
  sw_T_min : option F;
  sw_T_max : option F;
  sw_win_len : option (ProcessData.value F);
}.

(** [T_min], [T_max] and [win_len] of a processor, under
    [if self.process_bw:] and [if self.process_sw:] *)
Definition passband (process : option (ProcessData.Instance F))
  : result (option F * option F * option (ProcessData.value F)) :=
  match process with
  | None => Ok (None, None, None)
  | Some process =>
      freq_max ← ProcessData.getattr (ProcessData.freq_max process);
      T_min ← ProcessData.power freq_max (ProcessData.lit (-1));
      freq_min ← ProcessData.getattr (ProcessData.freq_min process);
      T_max ← ProcessData.power freq_min (ProcessData.lit (-1));
      Ok (Some T_min, Some T_max,
          Some (ProcessData.window_length process))
  end.

Definition __init__ (event_name : string)
    (process_bw process_sw : option (ProcessData.Instance F))
    (misfit_bw misfit_sw : option Misfit) (model solver : string)
    (mt : MomentTensor) (lune_dict : gmap string F)
    (origin : ProcessData.Origin F) (best_misfit_bw best_misfit_sw : list F)
  : result Instance :=
  let magnitude := magnitude mt in
  let depth_in_m := ProcessData.depth_in_m origin in
  let depth_in_km :=
    ProcessData.fdiv (ProcessData.depth_in_m origin)
      (ProcessData.lit 1000) in
  x ← ProcessData.getindex 0 best_misfit_bw;
  let best_misfit_bw := ProcessData.fmul x (ProcessData.lit 1e10) in
  x ← ProcessData.getindex 0 best_misfit_sw;
  let best_misfit_sw := ProcessData.fmul x (ProcessData.lit 1e10) in
  let best_misfit := ProcessData.fadd best_misfit_bw best_misfit_sw in
  misfit ← ProcessData.getattr misfit_bw;
  let norm := norm misfit in
  '(bw_T_min, bw_T_max, bw_win_len) ← passband process_bw;
  '(sw_T_min, sw_T_max, sw_win_len) ← passband process_sw;
  Ok {| event_name := event_name; magnitude_ := magnitude;
        depth_in_m := depth_in_m; depth_in_km := depth_in_km;
        model := model; solver := solver; mt := mt;
        lune_dict := lune_dict; origin := origin;
        best_misfit_bw := best_misfit_bw;
        best_misfit_sw := best_misfit_sw; best_misfit := best_misfit;
        process_bw := process_bw; process_sw := process_sw;
        misfit_bw := process_bw; misfit_sw := process_sw;
        norm_ := norm;
        bw_T_min := bw_T_min; bw_T_max := bw_T_max;
        bw_win_len := bw_win_len;
        sw_T_min := sw_T_min; sw_T_max := sw_T_max;
        sw_win_len := sw_win_len |}.

(** The workaround that is not commented out; the removal of the files
    tmp.png and tmp.ps is tried and its failure ignored. *)
Definition display_source (self : Instance) (height offset : F)
  : W F unit :=
  (* beachball size *)
  let diameter := ProcessData.fmul (ProcessData.lit 0.75) height in
  (* beachball placement *)
  let xp := offset in
  let yp := ProcessData.fmul (ProcessData.lit 0.075) height in
  _ ← lift (plot_beachball "tmp.png" (mt self));
  _ ← lift (imread "tmp.png");
  call (imshow (xp, ProcessData.fadd xp diameter,
                yp, ProcessData.fadd yp diameter)).

Definition _write_text (text : string) (x y : F) (fontsize : Z)
  : W F unit :=
  call (pyplot_text x y text fontsize false).

Definition _write_bold (text : string) (x y : F) (fontsize : Z)
  : W F unit :=
  call (pyplot_text x y text fontsize true).

Definition _lat_lon (origin : ProcessData.Origin F) : result string :=
  latlon ←
    (if ProcessData.fleb (ProcessData.lit 0) (ProcessData.latitude origin)
     then format "%.1f%s%s"
            [ANum (ProcessData.latitude origin); AStr "°"; AStr "N"]
     else format "%.1f%s%s"
            [ANum (fneg (ProcessData.latitude origin)); AStr "°";
             AStr "S"]);
  more ←
    (if ProcessData.fltb (ProcessData.lit 0) (ProcessData.longitude origin)
     then format "% .1f%s%s"
            [ANum (ProcessData.longitude origin); AStr "°"; AStr "E"]
     else format "% .1f%s%s"
            [ANum (fneg (ProcessData.longitude origin)); AStr "°";
             AStr "W"]);
  Ok (latlon +:+ more).

Definition _focal_mechanism (lune_dict : gmap string F) : result string :=
  strike ← ProcessData.getitem "kappa" lune_dict;
  dip ←
    ProcessData.try_except
      (h ← ProcessData.getitem "h" lune_dict; Ok (degrees_arccos h))
      (ProcessData.getitem "theta" lune_dict);
  slip ← ProcessData.getitem "sigma" lune_dict;
  format "strike  dip  slip:  %d  %d  %d;  "
    [ANum strike; ANum dip; ANum slip].

Definition _delta_gamma (lune_dict : gmap string F) : result string :=
  '(delta, gamma) ←
    ProcessData.try_except
      (v ← ProcessData.getitem "v" lune_dict;
       w ← ProcessData.getitem "w" lune_dict;
       to_delta_gamma v w)
      (delta ← ProcessData.getitem "delta" lune_dict;
       gamma ← ProcessData.getitem "gamma" lune_dict;
       Ok (delta, gamma));
  format "  %s  %s:  %d  %d" [AStr "γ"; AStr "δ"; ANum delta; ANum gamma].

(** Writes header text to current figure.  The arguments are Python
    floats: dividing by one that is zero raises. *)
Definition write (self : Instance) (height width margin_left margin_top : F)
  : W F unit :=
  _ ← Base._get_axis height;
  quotient ←
    lift (ProcessData.truediv
            (ProcessData.fadd margin_left
               (ProcessData.fmul (ProcessData.lit 0.75) height)) width);
  let px0 := ProcessData.fadd quotient (ProcessData.lit 0.05) in
  quotient ← lift (ProcessData.truediv margin_top height);
  let py0 := ProcessData.fsub (ProcessData.lit 0.8) quotient in
  _ ← display_source self height margin_left;
  (* write text line #1 *)
  let px := px0 in
  let py := py0 in
  latlon ← lift (_lat_lon (origin self));
  line ← lift (format "%s  $M_w$ %.2f  Depth %d km  %s"
                 [AStr (event_name self); ANum (magnitude_ self);
                  ANum (depth_in_km self); AStr latlon]);
  _ ← _write_bold line px py 16;
  (* write text line #2 *)
  let px := px0 in
  let py := ProcessData.fsub py (ProcessData.lit 0.175) in
  line ← lift (format "Model %s   Solver %s   %s norm %.1e"
                 [AStr (model self); AStr (solver self); AStr (norm_ self);
                  ANum (best_misfit self)]);
  _ ← _write_text line px py 14;
  (* write text line #3 *)
  let px := px0 in
  let py := ProcessData.fsub py (ProcessData.lit 0.175) in
  line ←
    (if bool_decide (is_Some (process_bw self))
        && bool_decide (is_Some (process_bw self)) then
       bw_T_min ← lift (ProcessData.getattr (bw_T_min self));
       bw_T_max ← lift (ProcessData.getattr (bw_T_max self));
       bw_win_len ← lift (ProcessData.getattr (bw_win_len self));
       sw_T_min ← lift (ProcessData.getattr (sw_T_min self));
       sw_T_max ← lift (ProcessData.getattr (sw_T_max self));
       sw_win_len ← lift (ProcessData.getattr (sw_win_len self));
       lift (format
               ("body waves:  %.1f - %.1f s passband, %.1f s window ;  "
                +:+ "surface waves: %.1f - %.1f s passband, %.1f s window ")
               [ANum bw_T_min; ANum bw_T_max; AValue bw_win_len;
                ANum sw_T_min; ANum sw_T_max; AValue sw_win_len])
     else if bool_decide (is_Some (process_sw self)) then
       sw_T_min ← lift (ProcessData.getattr (sw_T_min self));
       sw_T_max ← lift (ProcessData.getattr (sw_T_max self));
       sw_win_len ← lift (ProcessData.getattr (sw_win_len self));
       lift (format "passband %.1f - %.1f s,  window length %.1f s "
               [ANum sw_T_min; ANum sw_T_max; AValue sw_win_len])
     else mret line);
  _ ← _write_text line px py 14;
  (* write text line #4 *)
  let px := px0 in
  let py := ProcessData.fsub py (ProcessData.lit 0.175) in
  line ← lift (_focal_mechanism (lune_dict self));
  more ← lift (_delta_gamma (lune_dict self));
  let line := line +:+ more in
  _write_text line px py 14.
End MomentTensorHeader.
End MomentTensorHeader.

(** *** Libraries to run the model in

    A figure of 8 by 6 inches, every moment tensor of magnitude 4.5, a
    beachball that is always plotted; the operator [%] gives back its
    format string, which tells the lines of a header apart, and the
    angles are left as they are. *)

Definition example_libraries : Libraries Q unit := {|
  fneg := Qopp;
  format := λ fmt _, Ok fmt;
  magnitude := λ _, 4.5%Q;
  get_size_inches := (8, 6)%Q;
  plot_beachball := λ _ _, Ok ();
  imread := λ _, Ok ();
  degrees_arccos := λ h, h;
  to_delta_gamma := λ v w, Ok (v, w);
|}.

(** [ProcessData(filter_type='Bandpass', freq_min=0.1, freq_max=0.5,
    pick_type='from_fk_metadata', window_type='cap_bw', ...)] *)
Definition example_process : result (ProcessData.Instance Q) :=
  @ProcessData.__init__ Q ProcessData.Q_Float ProcessData.example_world
    (Some "Bandpass"%string) (Some "from_fk_metadata"%string)
    (Some "cap_bw"%string) None
    (<["freq_min"%string := ProcessData.VFloat 0.1%Q]>
       (<["freq_max"%string := ProcessData.VFloat 0.5%Q]>
          ProcessData.example_parameters)).

(** [MomentTensorHeader(event_name, process_bw, process_sw, ...)] for an
    event at 61.5 N, 149.7 W. *)
Definition example_header
    (process_bw process_sw : option (ProcessData.Instance Q))
  : result (@MomentTensorHeader.Instance Q unit) :=
  @MomentTensorHeader.__init__ Q unit ProcessData.Q_Float example_libraries
    "20090407201255351" process_bw process_sw
    (Some {| norm := "L2" |}) (Some {| norm := "L2" |}) "ak135" "syngine"
    ()
    {[ "kappa"%string := 30%Q; "theta"%string := 60%Q;
       "sigma"%string := 90%Q; "delta"%string := 0%Q;
       "gamma"%string := 0%Q ]}
    {| ProcessData.latitude := 61.5%Q;
       ProcessData.longitude := (-149.7)%Q;
       ProcessData.depth_in_m := 33000%Q; ProcessData.time := 1000%Q |}
    [1e-10%Q] [2e-10%Q].

End Header.

(** * Properties *)

(** ** Results *)

Lemma rbind_Ok {A B} (r : result A) (k : A → result B) (b : B) :
  rbind r k = Ok b → ∃ a, r = Ok a ∧ k a = Ok b.
Proof. destruct r as [a|e]; simpl; [eauto|discriminate]. Qed.

Lemma rsequence_Ok_map {A B} (f : A → result B) (g : A → B) (l : list A) :
  (∀ x, x ∈ l → f x = Ok (g x)) → rsequence (f <$> l) = Ok (g <$> l).
Proof.
  induction l as [|x l IH]; intros Hf; [reflexivity|].
  cbn. rewrite (Hf x) by left. cbn.
  rewrite IH; [reflexivity|]. intros y Hy. apply Hf. by right.
Qed.

(** ** Arrays *)

Section NdarrayFacts.
Import Numpy.
Context {V : Type}.
Implicit Types (a b : list (list V)) (rest : list (list (list V))).

Local Abbreviation width1 a := (Forall (λ r : list V, length r = 1) a).

Lemma column_of_width1 (vs : list V) : width1 (rows (column_of vs)).
Proof. apply Forall_fmap, Forall_true; done. Qed.

Lemma zip_app_columns a b :
  length a = length b → width1 a →
  (λ r : list V, r !! 0) <$> zip_with app a b = (λ r, r !! 0) <$> a
  ∧ ∀ i, (λ r : list V, r !! S i) <$> zip_with app a b
         = (λ r, r !! i) <$> b.
Proof.
  revert b. induction a as [|ra a IH]; intros [|rb b] Hlen Hw;
    try discriminate; [done|].
  apply Forall_cons in Hw as [Hra Hw].
  destruct (IH b) as [IH0 IHS]; [by inversion Hlen|done|].
  destruct ra as [|v [|? ?]]; try discriminate.
  split; [cbn; by rewrite IH0|].
  intros i. cbn. by rewrite IHS.
Qed.

(** Stacking [n] columns of the same height gives rows of [n] entries,
    and the column [i] of the stack is the column given [i]-th. *)
Lemma hcat_columns rest : ∀ a,
  width1 a →
  Forall (λ b, length b = length a ∧ width1 b) rest →
  length (hcat a rest) = length a
  ∧ Forall (λ r, length r = S (length rest)) (hcat a rest)
  ∧ ∀ i b, (a :: rest) !! i = Some b →
      (λ r : list V, r !! i) <$> hcat a rest = (λ r, r !! 0) <$> b.
Proof.
  induction rest as [|b0 rest IH]; intros a Ha Hrest.
  - cbn. repeat split; [done|].
    intros [|i] b Hb; [|done]. by injection Hb as <-.
  - apply Forall_cons in Hrest as [[Hlen0 Hb0] Hrest].
    destruct (IH b0) as (IHlen & IHrows & IHcol); [done| |].
    { eapply Forall_impl; [exact Hrest|]. intros b [? ?]. split; [lia|done]. }
    assert (Hlen : length a = length (hcat b0 rest)) by lia.
    destruct (zip_app_columns a (hcat b0 rest) Hlen Ha) as [Z0 ZS].
    cbn [hcat]. repeat split.
    + rewrite length_zip_with. lia.
    + apply Forall_forall. intros r Hr.
      apply elem_of_zip_with in Hr as (ra & rb & -> & Hra & Hrb).
      rewrite length_app.
      rewrite Forall_forall in IHrows. rewrite (IHrows rb Hrb).
      rewrite Forall_forall in Ha.
      rewrite (Ha ra Hra). reflexivity.
    + intros [|i] b Hb.
      * injection Hb as <-. exact Z0.
      * rewrite ZS. apply IHcol. exact Hb.
Qed.

(** A well-formed array with one column is the column of its values. *)
Lemma wf_width1 (x : ndarray V) : wf x → ncols x = 1 → width1 (rows x).
Proof.
  intros Hwf Hn. eapply Forall_impl; [exact Hwf|].
  intros r Hr. cbn in Hr. by rewrite Hr.
Qed.

End NdarrayFacts.

Section ConcatenateFacts.
Import Numpy.
Context {V : Type}.

(** [np.concatenate(arrs, axis=1)] on columns of the same height [m]. *)
Lemma concatenate_columns (arrs : list (ndarray V)) (m : nat) :
  arrs ≠ [] →
  (∀ x, x ∈ arrs → nrows x = m ∧ ncols x = 1 ∧ wf x) →
  ∃ results,
    concatenate_axis1 arrs = Ok results
    ∧ shape results = (m, length arrs)
    ∧ wf results
    ∧ ∀ i x, arrs !! i = Some x → column i results = column 0 x.
Proof.
  intros Hne Harr. destruct arrs as [|a rest]; [done|].
  destruct (Harr a) as (Ha_rows & Ha_cols & Ha_wf); [by left|].
  assert (Hrest : Forall (λ b, length b = length (rows a)
                               ∧ Forall (λ r : list V, length r = 1) b)
                    (rows <$> rest)).
  { apply Forall_fmap, Forall_forall. intros b Hb.
    destruct (Harr b) as (Hb_rows & Hb_cols & Hb_wf); [by right|].
    cbn. split; [unfold nrows in *; lia|by apply wf_width1]. }
  destruct (hcat_columns (rows <$> rest) (rows a)
              (wf_width1 a Ha_wf Ha_cols) Hrest)
    as (Hl & Hw & Hcol).
  assert (Hall : forallb (λ b, nrows b =? nrows a) rest = true).
  { apply forallb_forall. intros b Hb. apply Nat.eqb_eq.
    apply list_elem_of_In in Hb.
    destruct (Harr b) as (Hb_rows & _); [by right|]. lia. }
  assert (Hcols : foldr (λ b n, ncols b + n) 0 (a :: rest)
                  = length (a :: rest)).
  { clear -Harr. induction (a :: rest) as [|x l IH]; [done|].
    cbn. destruct (Harr x) as (_ & -> & _); [by left|].
    rewrite IH; [done|]. intros y Hy. apply Harr. by right. }
  cbn [concatenate_axis1]. rewrite Hall. eexists. split; [reflexivity|].
  split; [|split].
  - unfold shape, nrows in *. cbn [rows ncols]. rewrite Hl, Hcols.
    by rewrite Ha_rows.
  - unfold wf. cbn [rows ncols]. rewrite Hcols. cbn [length].
    by rewrite length_fmap in Hw.
  - intros i x Hx. unfold column. cbn [rows].
    apply Hcol.
    change (rows a :: (rows <$> rest)) with (rows <$> (a :: rest)).
    by rewrite list_lookup_fmap, Hx.
Qed.
End ConcatenateFacts.

(** ** The serial evaluator and the grid search *)

Section GridSearchFacts.
Import Numpy GridSearch.
Context {Data Greens Origin Source V : Type}.
Variable select : Greens → Origin → Greens.
Variable partition : list Source → nat → list (list Source).
Implicit Types (misfit : @misfit_fn Data Greens Source V).

(** The calls the serial evaluator makes, in order. *)
Lemma serial_calls data greens misfit (origins : list Origin)
    (sources : list Source) msg i o :
  origins !! i = Some o →
  imap (λ _i origin,
          misfit data (select greens origin) sources
            {| start := _i * length sources;
               stop := length origins * length sources;
               percent := msg |}) origins !! i
  = Some (misfit data (select greens o) sources
            {| start := i * length sources;
               stop := length origins * length sources;
               percent := msg |}).
Proof. intros Ho. by rewrite list_lookup_imap, Ho. Qed.

(** C4. With at least one origin and a misfit callable that returns a
    column of shape (m, 1) for the source grid, the serial evaluator
    returns a matrix of shape (m, n), whose column [i] is the column the
    callable returns for the data, the Green's functions selected for
    the [i]-th origin, the whole source grid and the progress reporter
    of that origin. *)
Theorem serial_shape_and_columns data greens misfit
    (origins : list Origin) (sources : list Source) msg_interval :
  1 ≤ length origins →
  (∀ g h, shape (misfit data g sources h) = (length sources, 1)
          ∧ wf (misfit data g sources h)) →
  ∃ results,
    _grid_search_serial select data greens misfit origins sources
      msg_interval = Ok results
    ∧ shape results = (length sources, length origins)
    ∧ wf results
    ∧ ∀ i origin, origins !! i = Some origin →
        column i results
        = column 0 (misfit data (select greens origin) sources
                      {| start := i * length sources;
                         stop := length origins * length sources;
                         percent := msg_interval |}).
Proof.
  intros Hn Hmisfit. unfold _grid_search_serial.
  set (arrs := imap _ origins).
  assert (Hlen : length arrs = length origins) by apply length_imap.
  destruct (concatenate_columns arrs (length sources))
    as (results & Hres & Hshape & Hwf & Hcol).
  { intros Harrs. rewrite Harrs in Hlen. cbn in Hlen. lia. }
  { intros x Hx. apply list_elem_of_lookup in Hx as [i Hi].
    subst arrs. rewrite list_lookup_imap in Hi.
    destruct (origins !! i) as [o|]; [|discriminate].
    injection Hi as <-.
    destruct (Hmisfit (select greens o)
                {| start := i * length sources;
                   stop := length origins * length sources;
                   percent := msg_interval |}) as [Hs Hw].
    unfold shape in Hs. injection Hs as Hr Hc. done. }
  exists results. split; [exact Hres|]. split; [by rewrite Hshape, Hlen|].
  split; [exact Hwf|].
  intros i o Ho. apply Hcol. subst arrs.
  by rewrite (serial_calls _ _ _ _ _ _ _ _ Ho).
Qed.

(** C3. Outside an MPI environment [grid_search] is the serial
    evaluator, whatever [allgather] is; and then, for a grid of seven
    sources, one origin and a misfit callable that returns columns of
    shape (7, 1), it returns a matrix of shape (7, 1). *)
Theorem grid_search_without_mpi env data greens misfit
    (origins : list Origin) (sources : list Source) msg_interval
    allgather :
  _is_mpi_env env = false →
  grid_search select partition env data greens misfit origins sources
    msg_interval allgather
  = _grid_search_serial select data greens misfit origins sources
      msg_interval
  ∧ (length sources = 7 → length origins = 1 →
     (∀ g h, shape (misfit data g sources h) = (7, 1)
             ∧ wf (misfit data g sources h)) →
     ∃ results,
       grid_search select partition env data greens misfit origins
         sources msg_interval allgather = Ok results
       ∧ shape results = (7, 1)).
Proof.
  intros Henv.
  assert (Heq : grid_search select partition env data greens misfit
                  origins sources msg_interval allgather
                = _grid_search_serial select data greens misfit origins
                    sources msg_interval).
  { unfold grid_search. rewrite Henv, andb_false_r.
    by destruct (_grid_search_serial _ _ _ _ _ _ _). }
  split; [exact Heq|].
  intros Hm Hn Hmisfit. rewrite Heq. unfold _grid_search_serial.
  destruct origins as [|origin [|? ?]]; try discriminate.
  destruct (concatenate_columns
              (imap (λ _i origin,
                       misfit data (select greens origin) sources
                         {| start := _i * length sources;
                            stop := 1 * length sources;
                            percent := msg_interval |}) [origin]) 7)
    as (results & Hres & Hshape & _).
  - discriminate.
  - intros x Hx. apply list_elem_of_singleton in Hx as ->.
    destruct (Hmisfit (select greens origin)
                {| start := 0 * length sources;
                   stop := 1 * length sources;
                   percent := msg_interval |}) as [Hs Hw].
    unfold shape in Hs. injection Hs as Hr Hc. done.
  - exists results. split; [exact Hres|exact Hshape].
Qed.

(** The serial evaluator on a misfit callable that works source by
    source: [misfit] evaluates [f] on each source of the grid it is
    given, and nothing else of its arguments matters. *)
Lemma hcat_pointwise {A} (srcs : list A) (cols : list (A → V)) : ∀ c0,
  hcat ((λ s, [c0 s]) <$> srcs)
       ((λ c : A → V, (λ s, [c s]) <$> srcs) <$> cols)
  = (λ s, c0 s :: ((λ c, c s) <$> cols)) <$> srcs.
Proof.
  induction cols as [|c1 cols IH]; intros c0; [done|].
  cbn [fmap list_fmap hcat]. rewrite (IH c1).
  rewrite zip_with_fmap_l, zip_with_fmap_r, zip_with_diag. done.
Qed.

Lemma serial_pointwise (f : Data → Greens → Source → V) data greens misfit
    (origins : list Origin) (sources : list Source) msg_interval :
  (∀ d g srcs h, misfit d g srcs h = column_of (f d g <$> srcs)) →
  _grid_search_serial select data greens misfit origins sources
    msg_interval
  = match origins with
    | [] => Raise ValueError
    | _ :: _ =>
        Ok {| rows := (λ s, (λ o, f data (select greens o) s) <$> origins)
                        <$> sources;
              ncols := length origins |}
    end.
Proof.
  intros Hf. unfold _grid_search_serial.
  rewrite (imap_ext _
             (λ _ o, column_of (f data (select greens o) <$> sources)))
    by (intros; apply Hf).
  change (imap _ origins)
    with (imap (const (λ o, column_of (f data (select greens o)
                                          <$> sources))) origins).
  rewrite imap_const.
  destruct origins as [|o os]; [done|].
  cbn [fmap list_fmap concatenate_axis1].
  replace (forallb _ _) with true; cycle 1.
  { symmetry. apply forallb_forall. intros b Hb.
    apply list_elem_of_In, list_elem_of_fmap in Hb as (o' & -> & _).
    apply Nat.eqb_eq. unfold nrows, column_of. cbn.
    by rewrite !length_fmap. }
  f_equal. f_equal.
  - cbn [rows column_of].
    pose proof (hcat_pointwise sources
                  ((λ o s, f data (select greens o) s) <$> os)
                  (f data (select greens o))) as Hcat.
    etrans; [|etrans; [exact Hcat|]].
    + f_equal.
      * by rewrite <- list_fmap_compose.
      * rewrite <- !list_fmap_compose. apply list_fmap_ext.
        intros _ o' _. cbn. by rewrite <- list_fmap_compose.
    + apply list_fmap_ext. intros _ s _. cbn.
      by rewrite <- list_fmap_compose.
  - cbn [foldr ncols column_of length]. f_equal.
    induction os as [|o' os IH]; [done|].
    cbn [fmap list_fmap foldr ncols column_of length]. by rewrite IH.
Qed.

Lemma fmap_concat_rows {A B} (g : A → B) (parts : list (list A)) :
  concat ((λ p : list A, g <$> p) <$> parts) = g <$> concat parts.
Proof.
  induction parts as [|p parts IH]; [done|].
  cbn. by rewrite IH, fmap_app.
Qed.

(** Stacking the blocks of rows computed for the parts of a grid gives the
    rows computed for the whole grid. *)
Lemma concatenate_parts (g : Source → list V) (n : nat)
    (parts : list (list Source)) :
  parts ≠ [] →
  concatenate_axis0
    ((λ p : list Source, {| rows := g <$> p; ncols := n |}) <$> parts)
  = Ok {| rows := g <$> concat parts; ncols := n |}.
Proof.
  intros Hparts. destruct parts as [|p parts]; [done|].
  cbn [fmap list_fmap concatenate_axis0 ncols].
  replace (forallb _ _) with true; cycle 1.
  { symmetry. apply forallb_forall. intros b Hb.
    apply list_elem_of_In, list_elem_of_fmap in Hb as (p' & -> & _).
    apply Nat.eqb_refl. }
  f_equal. f_equal.
  change (?h p :: (?h <$> parts)) with (h <$> (p :: parts)).
  rewrite <- list_fmap_compose.
  exact (fmap_concat_rows _ (p :: parts)).
Qed.

(** C1, as the code has it.  When the misfit callable works source by
    source (the row of a source depends on the data, the Green's
    functions and that source only), the outputs of the serial evaluator
    on the parts of a grid, concatenated along the source axis, are the
    output of the serial evaluator on the whole grid; with no origin at
    all both raise the same error. *)
Theorem gather_consistency_pointwise (f : Data → Greens → Source → V)
    data greens misfit (origins : list Origin)
    (parts : list (list Source)) msg_interval :
  (∀ d g srcs h, misfit d g srcs h = column_of (f d g <$> srcs)) →
  parts ≠ [] →
  gather_serial select data greens misfit origins parts msg_interval
  = _grid_search_serial select data greens misfit origins (concat parts)
      msg_interval.
Proof.
  intros Hf Hparts. unfold gather_serial.
  rewrite (serial_pointwise f _ _ _ _ (concat parts)) by done.
  destruct origins as [|o os].
  - destruct parts as [|p parts]; [done|].
    cbn [fmap list_fmap rsequence].
    by rewrite (serial_pointwise f) by done.
  - rewrite (rsequence_Ok_map _
               (λ p, {| rows := (λ s, (λ o, f data (select greens o) s)
                                        <$> (o :: os)) <$> p;
                        ncols := length (o :: os) |})).
    2:{ intros p _. by rewrite (serial_pointwise f) by done. }
    cbn [rbind]. by apply concatenate_parts.
Qed.

(** Running the ranks in order is running over the parts in order. *)
Lemma rsequence_ranks {A B} (run : nat → result B) (g : A → B)
    (parts : list A) : ∀ first,
  (∀ r p, parts !! r = Some p → run (first + r) = Ok (g p)) →
  rsequence (run <$> seq first (length parts)) = Ok (g <$> parts).
Proof.
  induction parts as [|p parts IH]; intros first Hrun; [done|].
  cbn [length seq fmap list_fmap rsequence].
  rewrite <- (Nat.add_0_r first) at 1. rewrite (Hrun 0 p) by done.
  cbn. rewrite (IH (S first)); [done|].
  intros r p' Hp'. replace (S first + r) with (first + S r) by lia.
  by apply (Hrun (S r)).
Qed.

(** X29. Through [grid_search] in an MPI environment with
    [allgather=True], for a misfit callable that works source by source,
    when [partition] cuts the grid into one part per process and the
    parts, in order, make up the grid: every rank returns what the serial
    evaluator returns on the whole grid. *)
Lemma grid_search_mpi_gather (f : Data → Greens → Source → V) env
    data greens misfit (origins : list Origin) (sources : list Source)
    msg_interval :
  (∀ d g srcs h, misfit d g srcs h = column_of (f d g <$> srcs)) →
  _is_mpi_env env = true →
  COMM_WORLD_rank env < COMM_WORLD_size env →
  length (partition sources (COMM_WORLD_size env)) = COMM_WORLD_size env →
  concat (partition sources (COMM_WORLD_size env)) = sources →
  grid_search select partition env data greens misfit origins sources
    msg_interval true
  = _grid_search_serial select data greens misfit origins sources
      msg_interval.
Proof.
  intros Hf Henv Hrank Hlen Hconcat. unfold grid_search.
  rewrite Henv. cbn [andb].
  set (nproc := COMM_WORLD_size env) in *.
  set (parts := partition sources nproc) in *.
  assert (Hrun : ∀ r p, parts !! r = Some p →
            rank_results select partition data greens misfit origins
              sources msg_interval nproc r
            = _grid_search_serial select data greens misfit origins p
                msg_interval).
  { intros r p Hp. unfold rank_results, scatter. fold parts.
    rewrite Hlen, Nat.eqb_refl, Hp. cbn.
    by rewrite !(serial_pointwise f) by done. }
  destruct (lookup_lt_is_Some_2 parts (COMM_WORLD_rank env)) as [p Hp];
    [lia|].
  rewrite (Hrun _ p Hp).
  rewrite (serial_pointwise f _ _ _ _ sources) by done.
  rewrite (serial_pointwise f _ _ _ _ p) by done.
  destruct origins as [|o os]; [done|]. cbn [rbind].
  unfold allgather_results. rewrite <- Hlen.
  rewrite (rsequence_ranks _
             (λ p, {| rows := (λ s, (λ o, f data (select greens o) s)
                                      <$> (o :: os)) <$> p;
                      ncols := length (o :: os) |}) parts 0).
  2:{ intros r p' Hp'. cbn [Nat.add]. fold parts. rewrite Hlen.
      rewrite (Hrun r p' Hp'). by rewrite (serial_pointwise f) by done. }
  cbn [rbind]. rewrite concatenate_parts.
  - by rewrite Hconcat.
  - intros Hnil. rewrite Hnil in Hlen. cbn in Hlen.
    unfold nproc in *. lia.
Qed.
End GridSearchFacts.

(** C1, as stated, fails: a misfit callable that is a function of its
    inputs may look at the grid as a whole.  This one gives every source
    the number of sources of the grid it was handed; on the parts [1] and
    [2] of the grid [1; 2] the gathered matrix holds 1, 1 and the matrix
    of the whole grid 2, 2. *)
Lemma gather_consistency_any_misfit_fails :
  let select := λ (g : unit) (_ : unit), g in
  let misfit : @GridSearch.misfit_fn unit unit nat nat :=
    λ _ _ srcs _, Numpy.column_of ((λ _, length srcs) <$> srcs) in
  let parts := [[1]; [2]] in
  concat parts = [1; 2]
  ∧ GridSearch.gather_serial select () () misfit [()] parts 25
    = Ok {| Numpy.rows := [[1]; [1]]; Numpy.ncols := 1 |}
  ∧ GridSearch._grid_search_serial select () () misfit [()] [1; 2] 25
    = Ok {| Numpy.rows := [[2]; [2]]; Numpy.ncols := 1 |}
  ∧ GridSearch.gather_serial select () () misfit [()] parts 25
    ≠ GridSearch._grid_search_serial select () () misfit [()]
        (concat parts) 25.
Proof. cbv zeta. repeat split; [discriminate]. Qed.

(** *** The three properties on a small grid

    Green's functions and origins are numbers, [select] adds them, and the
    misfit of a source is its product with the selected number. *)

Lemma serial_shape_and_columns_witness :
  let select := λ g o : nat, g + o in
  let misfit : @GridSearch.misfit_fn unit nat nat nat :=
    λ _ g srcs _, Numpy.column_of ((λ s, g * s) <$> srcs) in
  ∃ results,
    GridSearch._grid_search_serial select () 0 misfit [1; 2] [10; 20; 30]
      25 = Ok results
    ∧ Numpy.shape results = (3, 2)
    ∧ Numpy.wf results
    ∧ ∀ i origin, [1; 2] !! i = Some origin →
        Numpy.column i results
        = Numpy.column 0
            (misfit () (select 0 origin) [10; 20; 30]
               {| GridSearch.start := i * 3; GridSearch.stop := 2 * 3;
                  GridSearch.percent := 25 |}).
Proof.
  intros select misfit.
  apply (serial_shape_and_columns select () 0 misfit [1; 2] [10; 20; 30] 25).
  - cbn. lia.
  - intros g h. split; [reflexivity|]. repeat constructor.
Defined.

Lemma grid_search_without_mpi_witness :
  let select := λ g o : nat, g + o in
  let partition := λ (l : list nat) (n : nat), [l] in
  let misfit : @GridSearch.misfit_fn unit nat nat nat :=
    λ _ g srcs _, Numpy.column_of ((λ s, g * s) <$> srcs) in
  let env := {| GridSearch.mpi4py_importable := true;
                GridSearch.mpi4py_MPI_importable := true;
                GridSearch.COMM_WORLD_size := 1;
                GridSearch.COMM_WORLD_rank := 0 |} in
  let sources := [1; 2; 3; 4; 5; 6; 7] in
  GridSearch._is_mpi_env env = false
  ∧ GridSearch.grid_search select partition env () 0 misfit [1] sources 25
      true
    = GridSearch._grid_search_serial select () 0 misfit [1] sources 25
  ∧ ∃ results,
      GridSearch.grid_search select partition env () 0 misfit [1] sources
        25 true = Ok results
      ∧ Numpy.shape results = (7, 1).
Proof.
  intros select partition misfit env sources.
  split; [reflexivity|].
  destruct (grid_search_without_mpi select partition env () 0 misfit [1]
              sources 25 true eq_refl) as [Heq Hshape].
  split; [exact Heq|].
  apply Hshape; [reflexivity|reflexivity|].
  intros g h. split; [reflexivity|]. repeat constructor.
Defined.

Lemma gather_consistency_pointwise_witness :
  let select := λ g o : nat, g + o in
  let f := λ (_ : unit) (g s : nat), g * s in
  let misfit : @GridSearch.misfit_fn unit nat nat nat :=
    λ d g srcs _, Numpy.column_of (f d g <$> srcs) in
  let parts := [[10]; [20; 30]] in
  parts ≠ []
  ∧ GridSearch.gather_serial select () 0 misfit [1; 2] parts 25
    = GridSearch._grid_search_serial select () 0 misfit [1; 2]
        (concat parts) 25.
Proof.
  intros select f misfit parts.
  split; [discriminate|].
  apply (gather_consistency_pointwise select f () 0 misfit [1; 2] parts 25).
  - reflexivity.
  - discriminate.
Defined.

(** ** Construction *)

Section InitFacts.
Import ProcessData.
Context {F : Type} `{Float F} `{World F}.
Implicit Types (parameters : gmap string (value F)).

(** [__init__] succeeds exactly when its four checks do, the last three on
    the dictionary the filter check leaves. *)
Lemma init_Ok filter_type pick_type window_type weight_type parameters
    parameters' fs ps ws gs :
  check_filter filter_type parameters = Ok (parameters', fs) →
  check_pick pick_type parameters' = Ok ps →
  check_window window_type parameters' = Ok ws →
  check_weight weight_type parameters' = Ok gs →
  ∃ self,
    __init__ filter_type pick_type window_type weight_type parameters
    = Ok self
    ∧ ProcessData.filter_type self = filter_type
    ∧ ProcessData.pick_type self = pick_type
    ∧ ProcessData.window_type self = window_type
    ∧ ProcessData.weight_type self = weight_type
    ∧ scaling_power self = gs.1.2
    ∧ _picks self = ∅ ∧ _windows self = ∅.
Proof.
  intros Hf Hp Hw Hg. unfold __init__.
  rewrite Hf. destruct fs as [[fmin fmax] fr]. cbn.
  rewrite Hp. destruct ps as [[[a b] c] d]. cbn.
  rewrite Hw. destruct ws as [wl pl]. cbn.
  rewrite Hg. destruct gs as [[w sp] sd]. cbn.
  eexists. split; [reflexivity|]. cbn. done.
Qed.

(** C9, as the code has it.  With [pick_type='from_cap_weight_file'] the
    constructor never returns an instance: once the filter parameters have
    passed their checks it raises [NotImplementedError] itself. *)
Theorem init_from_cap_weight_file filter_type window_type weight_type
    parameters :
  (∀ self,
     __init__ filter_type (Some "from_cap_weight_file"%string) window_type
       weight_type parameters ≠ Ok self)
  ∧ (∀ r, check_filter filter_type parameters = Ok r →
       __init__ filter_type (Some "from_cap_weight_file"%string) window_type
         weight_type parameters = Raise NotImplementedError).
Proof.
  unfold __init__.
  destruct (check_filter filter_type parameters)
    as [[parameters' [[fmin fmax] fr]]|e]; cbn.
  - split; [discriminate|reflexivity].
  - split; [discriminate|]. intros r Hr. discriminate.
Qed.
End InitFacts.

(** ** The weight blocks *)

#[export] Instance Q_FloatLaws : @ProcessData.FloatLaws Q ProcessData.Q_Float.
Proof.
  split; [reflexivity|].
  intros x. cbn. destruct (Qlt_le_dec 0 x) as [Hlt|]; [intros _|discriminate].
  destruct (Qeq_bool x 0) eqn:E; [|reflexivity].
  apply Qeq_bool_eq in E. rewrite E in Hlt.
  exfalso. exact (Qlt_irrefl 0 Hlt).
Qed.

Section WeightFacts.
Import ProcessData.
Context {F : Type} `{Float F} `{World F}.
Implicit Types (heap traces : list (Trace F)) (refs pre snapshot : list nat).

Lemma rmap_app {A B} (body : A → result B) (l1 l2 : list A) :
  rmap body (l1 ++ l2)
  = rbind (rmap body l1) (λ o1, rbind (rmap body l2) (λ o2, Ok (o1 ++ o2))).
Proof.
  induction l1 as [|x l1 IH]; cbn.
  - by destruct (rmap body l2).
  - destruct (body x) as [y|e]; cbn; [|done]. rewrite IH.
    destruct (rmap body l1) as [o1|e]; cbn; [|done].
    by destruct (rmap body l2).
Qed.

Lemma rmap_Ok {A B} (body : A → result B) (g : A → B) (l : list A) :
  (∀ x, x ∈ l → body x = Ok (g x)) → rmap body l = Ok (g <$> l).
Proof.
  induction l as [|x l IH]; intros Hg; [done|].
  cbn. rewrite (Hg x) by left. cbn.
  rewrite IH; [done|]. intros y Hy. apply Hg. by right.
Qed.

Lemma omap_ext_in {A B} (f g : A → option B) (l : list A) :
  (∀ x, x ∈ l → f x = g x) → omap f l = omap g l.
Proof.
  induction l as [|x l IH]; intros Hfg; [done|].
  cbn. rewrite (Hfg x) by left.
  rewrite IH; [done|]. intros y Hy. apply Hfg. by right.
Qed.

Lemma omap_lookup_seq_app {A} (l2 : list A) : ∀ l1,
  omap (λ j, (l1 ++ l2) !! j) (seq (length l1) (length l2)) = l2.
Proof.
  induction l2 as [|x l2 IH]; intros l1; [done|].
  cbn [length seq]. csimpl. rewrite list_lookup_middle by done.
  f_equal. specialize (IH (l1 ++ [x])).
  rewrite <- app_assoc, length_app, Nat.add_1_r in IH. exact IH.
Qed.

Lemma omap_lookup_seq {A} (l : list A) :
  omap (λ j, l !! j) (seq 0 (length l)) = l.
Proof. exact (omap_lookup_seq_app l []). Qed.

(** [list.remove] goes past the items the test rejects and drops the first
    one it accepts. *)
Lemma remove_first_app {A} (p : A → bool) (l1 l2 : list A) (x : A) :
  (∀ y, y ∈ l1 → p y = false) → p x = true →
  remove_first p (l1 ++ x :: l2) = l1 ++ l2.
Proof.
  intros Hl1 Hx. induction l1 as [|y l1 IH]; cbn.
  - by rewrite Hx.
  - rewrite (Hl1 y) by left. f_equal. apply IH.
    intros z Hz. apply Hl1. by right.
Qed.

(** Equal traces have the same channel code, hence the same component. *)
Lemma trace_eqb_component (a b : Trace F) :
  trace_eqb a b = true → component a = component b.
Proof.
  unfold trace_eqb, stats_eqb, component. intros Heq.
  repeat (apply andb_prop in Heq as [Heq _]).
  apply String.eqb_eq in Heq. by rewrite Heq.
Qed.

Section Loop.
Variable resolve : ascii → result F.

(** A trace the loop has gone past and left in the stream. *)
Local Abbreviation kept item :=
  (∀ c, component item = Some c → ∃ w, resolve c = Ok w ∧ truthy w = true).

Lemma stream_remove_itself heap pre k snapshot trace c w :
  heap !! k = Some trace →
  component trace = Some c → resolve c = Ok w → truthy w = false →
  (∀ j item, j ∈ pre → heap !! j = Some item → kept item) →
  k ∉ pre →
  stream_remove heap k (pre ++ k :: snapshot) = pre ++ snapshot.
Proof.
  intros Hk Hc Hw Hfalse Hpre Hnotin. unfold stream_remove. rewrite Hk.
  apply remove_first_app.
  - intros j Hj. apply orb_false_intro.
    + apply Nat.eqb_neq. intros ->. done.
    + destruct (heap !! j) as [item|] eqn:Hitem; [|done].
      destruct (trace_eqb item trace) eqn:Heq; [|done].
      apply trace_eqb_component in Heq.
      destruct (Hpre j item Hj Hitem c) as (w' & Hw' & Htrue);
        [by rewrite Heq|].
      congruence.
  - by rewrite Nat.eqb_refl.
Qed.

Lemma weight_loop_traces tags :
  has_tag "type:greens" tags = false →
  ∀ snapshot pre heap,
    NoDup (pre ++ snapshot) →
    (∀ j, j ∈ pre ++ snapshot → is_Some (heap !! j)) →
    (∀ j item, j ∈ pre → heap !! j = Some item → kept item) →
    rbind (weight_loop resolve tags snapshot (heap, pre ++ snapshot))
          (λ st, Ok (stream_traces st))
    = rbind (rmap (weigh resolve) (omap (λ j, heap !! j) snapshot))
            (λ outs, Ok (omap (λ j, heap !! j) pre ++ omap (λ o, o) outs)).
Proof.
  intros Hgreens. induction snapshot as [|k snapshot IH];
    intros pre heap Hnodup Hbound Hkept.
  - cbn. unfold stream_traces. cbn. by rewrite !app_nil_r.
  - cbn [weight_loop]. rewrite Hgreens.
    destruct (Hbound k) as [trace Hk]; [apply elem_of_app; right; left|].
    assert (Hk_pre : k ∉ pre).
    { apply NoDup_app in Hnodup as (_ & Hdisj & _).
      intros Hin. apply (Hdisj k Hin). by left. }
    assert (Hk_snap : k ∉ snapshot).
    { apply NoDup_app in Hnodup as (_ & _ & Hnd).
      by apply NoDup_cons in Hnd as [? _]. }
    assert (Hnodup' : NoDup ((pre ++ [k]) ++ snapshot)).
    { by rewrite <- app_assoc. }
    assert (Hnodup'' : NoDup (pre ++ snapshot)).
    { apply NoDup_app in Hnodup as (H1 & H2 & H3).
      apply NoDup_cons in H3 as [_ H3].
      apply NoDup_app. repeat split; [done| |done].
      intros x Hx Hx'. apply (H2 x Hx). by right. }
    rewrite Hk.
    replace (omap (λ j, heap !! j) (k :: snapshot))
      with (trace :: omap (λ j, heap !! j) snapshot)
      by (csimpl; by rewrite Hk).
    cbn [rmap].
    destruct (component trace) as [c|] eqn:Hc.
    + destruct (resolve c) as [w|e] eqn:Hw; cycle 1.
      { replace (weigh resolve trace) with (@Raise (option (Trace F)) e)
          by (unfold weigh; by rewrite Hc, Hw).
        done. }
      replace (weigh resolve trace)
        with (Ok (if truthy w then Some (set_weight trace w) else None))
        by (unfold weigh; by rewrite Hc, Hw).
      cbn. destruct (truthy w) eqn:Htruthy; cbn.
      * (* weighted *)
        replace (pre ++ k :: snapshot) with ((pre ++ [k]) ++ snapshot)
          by by rewrite <- app_assoc.
        rewrite IH; [| done | |].
        -- rewrite (omap_ext_in (λ j, <[k:=set_weight trace w]> heap !! j)
                      (λ j, heap !! j) snapshot); cycle 1.
           { intros j Hj. apply list_lookup_insert_ne. by intros ->. }
           destruct (rmap _ _) as [outs|e]; cbn; [|done].
           rewrite omap_app. cbn.
           rewrite list_lookup_insert_eq by by eapply lookup_lt_Some.
           rewrite (omap_ext_in (λ j, <[k:=set_weight trace w]> heap !! j)
                      (λ j, heap !! j) pre); cycle 1.
           { intros j Hj. apply list_lookup_insert_ne. by intros ->. }
           by rewrite <- app_assoc.
        -- intros j Hj. apply lookup_lt_is_Some. rewrite length_insert.
           apply lookup_lt_is_Some, Hbound. by rewrite <- app_assoc in Hj.
        -- intros j item Hj Hitem c' Hc'.
           apply elem_of_app in Hj as [Hj|Hj].
           ++ rewrite list_lookup_insert_ne in Hitem by by intros ->.
              by apply (Hkept j item).
           ++ apply list_elem_of_singleton in Hj as ->.
              rewrite list_lookup_insert_eq in Hitem
                by by eapply lookup_lt_Some.
              injection Hitem as <-.
              assert (c' = c) as -> by (unfold component in *; cbn in *; congruence).
              eauto.
      * (* removed *)
        rewrite (stream_remove_itself heap pre k snapshot trace c w)
          by done.
        rewrite IH; [| done | |done].
        -- by destruct (rmap _ _).
        -- intros j Hj. apply Hbound.
           apply elem_of_app in Hj as [Hj|Hj]; apply elem_of_app;
             [by left|right; by right].
    + (* skipped *)
      replace (weigh resolve trace) with (Ok (Some trace))
        by (unfold weigh; by rewrite Hc).
      cbn.
      replace (pre ++ k :: snapshot) with ((pre ++ [k]) ++ snapshot)
        by by rewrite <- app_assoc.
      rewrite IH; [| done | |].
      * destruct (rmap _ _) as [outs|e]; cbn; [|done].
        rewrite omap_app. cbn. rewrite Hk. cbn. by rewrite <- app_assoc.
      * intros j Hj. apply Hbound. by rewrite <- app_assoc in Hj.
      * intros j item Hj Hitem c' Hc'.
        apply elem_of_app in Hj as [Hj|Hj]; [by apply (Hkept j item)|].
        apply list_elem_of_singleton in Hj as ->. congruence.
Qed.

(** A weight block on data: the first loop weighs the traces one after
    the other, the second scales those left. *)
Lemma weight_block_data self tags distance_in_m traces :
  has_tag "type:greens" tags = false →
  weight_block resolve self tags distance_in_m traces
  = rbind (rmap (weigh resolve) traces)
          (λ outs, rmap (scale_trace self distance_in_m)
                     (omap (λ o, o) outs)).
Proof.
  intros Hgreens. unfold weight_block.
  pose proof (weight_loop_traces tags Hgreens (seq 0 (length traces)) []
                traces) as Hloop.
  cbn [app] in Hloop. rewrite omap_lookup_seq in Hloop.
  specialize (Hloop (NoDup_seq 0 (length traces))).
  destruct (weight_loop _ _ _ _) as [st|e];
    destruct (rmap (weigh resolve) traces) as [outs|e'];
    cbn in Hloop |- *.
  - assert (Hst : Ok (stream_traces st)
                  = Ok (omap (λ o : option (Trace F), o) outs)).
    { apply Hloop; [|intros j item Hj; by apply elem_of_nil in Hj].
      intros j Hj. apply lookup_lt_is_Some.
      apply elem_of_seq in Hj. lia. }
    by injection Hst as ->.
  - exfalso. enough (Ok (stream_traces st) = @Raise (list (Trace F)) e')
      by discriminate.
    apply Hloop; [|intros j item Hj; by apply elem_of_nil in Hj].
    intros j Hj. apply lookup_lt_is_Some. apply elem_of_seq in Hj. lia.
  - exfalso. enough (@Raise (list (Trace F)) e
                     = Ok (omap (λ o : option (Trace F), o) outs))
      by discriminate.
    apply Hloop; [|intros j item Hj; by apply elem_of_nil in Hj].
    intros j Hj. apply lookup_lt_is_Some. apply elem_of_seq in Hj. lia.
  - enough (@Raise (list (Trace F)) e = Raise e') by done.
    apply Hloop; [|intros j item Hj; by apply elem_of_nil in Hj].
    intros j Hj. apply lookup_lt_is_Some. apply elem_of_seq in Hj. lia.
Qed.

(** A weight block on Green's functions: the first loop breaks at once,
    the second scales every trace. *)
Lemma weight_block_greens self tags distance_in_m traces :
  has_tag "type:greens" tags = true →
  weight_block resolve self tags distance_in_m traces
  = rmap (scale_trace self distance_in_m) traces.
Proof.
  intros Hgreens. unfold weight_block.
  assert (Hloop : weight_loop resolve tags (seq 0 (length traces))
                    (traces, seq 0 (length traces))
                  = Ok (traces, seq 0 (length traces))).
  { destruct (seq 0 (length traces)) as [|k l] eqn:E; cbn; [done|].
    by rewrite Hgreens. }
  rewrite Hloop. cbn. unfold stream_traces. cbn.
  by rewrite omap_lookup_seq.
Qed.
End Loop.

(** Scaling, once [scaling_distance] and [scaling_power] are numbers,
    the first of them not zero, and the power is a float that Python
    computes. *)
Lemma scale_trace_Ok self distance_in_m sd sp trace :
  scaling_distance self = Some (VFloat sd) →
  scaling_power self = Some (VFloat sp) →
  feqb sd (lit 0) = false →
  pow_error (fdiv distance_in_m sd) sp = None →
  pow_complex (fdiv distance_in_m sd) sp = false →
  scale_trace self distance_in_m trace
  = Ok (imul (lit 1) (imul (fpow (fdiv distance_in_m sd) sp) trace)).
Proof.
  intros Hsd Hsp Hzero Herror Hcomplex. unfold scale_trace, truediv, power.
  rewrite Hsd, Hsp. cbn. rewrite Hzero. cbn. rewrite Herror. cbn.
  by rewrite Hcomplex.
Qed.

(** Scaling by a distance of zero. *)
Lemma scale_trace_zero self distance_in_m sd trace :
  scaling_distance self = Some (VFloat sd) →
  feqb sd (lit 0) = true →
  scale_trace self distance_in_m trace = Raise ZeroDivisionError.
Proof.
  intros Hsd Hzero. unfold scale_trace, truediv.
  rewrite Hsd. cbn. by rewrite Hzero.
Qed.

(** The two blocks of [determine_weights]. *)
Lemma determine_weights_cap self id tags distance_in_m traces :
  weight_type self = Some "cap_bw"%string
  ∨ weight_type self = Some "cap_sw"%string →
  determine_weights self id tags distance_in_m traces
  = weight_block
      (if is_ (weight_type self) "cap_bw"
       then cap_bw_weight self id else cap_sw_weight self id)
      self tags distance_in_m traces.
Proof. intros [Hwt|Hwt]; unfold determine_weights; by rewrite Hwt. Qed.
End WeightFacts.

Section WeightClaims.
Import ProcessData.
Context {F : Type} `{Float F} `{!FloatLaws F} `{World F}.
Implicit Types (traces : list (Trace F)).

Lemma truthy_zero : truthy (lit 0 : F) = false.
Proof. unfold truthy. by rewrite feqb_zero. Qed.

Lemma truthy_positive (w : F) : fltb (lit 0) w = true → truthy w = true.
Proof. intros Hw. unfold truthy. by rewrite fltb_nonzero. Qed.

(** C5, as the code has it.  On a bundle tagged 'type:greens' a weight
    block removes no trace and sets no weight attribute, and it multiplies
    the samples of every trace by
    [(distance/scaling_distance)**scaling_power] (and by the ad hoc factor
    1.0), as it does for data - when [scaling_distance] is not zero and
    the power is a float that Python computes.  With a
    [scaling_distance] of zero it raises [ZeroDivisionError] on the first
    trace. *)
Theorem greens_weights self id tags distance_in_m sd sp traces :
  has_tag "type:greens" tags = true →
  weight_type self = Some "cap_bw"%string
  ∨ weight_type self = Some "cap_sw"%string →
  scaling_distance self = Some (VFloat sd) →
  scaling_power self = Some (VFloat sp) →
  (feqb sd (lit 0) = false →
   pow_error (fdiv distance_in_m sd) sp = None →
   pow_complex (fdiv distance_in_m sd) sp = false →
   ∃ out,
     determine_weights self id tags distance_in_m traces = Ok out
     ∧ Forall2 (λ trace trace',
                  stats trace' = stats trace
                  ∧ sac trace' = sac trace
                  ∧ weight trace' = weight trace
                  ∧ data trace'
                    = (λ a, fmul (fmul a (fpow (fdiv distance_in_m sd) sp))
                                 (lit 1)) <$> data trace)
               traces out)
  ∧ (feqb sd (lit 0) = true → traces ≠ [] →
     determine_weights self id tags distance_in_m traces
     = Raise ZeroDivisionError).
Proof.
  intros Hgreens Hwt Hsd Hsp.
  rewrite determine_weights_cap by done.
  rewrite weight_block_greens by done.
  split.
  - intros Hzero Herror Hcomplex.
    rewrite (rmap_Ok _ (λ trace, imul (lit 1)
                          (imul (fpow (fdiv distance_in_m sd) sp) trace)))
      by (intros; by apply scale_trace_Ok).
    eexists. split; [reflexivity|].
    apply Forall2_fmap_r, Forall_Forall2_diag, Forall_forall.
    intros trace _. cbn. repeat split. by rewrite <- list_fmap_compose.
  - intros Hzero Htraces. destruct traces as [|trace traces]; [done|].
    cbn [rmap]. by rewrite (scale_trace_zero _ _ sd) by done.
Qed.

(** C10. In the body wave block on data, a trace whose component is
    neither Z nor R resolves to the weight 0, whatever the weight table
    holds, and is removed: the bundle is processed as if the trace were
    not in it. *)
Theorem cap_bw_other_component self id tags distance_in_m table trace c
    traces1 traces2 :
  has_tag "type:greens" tags = false →
  weight_type self = Some "cap_bw"%string →
  weights self = Some table →
  component trace = Some c →
  c ≠ "Z"%char → c ≠ "R"%char →
  cap_bw_weight self id c = Ok (lit 0)
  ∧ determine_weights self id tags distance_in_m
      (traces1 ++ trace :: traces2)
    = determine_weights self id tags distance_in_m (traces1 ++ traces2).
Proof.
  intros Hgreens Hwt Hweights Hc HZ HR.
  assert (Hzero : cap_bw_weight self id c = Ok (lit 0)).
  { unfold cap_bw_weight. rewrite Hweights. cbn.
    destruct (has_key id table); [cbn|done].
    apply Ascii.eqb_neq in HZ, HR. by rewrite HZ, HR. }
  split; [exact Hzero|].
  rewrite !determine_weights_cap by by left.
  rewrite !weight_block_data by done.
  rewrite Hwt. cbn [is_]. cbn [String.eqb Ascii.eqb Bool.eqb].
  rewrite !rmap_app. cbn [rmap].
  replace (weigh (cap_bw_weight self id) trace) with (@Ok (option (Trace F)) None).
  2:{ unfold weigh. rewrite Hc, Hzero. cbn. by rewrite truthy_zero. }
  destruct (rmap _ traces1) as [o1|e]; cbn; [|done].
  destruct (rmap _ traces2) as [o2|e]; cbn; [|done].
  by rewrite !omap_app.
Qed.
End WeightClaims.

Section DataWeights.
Import ProcessData.
Context {F : Type} `{Float F} `{!FloatLaws F} `{World F}.
Implicit Types (traces : list (Trace F)).

Lemma omap_fmap_id {A B} (g : A → option B) (l : list A) :
  omap (λ o, o) (g <$> l) = omap g l.
Proof.
  induction l as [|x l IH]; [done|]. csimpl. rewrite IH. done.
Qed.

(** A station that is not in the weight table resolves to the weight 0,
    in both blocks. *)
Lemma absent_station_weight self id table c :
  weights self = Some table → table !! id = None →
  cap_bw_weight self id c = Ok (lit 0)
  ∧ cap_sw_weight self id c = Ok (lit 0).
Proof.
  intros Hweights Hid. unfold cap_bw_weight, cap_sw_weight, has_key.
  rewrite Hweights. cbn.
  rewrite bool_decide_eq_false_2; [done|].
  rewrite Hid. by intros [? ?].
Qed.

(** C6, as the code has it.  On data, when the weights of the traces can
    be looked up, [scaling_distance] is not zero and the power is a float
    that Python computes, a weight block gives [omap g] of the traces, in
    their order, where [g]
    - removes a trace that has a channel code and whose weight is 0, as is
      every weight of a station that is not in the table;
    - keeps a trace that has a channel code and whose weight is positive,
      sets its weight attribute and scales its samples;
    - keeps a trace without channel code, with no weight attribute set,
      and scales its samples. *)
Theorem data_weights self id tags distance_in_m sd sp traces :
  let resolve :=
    if is_ (weight_type self) "cap_bw"
    then cap_bw_weight self id else cap_sw_weight self id in
  let scaled := λ trace,
    imul (lit 1) (imul (fpow (fdiv distance_in_m sd) sp) trace) in
  has_tag "type:greens" tags = false →
  weight_type self = Some "cap_bw"%string
  ∨ weight_type self = Some "cap_sw"%string →
  scaling_distance self = Some (VFloat sd) →
  scaling_power self = Some (VFloat sp) →
  feqb sd (lit 0) = false →
  pow_error (fdiv distance_in_m sd) sp = None →
  pow_complex (fdiv distance_in_m sd) sp = false →
  (∀ trace c, trace ∈ traces → component trace = Some c →
     ∃ w, resolve c = Ok w) →
  ∃ g,
    determine_weights self id tags distance_in_m traces
    = Ok (omap g traces)
    ∧ (∀ trace, component trace = None → g trace = Some (scaled trace))
    ∧ (∀ trace c w, component trace = Some c → resolve c = Ok w →
         (feqb w (lit 0) = true → g trace = None)
         ∧ (fltb (lit 0) w = true →
            g trace = Some (scaled (set_weight trace w))))
    ∧ (∀ table c, weights self = Some table → table !! id = None →
         resolve c = Ok (lit 0)).
Proof.
  intros resolve scaled Hgreens Hwt Hsd Hsp Hzero Herror Hcomplex Hresolve.
  set (g0 := λ trace,
         match component trace with
         | None => Some trace
         | Some c =>
             match resolve c with
             | Ok w => if truthy w then Some (set_weight trace w) else None
             | Raise _ => None
             end
         end).
  exists (λ trace, scaled <$> g0 trace).
  split; [|split; [|split]].
  - rewrite determine_weights_cap by done.
    rewrite weight_block_data by done. fold resolve.
    rewrite (rmap_Ok _ g0); cycle 1.
    { intros trace Hin. unfold weigh, g0.
      destruct (component trace) as [c|] eqn:Hc; [|done].
      destruct (Hresolve trace c Hin Hc) as [w Hw]. by rewrite Hw. }
    cbn. rewrite omap_fmap_id.
    rewrite (rmap_Ok _ scaled) by (intros; by apply scale_trace_Ok).
    by rewrite list_fmap_omap.
  - intros trace Hc. unfold g0. by rewrite Hc.
  - intros trace c w Hc Hw. unfold g0. rewrite Hc, Hw. split.
    + intros Hw0. unfold truthy. by rewrite Hw0.
    + intros Hpos. by rewrite truthy_positive.
  - intros table c Hweights Hid.
    destruct (absent_station_weight self id table c Hweights Hid)
      as [Hbw Hsw].
    unfold resolve. by destruct (is_ (weight_type self) "cap_bw").
Qed.
End DataWeights.

(** *** The weight blocks in the example world *)

(** C5, as stated, fails: the samples of a Green's function bundle are
    scaled.  With the default [scaling_distance] 1e5 and [scaling_power]
    1.0 of 'cap_bw', a Green's function at 200 km with the sample 3
    leaves the weighting with the sample 6. *)
Lemma greens_weights_unchanged_fails :
  let greens :=
    ProcessData.example_bundle "II.KDAK"
      ["units:m"; "type:displacement"; "type:greens"]%string
      [ProcessData.example_trace "BHZ" [3%Q]] in
  ∃ self,
    ProcessData.example_init (Some "cap_bw") (Some "cap_bw")%string
      ProcessData.example_parameters = Ok self
    ∧ rbind (ProcessData.example_call self greens).2
        (λ b, Ok (ProcessData.summary (ProcessData.traces b)))
      = Ok [("BHZ"%string, [6%Q], None)]
    ∧ rbind (@ProcessData.determine_weights Q ProcessData.Q_Float
               self "II.KDAK"
               ["units:m"; "type:displacement"; "type:greens"]%string
               200000%Q (ProcessData.traces greens))
        (λ traces, Ok (ProcessData.summary traces))
      = Ok [("BHZ"%string, [6%Q], None)]
    ∧ @ProcessData.determine_weights Q ProcessData.Q_Float
        self "II.KDAK"
        ["units:m"; "type:displacement"; "type:greens"]%string
        200000%Q (ProcessData.traces greens)
      ≠ Ok (ProcessData.traces greens).
Proof.
  intros greens.
  destruct (ProcessData.example_init (Some "cap_bw") (Some "cap_bw")%string
              ProcessData.example_parameters) as [self|e] eqn:Hinit;
    [|by vm_compute in Hinit].
  exists self. split; [done|].
  vm_compute in Hinit. injection Hinit as <-.
  repeat split; [by vm_compute..|].
  intros Heq. by vm_compute in Heq.
Qed.

(** C6, as stated, fails: a trace without channel code is not weighed at
    all.  The station XX.NONE is not in the weight table; of its two
    traces the one with the channel code BHZ is removed and the one
    without channel code stays, with no weight attribute. *)
Lemma data_weights_absent_station_fails :
  let data :=
    ProcessData.example_bundle "XX.NONE"
      ["units:m"; "type:displacement"]%string
      [ProcessData.example_trace "" [3%Q];
       ProcessData.example_trace "BHZ" [4%Q]] in
  ∃ self table,
    ProcessData.example_init (Some "cap_bw") (Some "cap_bw")%string
      ProcessData.example_parameters = Ok self
    ∧ ProcessData.weights self = Some table
    ∧ table !! "XX.NONE"%string = None
    ∧ rbind (ProcessData.example_call self data).2
        (λ b, Ok (ProcessData.summary (ProcessData.traces b)))
      = Ok [(""%string, [6%Q], None)].
Proof.
  intros data.
  destruct (ProcessData.example_init (Some "cap_bw") (Some "cap_bw")%string
              ProcessData.example_parameters) as [self|e] eqn:Hinit;
    [|by vm_compute in Hinit].
  exists self, ProcessData.example_weights. split; [done|].
  vm_compute in Hinit. injection Hinit as <-.
  repeat split; by vm_compute.
Qed.

Lemma example_init_self :
  ProcessData.example_init (Some "cap_bw") (Some "cap_bw")%string
    ProcessData.example_parameters = Ok ProcessData.example_self.
Proof. by vm_compute. Qed.

Lemma example_resolves c :
  ∃ w, @ProcessData.cap_bw_weight Q ProcessData.Q_Float
         ProcessData.example_self "II.KDAK" c = Ok w.
Proof.
  unfold ProcessData.cap_bw_weight. cbn.
  destruct (Ascii.eqb c "Z"); [by eexists|].
  destruct (Ascii.eqb c "R"); by eexists.
Qed.

Lemma greens_weights_witness :
  ∃ out,
    @ProcessData.determine_weights Q ProcessData.Q_Float
      ProcessData.example_self "II.KDAK"
      ["units:m"; "type:greens"]%string 200000%Q
      [ProcessData.example_trace "BHZ" [3%Q]] = Ok out
    ∧ Forall2 (λ trace trace',
                 ProcessData.stats trace' = ProcessData.stats trace
                 ∧ ProcessData.sac trace' = ProcessData.sac trace
                 ∧ ProcessData.weight trace' = ProcessData.weight trace
                 ∧ ProcessData.data trace'
                   = (λ a, (a * ProcessData.Qpow (200000 / 1e5) 1 * 1)%Q)
                       <$> ProcessData.data trace)
              [ProcessData.example_trace "BHZ" [3%Q]] out.
Proof.
  refine (proj1 (greens_weights (F:=Q) ProcessData.example_self "II.KDAK"
                   ["units:m"; "type:greens"]%string 200000%Q 1e5%Q 1%Q
                   [ProcessData.example_trace "BHZ" [3%Q]] _ _ _ _) _ _ _).
  - reflexivity.
  - left. reflexivity.
  - reflexivity.
  - reflexivity.
  - reflexivity.
  - reflexivity.
  - reflexivity.
Defined.

Lemma cap_bw_other_component_witness :
  @ProcessData.cap_bw_weight Q ProcessData.Q_Float
    ProcessData.example_self "II.KDAK" "T" = Ok 0%Q
  ∧ @ProcessData.determine_weights Q ProcessData.Q_Float
      ProcessData.example_self "II.KDAK" ["units:m"]%string 200000%Q
      ([ProcessData.example_trace "BHZ" [3%Q]]
       ++ ProcessData.example_trace "BHT" [5%Q]
          :: [ProcessData.example_trace "BHR" [7%Q]])
    = @ProcessData.determine_weights Q ProcessData.Q_Float
        ProcessData.example_self "II.KDAK" ["units:m"]%string 200000%Q
        ([ProcessData.example_trace "BHZ" [3%Q]]
         ++ [ProcessData.example_trace "BHR" [7%Q]]).
Proof.
  refine (cap_bw_other_component (F:=Q) ProcessData.example_self "II.KDAK"
            ["units:m"]%string 200000%Q ProcessData.example_weights
            (ProcessData.example_trace "BHT" [5%Q]) "T"%char
            [ProcessData.example_trace "BHZ" [3%Q]]
            [ProcessData.example_trace "BHR" [7%Q]] _ _ _ _ _ _).
  - reflexivity.
  - reflexivity.
  - reflexivity.
  - reflexivity.
  - discriminate.
  - discriminate.
Defined.

Lemma data_weights_witness :
  let traces :=
    [ProcessData.example_trace "BHZ" [3%Q];
     ProcessData.example_trace "BHT" [5%Q]] in
  let resolve :=
    @ProcessData.cap_bw_weight Q ProcessData.Q_Float
      ProcessData.example_self "II.KDAK" in
  let scaled := λ trace,
    @ProcessData.imul Q ProcessData.Q_Float 1%Q
      (@ProcessData.imul Q ProcessData.Q_Float
         (ProcessData.Qpow (200000 / 1e5) 1) trace) in
  ∃ g,
    @ProcessData.determine_weights Q ProcessData.Q_Float
      ProcessData.example_self "II.KDAK" ["units:m"]%string 200000%Q traces
    = Ok (omap g traces)
    ∧ (∀ trace, ProcessData.component trace = None →
         g trace = Some (scaled trace))
    ∧ (∀ trace c w, ProcessData.component trace = Some c →
         resolve c = Ok w →
         (Qeq_bool w 0 = true → g trace = None)
         ∧ ((if Qlt_le_dec 0 w then true else false) = true →
            g trace = Some (scaled (ProcessData.set_weight trace w))))
    ∧ (∀ table c, ProcessData.weights ProcessData.example_self = Some table →
         table !! "II.KDAK"%string = None → resolve c = Ok 0%Q).
Proof.
  intros traces resolve scaled.
  refine (data_weights (F:=Q) ProcessData.example_self "II.KDAK"
            ["units:m"]%string 200000%Q 1e5%Q 1%Q traces _ _ _ _ _ _ _ _).
  - reflexivity.
  - left. reflexivity.
  - reflexivity.
  - reflexivity.
  - reflexivity.
  - reflexivity.
  - reflexivity.
  - intros trace c _ _. apply example_resolves.
Defined.

(** ** The configuration axes *)

Section AxesFacts.
Import ProcessData.
Context {F : Type} `{Float F} `{World F}.
Implicit Types (parameters : gmap string (value F)).

Lemma getitem_has_key {A} (k : string) (d : gmap string A) :
  has_key k d = true → ∃ v, getitem k d = Ok v.
Proof.
  unfold has_key, getitem. intros Hk.
  apply bool_decide_eq_true_1 in Hk as [v Hv]. rewrite Hv. by exists v.
Qed.

(** With no window type the window checks pass when [window_length] is
    given all the same. *)
Lemma check_window_None parameters :
  has_key "window_length" parameters = true →
  ∃ ws, check_window None parameters = Ok ws.
Proof.
  intros Hk. unfold check_window. cbn.
  destruct (getitem_has_key _ _ Hk) as [wl ->]. cbn.
  destruct (has_key "padding_length" parameters) eqn:Hp.
  - destruct (getitem_has_key _ _ Hp) as [pl ->]. cbn. by eexists.
  - cbn. by eexists.
Qed.

(** C7, as the code has it.
    - [filter_type=None]: the filter checks pass and leave the parameters
      as they are; the constructor succeeds when the other checks do; the
      filter stage returns the traces as they are.
    - [pick_type=None]: the constructor returns no instance; it raises
      [Exception] once the filter checks have passed.
    - [window_type=None]: the constructor succeeds when [window_length] is
      given and the other checks pass; no window is computed or cached and
      no trace is cut (the taper is applied all the same).
    - [weight_type=None]: the weight checks pass; the constructor succeeds
      when the other checks do; the weight stage removes and scales
      nothing and sets the weight of every trace to 1.0. *)
Theorem none_axes filter_type pick_type window_type weight_type parameters :
  (* filter *)
  (check_filter None parameters = Ok (parameters, (None, None, None))
   ∧ (∀ ps ws gs,
        check_pick pick_type parameters = Ok ps →
        check_window window_type parameters = Ok ws →
        check_weight weight_type parameters = Ok gs →
        ∃ self, __init__ None pick_type window_type weight_type parameters
                = Ok self
                ∧ ProcessData.filter_type self = None)
   ∧ (∀ self traces, ProcessData.filter_type self = None →
        filter_traces self traces = Ok traces))
  (* pick *)
  ∧ ((∀ self, __init__ filter_type None window_type weight_type parameters
              ≠ Ok self)
     ∧ (∀ r, check_filter filter_type parameters = Ok r →
          __init__ filter_type None window_type weight_type parameters
          = Raise Exception))
  (* window *)
  ∧ ((∀ parameters' fs ps gs,
        check_filter filter_type parameters = Ok (parameters', fs) →
        check_pick pick_type parameters' = Ok ps →
        has_key "window_length" parameters' = true →
        check_weight weight_type parameters' = Ok gs →
        ∃ self, __init__ filter_type pick_type None weight_type parameters
                = Ok self
                ∧ ProcessData.window_type self = None)
     ∧ (∀ self id origin tags traces,
          ProcessData.window_type self = None →
          determine_window id origin self = (self, Ok ())
          ∧ pad_window self id tags = Ok None
          ∧ cut_and_taper None traces
            = (λ trace, set_data trace (cap_taper (data trace))) <$> traces))
  (* weight *)
  ∧ (check_weight None parameters = Ok (None, None, None)
     ∧ (∀ parameters' fs ps ws,
          check_filter filter_type parameters = Ok (parameters', fs) →
          check_pick pick_type parameters' = Ok ps →
          check_window window_type parameters' = Ok ws →
          ∃ self, __init__ filter_type pick_type window_type None parameters
                  = Ok self
                  ∧ ProcessData.weight_type self = None)
     ∧ (∀ self id tags distance_in_m traces,
          ProcessData.weight_type self = None →
          determine_weights self id tags distance_in_m traces
          = Ok ((λ trace, set_weight trace (lit 1)) <$> traces))).
Proof.
  split; [|split; [|split]].
  - split; [reflexivity|]. split.
    + intros ps ws gs Hp Hw Hg.
      destruct (init_Ok None pick_type window_type weight_type parameters
                  parameters (None, None, None) ps ws gs)
        as (self & Hself & Hft & _); try done.
      by exists self.
    + intros self traces Hft. unfold filter_traces. by rewrite Hft.
  - unfold __init__.
    destruct (check_filter filter_type parameters)
      as [[parameters' [[fmin fmax] fr]]|e]; cbn.
    + split; [discriminate|reflexivity].
    + split; [discriminate|]. intros r Hr. discriminate.
  - split.
    + intros parameters' fs ps gs Hf Hp Hk Hg.
      destruct (check_window_None parameters' Hk) as [ws Hw].
      destruct (init_Ok filter_type pick_type None weight_type parameters
                  parameters' fs ps ws gs)
        as (self & Hself & _ & _ & Hwt & _); try done.
      by exists self.
    + intros self id origin tags traces Hwt. repeat split.
      * unfold determine_window, bind, mbind, M_bind, bind, get. cbn.
        by rewrite Hwt.
      * unfold pad_window. by rewrite Hwt.
  - split; [reflexivity|]. split.
    + intros parameters' fs ps ws Hf Hp Hw.
      destruct (init_Ok filter_type pick_type window_type None parameters
                  parameters' fs ps ws (None, None, None))
        as (self & Hself & _ & _ & _ & Hgt & _); try done.
      by exists self.
    + intros self id tags distance_in_m traces Hwt.
      unfold determine_weights. by rewrite Hwt.
Qed.
End AxesFacts.

(** C7, as stated, fails for the pick axis: the constructor refuses
    [pick_type=None], here with the other three axes absent too and with
    the other three axes configured. *)
Lemma init_pick_type_None_fails :
  @ProcessData.__init__ Q ProcessData.Q_Float ProcessData.example_world
    None None None None ∅ = Raise Exception
  ∧ @ProcessData.__init__ Q ProcessData.Q_Float ProcessData.example_world
      None None (Some "cap_bw") (Some "cap_bw")%string
      ProcessData.example_parameters = Raise Exception.
Proof. split; by vm_compute. Qed.

(** With [window_type=None] and no [window_length] the constructor raises
    [KeyError], from the [parameters['window_length']] it reads whatever
    the window type. *)
Lemma init_window_type_None_without_length :
  @ProcessData.__init__ Q ProcessData.Q_Float ProcessData.example_world
    None (Some "from_fk_metadata") None None
    {[ "fk_database"%string := ProcessData.VStr "greens/scak" ]}
  = Raise KeyError.
Proof. by vm_compute. Qed.

(** C9, as stated, fails: the constructor itself raises. *)
Lemma init_from_cap_weight_file_fails :
  @ProcessData.__init__ Q ProcessData.Q_Float ProcessData.example_world
    None (Some "from_cap_weight_file") (Some "cap_bw") (Some "cap_bw")%string
    ProcessData.example_parameters = Raise NotImplementedError.
Proof. by vm_compute. Qed.

Lemma none_axes_witness :
  let init := @ProcessData.__init__ Q ProcessData.Q_Float
                ProcessData.example_world in
  let fk := Some "from_fk_metadata"%string in
  let bw := Some "cap_bw"%string in
  let parameters := ProcessData.example_parameters in
  let traces := [ProcessData.example_trace "BHZ" [3%Q]] in
  (∃ self, init None fk bw bw parameters = Ok self
           ∧ ProcessData.filter_type self = None
           ∧ @ProcessData.filter_traces Q ProcessData.Q_Float
               ProcessData.example_world self traces = Ok traces)
  ∧ init None None bw bw parameters = Raise Exception
  ∧ (∃ self, init None fk None bw parameters = Ok self
             ∧ ProcessData.window_type self = None
             ∧ @ProcessData.determine_window Q ProcessData.Q_Float
                 "II.KDAK"
                 {| ProcessData.latitude := 61.5%Q;
                    ProcessData.longitude := (-149.7)%Q;
                    ProcessData.depth_in_m := 33000%Q;
                    ProcessData.time := 1000%Q |} self
               = (self, Ok ())
             ∧ @ProcessData.pad_window Q ProcessData.Q_Float self
                 "II.KDAK" ["units:m"]%string = Ok None)
  ∧ (∃ self, init None fk bw None parameters = Ok self
             ∧ ProcessData.weight_type self = None
             ∧ @ProcessData.determine_weights Q ProcessData.Q_Float self
                 "II.KDAK" ["units:m"]%string 200000%Q traces
               = Ok ((λ trace, ProcessData.set_weight trace 1%Q)
                       <$> traces)).
Proof.
  intros init fk bw parameters traces.
  destruct (@none_axes Q ProcessData.Q_Float ProcessData.example_world
              None fk bw bw parameters)
    as ((_ & Hfilter & Hfilter_call) & _).
  destruct (@none_axes Q ProcessData.Q_Float ProcessData.example_world
              None None bw bw parameters)
    as (_ & (_ & Hpick) & _).
  destruct (@none_axes Q ProcessData.Q_Float ProcessData.example_world
              None fk None bw parameters)
    as (_ & _ & (Hwindow & Hwindow_call) & _).
  destruct (@none_axes Q ProcessData.Q_Float ProcessData.example_world
              None fk bw None parameters)
    as (_ & _ & _ & (_ & Hweight & Hweight_call)).
  split; [|split; [|split]].
  - destruct (Hfilter (None, Some "greens/scak", Some "greens/scak", None)%string
                (ProcessData.VFloat 15%Q, ProcessData.VFloat 0%Q)
                (Some ProcessData.example_weights,
                 Some (ProcessData.VFloat 1%Q),
                 Some (ProcessData.VFloat 1e5%Q)))
      as (self & Hself & Hft); [reflexivity..|].
    exists self. split; [exact Hself|]. split; [exact Hft|].
    apply Hfilter_call. exact Hft.
  - eapply Hpick. reflexivity.
  - destruct (Hwindow parameters (None, None, None)
                (None, Some "greens/scak", Some "greens/scak", None)%string
                (Some ProcessData.example_weights,
                 Some (ProcessData.VFloat 1%Q),
                 Some (ProcessData.VFloat 1e5%Q)))
      as (self & Hself & Hwt); [reflexivity..|].
    exists self. split; [exact Hself|]. split; [exact Hwt|].
    destruct (Hwindow_call self "II.KDAK"%string
                {| ProcessData.latitude := 61.5%Q;
                   ProcessData.longitude := (-149.7)%Q;
                   ProcessData.depth_in_m := 33000%Q;
                   ProcessData.time := 1000%Q |} ["units:m"]%string traces Hwt)
      as (Hw1 & Hw2 & _).
    split; [exact Hw1|exact Hw2].
  - destruct (Hweight parameters (None, None, None)
                (None, Some "greens/scak", Some "greens/scak", None)%string
                (ProcessData.VFloat 15%Q, ProcessData.VFloat 0%Q))
      as (self & Hself & Hwt); [reflexivity..|].
    exists self. split; [exact Hself|]. split; [exact Hwt|].
    apply Hweight_call. exact Hwt.
Defined.

Lemma init_from_cap_weight_file_witness :
  @ProcessData.__init__ Q ProcessData.Q_Float ProcessData.example_world
    None (Some "from_cap_weight_file") (Some "cap_bw") (Some "cap_bw")%string
    ProcessData.example_parameters = Raise NotImplementedError.
Proof.
  destruct (@init_from_cap_weight_file Q ProcessData.Q_Float
              ProcessData.example_world
              None (Some "cap_bw") (Some "cap_bw")%string
              ProcessData.example_parameters) as [_ Hraise].
  eapply Hraise. reflexivity.
Defined.

(** ** The [scaling_power] keyword *)

Section ScalingFacts.
Import ProcessData.
Context {F : Type} `{Float F} `{World F}.

(** Whatever [parameters] holds under 'scaling_power', the weight checks
    set [scaling_power] to the default unless there is a key
    'scaling power', with a blank. *)
Lemma check_cap_weight_power default_power
    (parameters : gmap string (value F)) w p d :
  has_key "scaling power" parameters = false →
  check_cap_weight default_power parameters = Ok (w, p, d) →
  p = VFloat (lit default_power).
Proof.
  intros Hk. unfold check_cap_weight. rewrite Hk.
  intros Hc. repeat (apply rbind_Ok in Hc as (? & _ & Hc)).
  cbn in Hc. by injection Hc as _ <- _.
Qed.
End ScalingFacts.

(** C8 on the code: [ProcessData(..., weight_type='cap_bw',
    scaling_power=2.0)] has [scaling_power] 1.0, and a data trace at
    200 km with the sample 3 comes out with the sample
    3 * (200000/1e5)**1.0 = 6, not 3 * (200000/1e5)**2.0 = 12; for 'cap_sw'
    [scaling_power] is 0.5 all the same. *)
Lemma scaling_power_keyword_ignored :
  let parameters :=
    <["scaling_power" := ProcessData.VFloat 2%Q]>
      ProcessData.example_parameters in
  let data :=
    ProcessData.example_bundle "II.KDAK"
      ["units:m"; "type:displacement"]%string
      [ProcessData.example_trace "BHZ" [3%Q]] in
  (∃ self,
     ProcessData.example_init (Some "cap_bw") (Some "cap_bw")%string
       parameters = Ok self
     ∧ ProcessData.scaling_power self = Some (ProcessData.VFloat 1%Q)
     ∧ rbind (ProcessData.example_call self data).2
         (λ b, Ok (ProcessData.summary (ProcessData.traces b)))
       = Ok [("BHZ"%string, [6%Q], Some 1%Q)])
  ∧ (∃ self,
       ProcessData.example_init (Some "cap_sw") (Some "cap_sw")%string
         parameters = Ok self
       ∧ ProcessData.scaling_power self = Some (ProcessData.VFloat 0.5%Q)).
Proof.
  intros parameters data. split.
  - destruct (ProcessData.example_init (Some "cap_bw") (Some "cap_bw")%string
                parameters) as [self|e] eqn:Hinit;
      [|by vm_compute in Hinit].
    exists self. split; [done|].
    vm_compute in Hinit. injection Hinit as <-.
    split; by vm_compute.
  - destruct (ProcessData.example_init (Some "cap_sw") (Some "cap_sw")%string
                parameters) as [self|e] eqn:Hinit;
      [|by vm_compute in Hinit].
    exists self. split; [done|].
    vm_compute in Hinit. injection Hinit as <-. done.
Qed.

(** ** The caches *)

Section CacheFacts.
Import ProcessData.
Context {F : Type} `{Float F} `{World F}.

(** A computation that leaves the instance [self] as it is. *)
Local Abbreviation fixes self m := (∃ r, m self = (self, r)).

Lemma fixes_ret {A} (self : Instance F) (a : A) : fixes self (ret a).
Proof. by eexists. Qed.

Lemma fixes_lift {A} (self : Instance F) (r : result A) :
  fixes self (lift r).
Proof. by eexists. Qed.

Lemma fixes_get (self : Instance F) : fixes self get.
Proof. by eexists. Qed.

Lemma fixes_bind {A B} (self : Instance F) (m : M F A) (k : A → M F B) :
  fixes self m → (∀ a, fixes self (k a)) → fixes self (bind m k).
Proof.
  intros [r Hm] Hk. unfold bind. rewrite Hm.
  destruct r as [a|e]; [apply Hk|by eexists].
Qed.

(** With a pick record cached for [id], the pick stage does nothing. *)
Lemma determine_picks_cached self id picks traces origin distance_in_m :
  _picks self !! id = Some picks →
  determine_picks id traces origin distance_in_m self = (self, Ok ()).
Proof.
  intros Hp. unfold determine_picks, mbind, M_bind, bind, get. cbn.
  destruct (not_ (pick_type self)); [done|].
  unfold has_key. rewrite Hp.
  by rewrite bool_decide_eq_true_2 by by eexists.
Qed.

(** With a window record cached for [id], the window stage does
    nothing. *)
Lemma determine_window_cached self id window origin :
  _windows self !! id = Some window →
  determine_window id origin self = (self, Ok ()).
Proof.
  intros Hw. unfold determine_window, mbind, M_bind, bind, get. cbn.
  destruct (not_ (window_type self)); [done|].
  unfold has_key. rewrite Hw.
  by rewrite bool_decide_eq_true_2 by by eexists.
Qed.

(** C2. Once a pick record and a window record are cached for a station
    identifier, a call on any bundle with that identifier leaves the
    instance, and so both caches, as they are: the pick stage and the
    window stage do nothing, whatever the traces, the origin and the
    distance, and the traces are cut to the cached window (padded for
    Green's functions). *)
Theorem cache_reuse self id picks window bundle station_arg origin_arg
    overwrite :
  _picks self !! id = Some picks →
  _windows self !! id = Some window →
  ProcessData.id bundle = Some id →
  (__call__ bundle station_arg origin_arg overwrite self).1 = self
  ∧ _picks (__call__ bundle station_arg origin_arg overwrite self).1 !! id
    = Some picks
  ∧ _windows (__call__ bundle station_arg origin_arg overwrite self).1 !! id
    = Some window
  ∧ (∀ traces origin distance_in_m,
       determine_picks id traces origin distance_in_m self = (self, Ok ()))
  ∧ (∀ origin, determine_window id origin self = (self, Ok ()))
  ∧ (∀ tags pad,
       not_ (window_type self) = false →
       padding_length self = VFloat pad →
       pad_window self id tags
       = Ok (Some (if has_tag "type:greens" tags
                   then (fsub window.1 pad, fadd window.2 pad)
                   else window))).
Proof.
  intros Hp Hw Hid.
  assert (Hcall : fixes self
                    (__call__ bundle station_arg origin_arg overwrite)).
  { unfold __call__, mbind, M_bind, mret, M_ret. rewrite Hid.
    change (bind (lift (Ok id)) ?k) with (k id). cbn beta.
    apply fixes_bind; [apply fixes_lift|intros origin_].
    apply fixes_bind; [apply fixes_lift|intros station_].
    destruct (gps2dist_azimuth _ _ _ _) as [[distance_in_m azimuth] ?].
    apply fixes_bind; [apply fixes_lift|intros trace0].
    apply fixes_bind; [apply fixes_lift|intros tags].
    destruct (has_tag "units:cm" tags).
    all: apply fixes_bind; [apply fixes_get|intros self0].
    all: apply fixes_bind; [apply fixes_lift|intros traces].
    all: destruct (has_tag "type:velocity" _).
    all: apply fixes_bind;
      [eexists; by eapply determine_picks_cached|intros _].
    all: apply fixes_bind;
      [eexists; by eapply determine_window_cached|intros _].
    all: apply fixes_bind; [apply fixes_get|intros self1].
    all: apply fixes_bind; [apply fixes_lift|intros bounds].
    all: apply fixes_bind; [apply fixes_lift|intros traces'].
    all: apply fixes_ret. }
  destruct Hcall as [r Hcall]. rewrite Hcall. cbn [fst].
  split; [done|]. split; [done|]. split; [done|].
  split; [intros; by eapply determine_picks_cached|].
  split; [intros; by eapply determine_window_cached|].
  intros tags pad Hwt Hpad. unfold pad_window, getitem.
  rewrite Hwt, Hw, Hpad. cbn.
  by destruct (has_tag "type:greens" tags).
Qed.
End CacheFacts.

(** The first call on the data of station II.KDAK caches its picks and its
    body wave window; the call on the Green's functions of the station,
    with other samples, finds them and leaves them. *)
Lemma cache_reuse_witness :
  let data :=
    ProcessData.example_bundle "II.KDAK"
      ["units:m"; "type:displacement"]%string
      [ProcessData.example_trace "BHZ" [3%Q; 4%Q]] in
  let greens :=
    ProcessData.example_bundle "II.KDAK"
      ["units:m"; "type:displacement"; "type:greens"]%string
      [ProcessData.example_trace "BHZ" [7%Q; 1%Q; 5%Q]] in
  let self1 := (ProcessData.example_call ProcessData.example_self data).1 in
  let self2 := (ProcessData.example_call self1 greens).1 in
  ∃ picks window,
    ProcessData._picks self1 !! "II.KDAK"%string = Some picks
    ∧ ProcessData._windows self1 !! "II.KDAK"%string = Some window
    ∧ self2 = self1
    ∧ ProcessData._picks self2 !! "II.KDAK"%string = Some picks
    ∧ ProcessData._windows self2 !! "II.KDAK"%string = Some window.
Proof.
  intros data greens self1 self2.
  destruct (ProcessData._picks self1 !! "II.KDAK"%string) as [picks|] eqn:Hp;
    [|by vm_compute in Hp].
  destruct (ProcessData._windows self1 !! "II.KDAK"%string)
    as [window|] eqn:Hw; [|by vm_compute in Hw].
  exists picks, window.
  destruct (@cache_reuse Q ProcessData.Q_Float ProcessData.example_world
              self1 "II.KDAK"%string picks window greens None None false
              Hp Hw eq_refl) as (Hself & Hpicks & Hwindows & _).
  split; [reflexivity|]. split; [reflexivity|].
  split; [exact Hself|]. split; [exact Hpicks|exact Hwindows].
Defined.

(** * Further properties *)

(** ** The constructor *)

Section InitMore.
Import ProcessData.
Context {F : Type} `{Float F} `{World F}.
Implicit Types (parameters : gmap string (value F)).

Lemma is_Some_eq (x : option string) (s : string) :
  is_ x s = true → x = Some s.
Proof.
  destruct x as [y|]; [|discriminate]. cbn. intros Heq.
  by apply String.eqb_eq in Heq as ->.
Qed.

Lemma assert_Ok (b : bool) (u : unit) : assert_ b = Ok u → b = true.
Proof. by destruct b. Qed.

Lemma raise_if_Ok (b : bool) (e : exn) (u : unit) :
  raise_if b e = Ok u → b = false.
Proof. by destruct b. Qed.

Lemma getitem_Ok {A} (k : string) (d : gmap string A) (v : A) :
  getitem k d = Ok v → d !! k = Some v.
Proof. unfold getitem. destruct (d !! k); [|discriminate]. by intros [= ->]. Qed.

Lemma num_Ok (v : value F) (x : F) : num v = Ok x → v = VFloat x.
Proof. destruct v; [|discriminate]. by intros [= ->]. Qed.

Lemma power_Ok (x y z : F) : power x y = Ok z → z = fpow x y.
Proof.
  unfold power. destruct (pow_error x y); [discriminate|]. by intros [= <-].
Qed.

(** The four checks, read backwards. *)
Lemma init_Ok_inv filter_type pick_type window_type weight_type parameters
    self :
  __init__ filter_type pick_type window_type weight_type parameters
  = Ok self →
  ∃ parameters' fmin fmax fr tm fd fm pf wl pl w sp sd,
    check_filter filter_type parameters = Ok (parameters', (fmin, fmax, fr))
    ∧ check_pick pick_type parameters' = Ok (tm, fd, fm, pf)
    ∧ check_window window_type parameters' = Ok (wl, pl)
    ∧ check_weight weight_type parameters' = Ok (w, sp, sd)
    ∧ self = {| freq_min := fmin; freq_max := fmax; freq := fr;
                filter_type := filter_type;
                _taup_model := tm; _fk_database := fd;
                _fk_model := fm; _pick_file := pf;
                _picks := ∅; pick_type := pick_type;
                window_type := window_type; window_length := wl;
                _windows := ∅; padding_length := pl;
                weights := w; scaling_power := sp;
                scaling_distance := sd;
                weight_type := weight_type |}.
Proof.
  unfold __init__. intros Hinit.
  apply rbind_Ok in Hinit as ([parameters' [[fmin fmax] fr]] & Hf & Hinit).
  apply rbind_Ok in Hinit as ([[[tm fd] fm] pf] & Hp & Hinit).
  apply rbind_Ok in Hinit as ([wl pl] & Hw & Hinit).
  apply rbind_Ok in Hinit as ([[w sp] sd] & Hg & Hinit).
  injection Hinit as <-.
  by exists parameters', fmin, fmax, fr, tm, fd, fm, pf, wl, pl, w, sp, sd.
Qed.

Lemma check_filter_recognised filter_type parameters r :
  check_filter filter_type parameters = Ok r →
  filter_type = None ∨ filter_type = Some "Bandpass"%string
  ∨ filter_type = Some "Lowpass"%string
  ∨ filter_type = Some "Highpass"%string.
Proof.
  unfold check_filter. destruct filter_type as [s|]; [|by left].
  destruct (is_ (Some s) "Bandpass") eqn:E1;
    [apply is_Some_eq in E1; auto|].
  destruct (is_ (Some s) "Lowpass") eqn:E2;
    [apply is_Some_eq in E2; auto|].
  destruct (is_ (Some s) "Highpass") eqn:E3;
    [apply is_Some_eq in E3; auto|].
  discriminate.
Qed.

Lemma check_pick_recognised pick_type parameters r :
  check_pick pick_type parameters = Ok r →
  pick_type = Some "from_taup_model"%string
  ∨ pick_type = Some "from_fk_metadata"%string
  ∨ pick_type = Some "from_sac_metadata"%string
  ∨ pick_type = Some "from_pick_file"%string.
Proof.
  unfold check_pick. destruct pick_type as [s|]; [|discriminate].
  destruct (is_ (Some s) "from_taup_model") eqn:E1;
    [apply is_Some_eq in E1; auto|].
  destruct (is_ (Some s) "from_fk_metadata") eqn:E2;
    [apply is_Some_eq in E2; auto|].
  destruct (is_ (Some s) "from_sac_metadata") eqn:E3;
    [apply is_Some_eq in E3; auto|].
  destruct (is_ (Some s) "from_cap_weight_file") eqn:E4; [discriminate|].
  destruct (is_ (Some s) "from_pick_file") eqn:E5;
    [apply is_Some_eq in E5; auto|].
  discriminate.
Qed.

Lemma check_window_recognised window_type parameters r :
  check_window window_type parameters = Ok r →
  window_type = None ∨ window_type = Some "cap_bw"%string
  ∨ window_type = Some "cap_sw"%string.
Proof.
  unfold check_window. intros Hc. apply rbind_Ok in Hc as (u & Hc & _).
  destruct window_type as [s|]; [|by left].
  destruct (is_ (Some s) "cap_bw") eqn:E1;
    [apply is_Some_eq in E1; auto|].
  destruct (is_ (Some s) "cap_sw") eqn:E2;
    [apply is_Some_eq in E2; auto|].
  discriminate.
Qed.

Lemma check_weight_recognised weight_type parameters r :
  check_weight weight_type parameters = Ok r →
  weight_type = None ∨ weight_type = Some "cap_bw"%string
  ∨ weight_type = Some "cap_sw"%string.
Proof.
  unfold check_weight. destruct weight_type as [s|]; [|by left].
  destruct (is_ (Some s) "cap_bw") eqn:E1;
    [apply is_Some_eq in E1; auto|].
  destruct (is_ (Some s) "cap_sw") eqn:E2;
    [apply is_Some_eq in E2; auto|].
  discriminate.
Qed.

(** X1. An instance the constructor returns has a recognised strategy on
    every axis - a pick strategy always, and never 'from_cap_weight_file'
    - keeps the four strategies as they were given, and starts with both
    caches empty. *)
Theorem init_configuration filter_type pick_type window_type weight_type
    parameters self :
  __init__ filter_type pick_type window_type weight_type parameters
  = Ok self →
  (ProcessData.filter_type self = filter_type
   ∧ ProcessData.pick_type self = pick_type
   ∧ ProcessData.window_type self = window_type
   ∧ ProcessData.weight_type self = weight_type)
  ∧ (filter_type = None ∨ filter_type = Some "Bandpass"%string
     ∨ filter_type = Some "Lowpass"%string
     ∨ filter_type = Some "Highpass"%string)
  ∧ (pick_type = Some "from_taup_model"%string
     ∨ pick_type = Some "from_fk_metadata"%string
     ∨ pick_type = Some "from_sac_metadata"%string
     ∨ pick_type = Some "from_pick_file"%string)
  ∧ (window_type = None ∨ window_type = Some "cap_bw"%string
     ∨ window_type = Some "cap_sw"%string)
  ∧ (weight_type = None ∨ weight_type = Some "cap_bw"%string
     ∨ weight_type = Some "cap_sw"%string)
  ∧ _picks self = ∅ ∧ _windows self = ∅.
Proof.
  intros Hinit.
  apply init_Ok_inv in Hinit
    as (parameters' & fmin & fmax & fr & tm & fd & fm & pf & wl & pl & w
        & sp & sd & Hf & Hp & Hw & Hg & ->).
  cbn. split; [done|].
  split; [by eapply check_filter_recognised|].
  split; [by eapply check_pick_recognised|].
  split; [by eapply check_window_recognised|].
  split; [by eapply check_weight_recognised|done].
Qed.

(** What the filter checks leave behind when they pass. *)
Lemma check_filter_bandpass parameters parameters' fmin fmax fr :
  check_filter (Some "Bandpass"%string) parameters
  = Ok (parameters', (fmin, fmax, fr)) →
  ∃ a b,
    fmin = Some a ∧ fmax = Some b ∧ fr = None
    ∧ parameters' !! "freq_min"%string = Some (VFloat a)
    ∧ parameters' !! "freq_max"%string = Some (VFloat b)
    ∧ fltb (lit 0) a = true ∧ fltb a b = true ∧ below_inf b = true.
Proof.
  unfold check_filter. cbn [is_ String.eqb Ascii.eqb Bool.eqb].
  intros Hc.
  apply rbind_Ok in Hc as (p1 & _ & Hc).
  apply rbind_Ok in Hc as (? & _ & Hc).
  apply rbind_Ok in Hc as (? & _ & Hc).
  apply rbind_Ok in Hc as (a & Ha & Hc).
  apply rbind_Ok in Ha as (va & Hva & Ha).
  apply getitem_Ok in Hva. apply num_Ok in Ha as ->.
  apply rbind_Ok in Hc as (? & H0a & Hc). apply assert_Ok in H0a.
  apply rbind_Ok in Hc as (b & Hb & Hc).
  apply rbind_Ok in Hb as (vb & Hvb & Hb).
  apply getitem_Ok in Hvb. apply num_Ok in Hb as ->.
  apply rbind_Ok in Hc as (? & Hab & Hc). apply assert_Ok in Hab.
  apply rbind_Ok in Hc as (? & Hinf & Hc). apply assert_Ok in Hinf.
  injection Hc as <- <- <- <-. by exists a, b.
Qed.

Lemma check_filter_lowpass parameters parameters' fmin fmax fr :
  check_filter (Some "Lowpass"%string) parameters
  = Ok (parameters', (fmin, fmax, fr)) →
  ∃ f, fmin = None ∧ fmax = None ∧ fr = Some f
       ∧ fltb (lit 0) f = true ∧ below_inf f = true.
Proof.
  unfold check_filter. cbn [is_ String.eqb Ascii.eqb Bool.eqb].
  intros Hc.
  apply rbind_Ok in Hc as (p1 & _ & Hc).
  apply rbind_Ok in Hc as (? & _ & Hc).
  apply rbind_Ok in Hc as (f & _ & Hc).
  apply rbind_Ok in Hc as (? & H0f & Hc). apply assert_Ok in H0f.
  apply rbind_Ok in Hc as (? & Hinf & Hc). apply assert_Ok in Hinf.
  injection Hc as <- <- <- <-. by exists f.
Qed.

Lemma check_filter_highpass parameters parameters' fmin fmax fr :
  check_filter (Some "Highpass"%string) parameters
  = Ok (parameters', (fmin, fmax, fr)) →
  ∃ f, fmin = None ∧ fmax = None ∧ fr = Some f
       ∧ fleb (lit 0) f = true ∧ below_inf f = true.
Proof.
  unfold check_filter. cbn [is_ String.eqb Ascii.eqb Bool.eqb].
  intros Hc.
  apply rbind_Ok in Hc as (p1 & _ & Hc).
  apply rbind_Ok in Hc as (? & _ & Hc).
  apply rbind_Ok in Hc as (f & _ & Hc).
  apply rbind_Ok in Hc as (? & H0f & Hc). apply assert_Ok in H0f.
  apply andb_prop in H0f as [H0f Hinf].
  injection Hc as <- <- <- <-. by exists f.
Qed.

(** X2. The corner frequencies of an instance the constructor returns are
    in range: 0 < freq_min < freq_max < inf for 'Bandpass',
    0 < freq < inf for 'Lowpass', 0 <= freq < inf for 'Highpass'; the
    attributes of the other filters are not set, and none is without a
    filter. *)
Theorem init_filter_bounds filter_type pick_type window_type weight_type
    parameters self :
  __init__ filter_type pick_type window_type weight_type parameters
  = Ok self →
  (filter_type = Some "Bandpass"%string →
   ∃ a b, freq_min self = Some a ∧ freq_max self = Some b
          ∧ freq self = None
          ∧ fltb (lit 0) a = true ∧ fltb a b = true ∧ below_inf b = true)
  ∧ (filter_type = Some "Lowpass"%string →
     ∃ f, freq self = Some f ∧ freq_min self = None ∧ freq_max self = None
          ∧ fltb (lit 0) f = true ∧ below_inf f = true)
  ∧ (filter_type = Some "Highpass"%string →
     ∃ f, freq self = Some f ∧ freq_min self = None ∧ freq_max self = None
          ∧ fleb (lit 0) f = true ∧ below_inf f = true)
  ∧ (filter_type = None →
     freq self = None ∧ freq_min self = None ∧ freq_max self = None).
Proof.
  intros Hinit.
  apply init_Ok_inv in Hinit
    as (parameters' & fmin & fmax & fr & tm & fd & fm & pf & wl & pl & w
        & sp & sd & Hf & _ & _ & _ & ->).
  cbn. split; [|split; [|split]].
  - intros ->. apply check_filter_bandpass in Hf
      as (a & b & -> & -> & -> & _ & _ & Hpos & Hab & Hinf).
    by exists a, b.
  - intros ->. apply check_filter_lowpass in Hf
      as (f & -> & -> & -> & Hpos & Hinf).
    by exists f.
  - intros ->. apply check_filter_highpass in Hf
      as (f & -> & -> & -> & Hpos & Hinf).
    by exists f.
  - intros ->. by injection Hf as _ <- <- <-.
Qed.

Lemma has_key_Some {A} (k : string) (d : gmap string A) (v : A) :
  d !! k = Some v → has_key k d = true.
Proof. intros Hk. unfold has_key. by rewrite Hk, bool_decide_eq_true_2. Qed.

Lemma has_key_None {A} (k : string) (d : gmap string A) :
  d !! k = None → has_key k d = false.
Proof.
  intros Hk. unfold has_key. rewrite Hk.
  apply bool_decide_eq_false_2. by intros [? ?].
Qed.

Lemma getitem_Some {A} (k : string) (d : gmap string A) (v : A) :
  d !! k = Some v → getitem k d = Ok v.
Proof. intros Hk. unfold getitem. by rewrite Hk. Qed.

(** The band-pass checks on a pair of periods. *)
Lemma check_filter_periods parameters pmin pmax :
  parameters !! "period_min"%string = Some (VFloat pmin) →
  parameters !! "period_max"%string = Some (VFloat pmax) →
  check_filter (Some "Bandpass"%string) parameters
  = if has_key "freq_min" parameters || has_key "freq_max" parameters
    then Raise AssertionError
    else
      a ← power pmax (lit (-1));
      b ← power pmin (lit (-1));
      _ ← assert_ (fltb (lit 0) a);
      _ ← assert_ (fltb a b);
      _ ← assert_ (below_inf b);
      Ok (<["freq_max"%string := VFloat b]>
            (<["freq_min"%string := VFloat a]> parameters),
          (Some a, Some b, None)).
Proof.
  intros Hmin Hmax. unfold check_filter, mbind, result_bind.
  cbn [is_ String.eqb Ascii.eqb Bool.eqb].
  rewrite (has_key_Some _ _ _ Hmin), (has_key_Some _ _ _ Hmax).
  cbn [andb].
  destruct (has_key "freq_min" parameters); [done|].
  destruct (has_key "freq_max" parameters); [done|].
  cbn [orb negb assert_ rbind].
  rewrite (getitem_Some _ _ _ Hmax). cbn [num rbind].
  destruct (power pmax (lit (-1))) as [a|e]; cbn [rbind]; [|done].
  rewrite (getitem_Some "period_min" _ (VFloat pmin))
    by by rewrite lookup_insert_ne.
  cbn [num rbind].
  destruct (power pmin (lit (-1))) as [b|e]; cbn [rbind]; [|done].
  rewrite (has_key_Some "freq_min" _ (VFloat a))
    by by rewrite lookup_insert_ne, lookup_insert_eq.
  rewrite (has_key_Some "freq_max" _ (VFloat b))
    by by rewrite lookup_insert_eq.
  cbn [negb raise_if rbind].
  rewrite (getitem_Some "freq_min" _ (VFloat a))
    by by rewrite lookup_insert_ne, lookup_insert_eq.
  rewrite (getitem_Some "freq_max" _ (VFloat b))
    by by rewrite lookup_insert_eq.
  reflexivity.
Qed.

(** X3. Corner periods: when 'Bandpass' is given [period_min] and
    [period_max] as numbers, an instance the constructor returns has
    [freq_min = period_max**-1] and [freq_max = period_min**-1], and the
    keywords held neither [freq_min] nor [freq_max]. *)
Theorem init_bandpass_periods pick_type window_type weight_type parameters
    pmin pmax self :
  parameters !! "period_min"%string = Some (VFloat pmin) →
  parameters !! "period_max"%string = Some (VFloat pmax) →
  __init__ (Some "Bandpass"%string) pick_type window_type weight_type
    parameters = Ok self →
  freq_min self = Some (fpow pmax (lit (-1)))
  ∧ freq_max self = Some (fpow pmin (lit (-1)))
  ∧ parameters !! "freq_min"%string = None
  ∧ parameters !! "freq_max"%string = None.
Proof.
  intros Hmin Hmax Hinit.
  apply init_Ok_inv in Hinit
    as (parameters' & fmin & fmax & fr & tm & fd & fm & pf & wl & pl & w
        & sp & sd & Hf & _ & _ & _ & ->).
  rewrite (check_filter_periods _ _ _ Hmin Hmax) in Hf. cbn.
  destruct (has_key "freq_min" parameters) eqn:Ha; [discriminate|].
  destruct (has_key "freq_max" parameters) eqn:Hb; [discriminate|].
  cbn [orb] in Hf.
  apply rbind_Ok in Hf as (a & Hpa & Hf). apply power_Ok in Hpa as ->.
  apply rbind_Ok in Hf as (b & Hpb & Hf). apply power_Ok in Hpb as ->.
  apply rbind_Ok in Hf as (? & _ & Hf).
  apply rbind_Ok in Hf as (? & _ & Hf).
  apply rbind_Ok in Hf as (? & _ & Hf).
  injection Hf as _ <- <- _.
  repeat split.
  - unfold has_key in Ha. apply bool_decide_eq_false_1 in Ha.
    by apply eq_None_not_Some.
  - unfold has_key in Hb. apply bool_decide_eq_false_1 in Hb.
    by apply eq_None_not_Some.
Qed.

(** X4. Periods and frequencies together are refused: 'Bandpass' with
    [period_min] and [period_max] and also [freq_min] or [freq_max]
    raises [AssertionError]. *)
Theorem init_bandpass_periods_and_freqs pick_type window_type weight_type
    parameters pmin pmax :
  parameters !! "period_min"%string = Some (VFloat pmin) →
  parameters !! "period_max"%string = Some (VFloat pmax) →
  is_Some (parameters !! "freq_min"%string)
  ∨ is_Some (parameters !! "freq_max"%string) →
  __init__ (Some "Bandpass"%string) pick_type window_type weight_type
    parameters = Raise AssertionError.
Proof.
  intros Hmin Hmax Hfreq. unfold __init__.
  rewrite (check_filter_periods _ _ _ Hmin Hmax).
  replace (has_key "freq_min" parameters || has_key "freq_max" parameters)
    with true; [done|].
  symmetry. apply orb_true_iff. unfold has_key.
  destruct Hfreq as [Hk|Hk]; [left|right]; by apply bool_decide_eq_true_2.
Qed.

(** The constructor raises what its first failing check raises. *)
Lemma init_raise_filter filter_type pick_type window_type weight_type
    parameters e :
  check_filter filter_type parameters = Raise e →
  __init__ filter_type pick_type window_type weight_type parameters
  = Raise e.
Proof. intros Hf. unfold __init__. by rewrite Hf. Qed.

Lemma init_raise_pick filter_type pick_type window_type weight_type
    parameters parameters' fs e :
  check_filter filter_type parameters = Ok (parameters', fs) →
  check_pick pick_type parameters' = Raise e →
  __init__ filter_type pick_type window_type weight_type parameters
  = Raise e.
Proof.
  intros Hf Hp. unfold __init__. rewrite Hf.
  destruct fs as [[? ?] ?]. cbn. by rewrite Hp.
Qed.

Lemma init_raise_window filter_type pick_type window_type weight_type
    parameters parameters' fs ps e :
  check_filter filter_type parameters = Ok (parameters', fs) →
  check_pick pick_type parameters' = Ok ps →
  check_window window_type parameters' = Raise e →
  __init__ filter_type pick_type window_type weight_type parameters
  = Raise e.
Proof.
  intros Hf Hp Hw. unfold __init__. rewrite Hf.
  destruct fs as [[? ?] ?]. cbn. rewrite Hp.
  destruct ps as [[[? ?] ?] ?]. cbn. by rewrite Hw.
Qed.

Lemma init_raise_weight filter_type pick_type window_type weight_type
    parameters parameters' fs ps ws e :
  check_filter filter_type parameters = Ok (parameters', fs) →
  check_pick pick_type parameters' = Ok ps →
  check_window window_type parameters' = Ok ws →
  check_weight weight_type parameters' = Raise e →
  __init__ filter_type pick_type window_type weight_type parameters
  = Raise e.
Proof.
  intros Hf Hp Hw Hg. unfold __init__. rewrite Hf.
  destruct fs as [[? ?] ?]. cbn. rewrite Hp.
  destruct ps as [[[? ?] ?] ?]. cbn. rewrite Hw.
  destruct ws as [? ?]. cbn. by rewrite Hg.
Qed.

Lemma is_neq (s t : string) : s ≠ t → is_ (Some s) t = false.
Proof. intros Hne. cbn. by apply String.eqb_neq. Qed.

(** X5. A strategy that is not recognised makes the constructor raise
    [ValueError], on each axis once the checks of the axes before it have
    passed. *)
Theorem init_unrecognised filter_type pick_type window_type weight_type
    parameters (s : string) :
  (filter_type = Some s →
   s ≠ "Bandpass"%string → s ≠ "Lowpass"%string → s ≠ "Highpass"%string →
   __init__ filter_type pick_type window_type weight_type parameters
   = Raise ValueError)
  ∧ (∀ parameters' fs,
       check_filter filter_type parameters = Ok (parameters', fs) →
       pick_type = Some s →
       s ≠ "from_taup_model"%string → s ≠ "from_fk_metadata"%string →
       s ≠ "from_sac_metadata"%string →
       s ≠ "from_cap_weight_file"%string → s ≠ "from_pick_file"%string →
       __init__ filter_type pick_type window_type weight_type parameters
       = Raise ValueError)
  ∧ (∀ parameters' fs ps,
       check_filter filter_type parameters = Ok (parameters', fs) →
       check_pick pick_type parameters' = Ok ps →
       window_type = Some s →
       s ≠ "cap_bw"%string → s ≠ "cap_sw"%string →
       __init__ filter_type pick_type window_type weight_type parameters
       = Raise ValueError)
  ∧ (∀ parameters' fs ps ws,
       check_filter filter_type parameters = Ok (parameters', fs) →
       check_pick pick_type parameters' = Ok ps →
       check_window window_type parameters' = Ok ws →
       weight_type = Some s →
       s ≠ "cap_bw"%string → s ≠ "cap_sw"%string →
       __init__ filter_type pick_type window_type weight_type parameters
       = Raise ValueError).
Proof.
  split; [|split; [|split]].
  - intros -> H1 H2 H3. apply init_raise_filter. unfold check_filter.
    by rewrite !is_neq.
  - intros parameters' fs Hf -> H1 H2 H3 H4 H5.
    eapply init_raise_pick; [exact Hf|]. unfold check_pick.
    by rewrite !is_neq.
  - intros parameters' fs ps Hf Hp -> H1 H2.
    eapply init_raise_window; [exact Hf|exact Hp|]. unfold check_window.
    by rewrite !is_neq.
  - intros parameters' fs ps ws Hf Hp Hw -> H1 H2.
    eapply init_raise_weight; [exact Hf|exact Hp|exact Hw|].
    unfold check_weight. by rewrite !is_neq.
Qed.

(** X6. The files a strategy names must be there when the instance is
    built: once the checks before have passed, 'from_pick_file' raises
    [KeyError] without the keyword [pick_file] and [AssertionError] when
    the file does not exist, and 'cap_bw' and 'cap_sw' weights raise
    [AssertionError] without the keyword [cap_weight_file] or when the
    file does not exist. *)
Theorem init_files filter_type pick_type window_type weight_type parameters
    parameters' fs :
  check_filter filter_type parameters = Ok (parameters', fs) →
  (pick_type = Some "from_pick_file"%string →
   (parameters' !! "pick_file"%string = None →
    __init__ filter_type pick_type window_type weight_type parameters
    = Raise KeyError)
   ∧ (∀ file, parameters' !! "pick_file"%string = Some (VStr file) →
        exists_ file = false →
        __init__ filter_type pick_type window_type weight_type parameters
        = Raise AssertionError))
  ∧ (∀ ps ws,
       check_pick pick_type parameters' = Ok ps →
       check_window window_type parameters' = Ok ws →
       weight_type = Some "cap_bw"%string
       ∨ weight_type = Some "cap_sw"%string →
       (parameters' !! "cap_weight_file"%string = None →
        __init__ filter_type pick_type window_type weight_type parameters
        = Raise AssertionError)
       ∧ (∀ file,
            parameters' !! "cap_weight_file"%string = Some (VStr file) →
            exists_ file = false →
            __init__ filter_type pick_type window_type weight_type
              parameters = Raise AssertionError)).
Proof.
  intros Hf. split.
  - intros ->. split.
    + intros Hk. eapply init_raise_pick; [exact Hf|].
      unfold check_pick. cbn [is_ String.eqb Ascii.eqb Bool.eqb].
      unfold getitem. by rewrite Hk.
    + intros file Hk Hfile. eapply init_raise_pick; [exact Hf|].
      unfold check_pick. cbn [is_ String.eqb Ascii.eqb Bool.eqb].
      rewrite (getitem_Some _ _ _ Hk). cbn. by rewrite Hfile.
  - intros ps ws Hp Hw Hwt. split.
    + intros Hk. eapply init_raise_weight; [exact Hf|exact Hp|exact Hw|].
      unfold check_weight, check_cap_weight.
      rewrite (has_key_None _ _ Hk).
      by destruct Hwt as [-> | ->].
    + intros file Hk Hfile.
      eapply init_raise_weight; [exact Hf|exact Hp|exact Hw|].
      unfold check_weight, check_cap_weight.
      rewrite (has_key_Some _ _ _ Hk), (getitem_Some _ _ _ Hk).
      destruct Hwt as [-> | ->]; cbn; by rewrite Hfile.
Qed.

(** X7. [window_length] is read whatever the window type: once the
    checks before have passed, the constructor raises [AssertionError]
    without it for 'cap_bw' and 'cap_sw', and [KeyError] without it for no
    window type at all. *)
Theorem init_window_length filter_type pick_type window_type weight_type
    parameters parameters' fs ps :
  check_filter filter_type parameters = Ok (parameters', fs) →
  check_pick pick_type parameters' = Ok ps →
  parameters' !! "window_length"%string = None →
  (window_type = Some "cap_bw"%string ∨ window_type = Some "cap_sw"%string →
   __init__ filter_type pick_type window_type weight_type parameters
   = Raise AssertionError)
  ∧ (window_type = None →
     __init__ filter_type pick_type window_type weight_type parameters
     = Raise KeyError).
Proof.
  intros Hf Hp Hk. split.
  - intros Hwt. eapply init_raise_window; [exact Hf|exact Hp|].
    unfold check_window. rewrite (has_key_None _ _ Hk).
    by destruct Hwt as [-> | ->].
  - intros ->. eapply init_raise_window; [exact Hf|exact Hp|].
    unfold check_window, getitem. by rewrite Hk.
Qed.

(** X8. 'Bandpass' without corner frequencies: with no pair of periods
    and without [freq_min] or without [freq_max], the constructor raises
    [ValueError]. *)
Theorem init_bandpass_missing pick_type window_type weight_type parameters :
  has_key "period_min" parameters && has_key "period_max" parameters
  = false →
  parameters !! "freq_min"%string = None
  ∨ parameters !! "freq_max"%string = None →
  __init__ (Some "Bandpass"%string) pick_type window_type weight_type
    parameters = Raise ValueError.
Proof.
  intros Hperiods Hfreq. apply init_raise_filter. unfold check_filter.
  cbn [is_ String.eqb Ascii.eqb Bool.eqb]. rewrite Hperiods. cbn.
  destruct (has_key "freq_min" parameters) eqn:Hmin; [|done]. cbn.
  destruct Hfreq as [Hk|Hk].
  - by rewrite (has_key_None _ _ Hk) in Hmin.
  - by rewrite (has_key_None _ _ Hk).
Qed.

(** The filter checks touch the keys [freq_min], [freq_max] and [freq] of
    the dictionary only. *)
Lemma check_filter_keeps filter_type parameters parameters' fs (k : string) :
  check_filter filter_type parameters = Ok (parameters', fs) →
  k ≠ "freq_min"%string → k ≠ "freq_max"%string → k ≠ "freq"%string →
  parameters' !! k = parameters !! k.
Proof.
  intros Hc Hmin Hmax Hfreq.
  destruct (check_filter_recognised _ _ _ Hc) as [-> | [-> | [-> | ->]]].
  - by injection Hc as <- _.
  - unfold check_filter in Hc. cbn [is_ String.eqb Ascii.eqb Bool.eqb] in Hc.
    apply rbind_Ok in Hc as (p1 & Hp1 & Hc).
    do 7 (apply rbind_Ok in Hc as (? & _ & Hc)).
    injection Hc as <- _.
    destruct (_ && _) in Hp1; [|by injection Hp1 as <-].
    do 6 (apply rbind_Ok in Hp1 as (? & _ & Hp1)).
    injection Hp1 as <-. by rewrite !lookup_insert_ne.
  - unfold check_filter in Hc. cbn [is_ String.eqb Ascii.eqb Bool.eqb] in Hc.
    apply rbind_Ok in Hc as (p1 & Hp1 & Hc).
    do 4 (apply rbind_Ok in Hc as (? & _ & Hc)).
    injection Hc as <- _.
    destruct (has_key "period" parameters) in Hp1; [|by injection Hp1 as <-].
    do 3 (apply rbind_Ok in Hp1 as (? & _ & Hp1)).
    injection Hp1 as <-. by rewrite !lookup_insert_ne.
  - unfold check_filter in Hc. cbn [is_ String.eqb Ascii.eqb Bool.eqb] in Hc.
    apply rbind_Ok in Hc as (p1 & Hp1 & Hc).
    do 3 (apply rbind_Ok in Hc as (? & _ & Hc)).
    injection Hc as <- _.
    destruct (has_key "period" parameters) in Hp1; [|by injection Hp1 as <-].
    do 3 (apply rbind_Ok in Hp1 as (? & _ & Hp1)).
    injection Hp1 as <-. by rewrite !lookup_insert_ne.
Qed.

Lemma getitem_None {A} (k : string) (d : gmap string A) :
  d !! k = None → getitem k d = Raise KeyError.
Proof. intros Hk. unfold getitem. by rewrite Hk. Qed.

Lemma getitem_or_default {A} (k : string) (d : gmap string A) (x v : A) :
  (if has_key k d then getitem k d else Ok x) = Ok v →
  v = default x (d !! k).
Proof.
  unfold has_key, getitem. destruct (d !! k) as [y|].
  - rewrite bool_decide_eq_true_2 by by eexists. by intros [= ->].
  - rewrite bool_decide_eq_false_2 by by intros [? ?]. by intros [= ->].
Qed.

(** X9. The keywords an instance keeps: [window_length] is the keyword
    given, [padding_length] the keyword given or 0., and, with a weight
    type, [scaling_distance] the keyword given or 1e5; without a weight
    type neither [weights] nor the scaling attributes are set. *)
Theorem init_keywords filter_type pick_type window_type weight_type
    parameters self :
  __init__ filter_type pick_type window_type weight_type parameters
  = Ok self →
  parameters !! "window_length"%string = Some (window_length self)
  ∧ padding_length self
    = default (VFloat (lit 0)) (parameters !! "padding_length"%string)
  ∧ (weight_type ≠ None →
     scaling_distance self
     = Some (default (VFloat (lit 1e5))
               (parameters !! "scaling_distance"%string)))
  ∧ (weight_type = None →
     weights self = None ∧ scaling_power self = None
     ∧ scaling_distance self = None).
Proof.
  intros Hinit.
  apply init_Ok_inv in Hinit
    as (parameters' & fmin & fmax & fr & tm & fd & fm & pf & wl & pl & w
        & sp & sd & Hf & _ & Hw & Hg & ->).
  cbn.
  assert (Hkeep : ∀ k : string,
            k ≠ "freq_min"%string → k ≠ "freq_max"%string →
            k ≠ "freq"%string → parameters' !! k = parameters !! k).
  { intros k. by apply (check_filter_keeps filter_type parameters
                          parameters' (fmin, fmax, fr)). }
  unfold check_window in Hw.
  apply rbind_Ok in Hw as (? & _ & Hw).
  apply rbind_Ok in Hw as (wl' & Hwl & Hw).
  apply rbind_Ok in Hw as (pl' & Hpl & Hw).
  injection Hw as <- <-.
  apply getitem_Ok in Hwl. apply getitem_or_default in Hpl.
  rewrite Hkeep in Hwl, Hpl by done.
  split; [done|]. split; [done|]. split.
  - intros Hwt.
    destruct (check_weight_recognised _ _ _ Hg) as [-> | Hcap]; [done|].
    assert (Hcw : ∃ power w' sp' sd',
              check_cap_weight power parameters' = Ok (w', sp', sd')
              ∧ sd = Some sd').
    { unfold check_weight in Hg.
      destruct Hcap as [-> | ->];
        cbn [is_ String.eqb Ascii.eqb Bool.eqb] in Hg;
        apply rbind_Ok in Hg as ([[w' sp'] sd'] & Hcw & Hg);
        injection Hg as _ _ <-; by eexists _, w', sp', sd'. }
    destruct Hcw as (power & w' & sp' & sd' & Hcw & ->).
    unfold check_cap_weight in Hcw.
    do 5 (apply rbind_Ok in Hcw as (? & _ & Hcw)).
    apply rbind_Ok in Hcw as (sd'' & Hsd & Hcw).
    injection Hcw as _ _ <-.
    apply getitem_or_default in Hsd. rewrite Hkeep in Hsd by done.
    by rewrite Hsd.
  - intros ->. by injection Hg as <- <- <-.
Qed.

(** X10. The key with the blank: when the keywords hold 'scaling power',
    a weight type reads [scaling_power] from the key 'scaling_power'; the
    constructor raises [KeyError] when that key is missing (the checks
    before having passed, and the weight file being there), and the value
    under 'scaling power' is not used. *)
Theorem init_scaling_power_blank filter_type pick_type window_type
    weight_type parameters parameters' fs ps ws file table :
  check_filter filter_type parameters = Ok (parameters', fs) →
  check_pick pick_type parameters' = Ok ps →
  check_window window_type parameters' = Ok ws →
  weight_type = Some "cap_bw"%string ∨ weight_type = Some "cap_sw"%string →
  parameters' !! "cap_weight_file"%string = Some (VStr file) →
  exists_ file = true →
  parse_weight_file file = Ok table →
  is_Some (parameters' !! "scaling power"%string) →
  (parameters' !! "scaling_power"%string = None →
   __init__ filter_type pick_type window_type weight_type parameters
   = Raise KeyError)
  ∧ (∀ v, parameters' !! "scaling_power"%string = Some v →
       ∃ self,
         __init__ filter_type pick_type window_type weight_type parameters
         = Ok self
         ∧ scaling_power self = Some v).
Proof.
  intros Hf Hp Hw Hwt Hfile Hexists Hparse Hblank.
  assert (Hkey : has_key "scaling power" parameters' = true).
  { unfold has_key. by apply bool_decide_eq_true_2. }
  split.
  - intros Hk. eapply init_raise_weight; [exact Hf|exact Hp|exact Hw|].
    unfold check_weight, check_cap_weight.
    rewrite (has_key_Some _ _ _ Hfile), (getitem_Some _ _ _ Hfile), Hkey.
    rewrite (getitem_None _ _ Hk).
    destruct Hwt as [-> | ->]; cbn; rewrite Hexists; cbn;
      by rewrite Hparse.
  - intros v Hk.
    assert (Hg : ∃ sd, check_weight weight_type parameters'
                       = Ok (Some table, Some v, Some sd)).
    { unfold check_weight, check_cap_weight.
      rewrite (has_key_Some _ _ _ Hfile), (getitem_Some _ _ _ Hfile), Hkey.
      rewrite (getitem_Some _ _ _ Hk).
      destruct (has_key "scaling_distance" parameters') eqn:Hsd.
      - destruct (getitem_has_key _ _ Hsd) as [sd Hsd'].
        exists sd. rewrite Hsd'.
        destruct Hwt as [-> | ->]; cbn; rewrite Hexists; cbn;
          by rewrite Hparse.
      - exists (VFloat (lit 1e5)).
        destruct Hwt as [-> | ->]; cbn; rewrite Hexists; cbn;
          by rewrite Hparse. }
    destruct Hg as [sd Hg].
    destruct (init_Ok filter_type pick_type window_type weight_type
                parameters parameters' fs ps ws _ Hf Hp Hw Hg)
      as (self & Hself & _ & _ & _ & _ & Hsp & _).
    exists self. split; [exact Hself|]. by rewrite Hsp.
Qed.
End InitMore.

(** *** The constructor in the example world *)

Lemma init_configuration_witness :
  ProcessData.example_init (Some "cap_bw") (Some "cap_bw")%string
    ProcessData.example_parameters = Ok ProcessData.example_self
  ∧ ProcessData.pick_type ProcessData.example_self
    = Some "from_fk_metadata"%string
  ∧ ProcessData._picks ProcessData.example_self = ∅
  ∧ ProcessData._windows ProcessData.example_self = ∅.
Proof.
  split; [reflexivity|].
  destruct (@init_configuration Q ProcessData.Q_Float
              ProcessData.example_world None
              (Some "from_fk_metadata") (Some "cap_bw") (Some "cap_bw")%string
              ProcessData.example_parameters ProcessData.example_self
              eq_refl)
    as ((_ & Hpick & _) & _ & _ & _ & _ & Hpicks & Hwindows).
  split; [exact Hpick|]. split; [exact Hpicks|exact Hwindows].
Defined.

Lemma init_filter_bounds_witness :
  let parameters :=
    <["freq_min"%string := ProcessData.VFloat 0.1%Q]>
      (<["freq_max"%string := ProcessData.VFloat 0.333%Q]>
         ProcessData.example_parameters) in
  ∃ self a b,
    @ProcessData.__init__ Q ProcessData.Q_Float ProcessData.example_world
      (Some "Bandpass") (Some "from_fk_metadata") (Some "cap_bw")
      (Some "cap_bw")%string parameters = Ok self
    ∧ ProcessData.freq_min self = Some a
    ∧ ProcessData.freq_max self = Some b
    ∧ (if Qlt_le_dec 0 a then true else false) = true
    ∧ (if Qlt_le_dec a b then true else false) = true.
Proof.
  intros parameters.
  destruct (@ProcessData.__init__ Q ProcessData.Q_Float
              ProcessData.example_world (Some "Bandpass")
              (Some "from_fk_metadata") (Some "cap_bw")
              (Some "cap_bw")%string parameters) as [self|e] eqn:Hinit;
    [|by vm_compute in Hinit].
  destruct (@init_filter_bounds Q ProcessData.Q_Float
              ProcessData.example_world _ _ _ _ _ _ Hinit) as (Hband & _).
  destruct (Hband eq_refl) as (a & b & Ha & Hb & _ & Hpos & Hab & _).
  exists self, a, b. split; [reflexivity|].
  split; [exact Ha|]. split; [exact Hb|]. split; [exact Hpos|exact Hab].
Defined.

Lemma init_bandpass_periods_witness :
  let parameters :=
    <["period_min"%string := ProcessData.VFloat 3%Q]>
      (<["period_max"%string := ProcessData.VFloat 10%Q]>
         ProcessData.example_parameters) in
  ∃ self,
    @ProcessData.__init__ Q ProcessData.Q_Float ProcessData.example_world
      (Some "Bandpass") (Some "from_fk_metadata") (Some "cap_bw")
      (Some "cap_bw")%string parameters = Ok self
    ∧ ProcessData.freq_min self = Some (ProcessData.Qpow 10 (-1))
    ∧ ProcessData.freq_max self = Some (ProcessData.Qpow 3 (-1)).
Proof.
  intros parameters.
  destruct (@ProcessData.__init__ Q ProcessData.Q_Float
              ProcessData.example_world (Some "Bandpass")
              (Some "from_fk_metadata") (Some "cap_bw")
              (Some "cap_bw")%string parameters) as [self|e] eqn:Hinit;
    [|by vm_compute in Hinit].
  destruct (@init_bandpass_periods Q ProcessData.Q_Float
              ProcessData.example_world _ _ _ parameters 3%Q 10%Q self
              eq_refl eq_refl Hinit) as (Hmin & Hmax & _).
  exists self. split; [reflexivity|]. split; [exact Hmin|exact Hmax].
Defined.

Lemma init_bandpass_periods_and_freqs_witness :
  @ProcessData.__init__ Q ProcessData.Q_Float ProcessData.example_world
    (Some "Bandpass") (Some "from_fk_metadata") (Some "cap_bw")
    (Some "cap_bw")%string
    (<["period_min"%string := ProcessData.VFloat 3%Q]>
       (<["period_max"%string := ProcessData.VFloat 10%Q]>
          (<["freq_min"%string := ProcessData.VFloat 0.1%Q]>
             ProcessData.example_parameters)))
  = Raise AssertionError.
Proof.
  refine (@init_bandpass_periods_and_freqs Q ProcessData.Q_Float
            ProcessData.example_world _ _ _ _ 3%Q 10%Q _ _ _).
  - reflexivity.
  - reflexivity.
  - left. eexists. reflexivity.
Defined.

Lemma init_unrecognised_witness :
  let init := @ProcessData.__init__ Q ProcessData.Q_Float
                ProcessData.example_world in
  let fk := Some "from_fk_metadata"%string in
  let bw := Some "cap_bw"%string in
  let parameters := ProcessData.example_parameters in
  init (Some "Notch"%string) fk bw bw parameters = Raise ValueError
  ∧ init None (Some "by_hand"%string) bw bw parameters = Raise ValueError
  ∧ init None fk (Some "taup_bw"%string) bw parameters = Raise ValueError
  ∧ init None fk bw (Some "uniform"%string) parameters = Raise ValueError.
Proof.
  intros init fk bw parameters.
  split; [|split; [|split]].
  - destruct (@init_unrecognised Q ProcessData.Q_Float
                ProcessData.example_world (Some "Notch"%string) fk bw bw
                parameters "Notch") as (Hfilter & _).
    apply Hfilter; [reflexivity|discriminate..].
  - destruct (@init_unrecognised Q ProcessData.Q_Float
                ProcessData.example_world None (Some "by_hand"%string) bw bw
                parameters "by_hand") as (_ & Hpick & _).
    eapply Hpick; [reflexivity|reflexivity|discriminate..].
  - destruct (@init_unrecognised Q ProcessData.Q_Float
                ProcessData.example_world None fk (Some "taup_bw"%string) bw
                parameters "taup_bw") as (_ & _ & Hwindow & _).
    eapply Hwindow; [reflexivity|reflexivity|reflexivity|discriminate..].
  - destruct (@init_unrecognised Q ProcessData.Q_Float
                ProcessData.example_world None fk bw (Some "uniform"%string)
                parameters "uniform") as (_ & _ & _ & Hweight).
    eapply Hweight;
      [reflexivity|reflexivity|reflexivity|reflexivity|discriminate..].
Defined.

Lemma init_files_witness :
  let init := @ProcessData.__init__ Q ProcessData.Q_Float
                ProcessData.example_world_without_files in
  let bw := Some "cap_bw"%string in
  init None (Some "from_pick_file"%string) bw bw
    ProcessData.example_parameters = Raise KeyError
  ∧ init None (Some "from_pick_file"%string) bw bw
      (<["pick_file"%string := ProcessData.VStr "picks.txt"]>
         ProcessData.example_parameters) = Raise AssertionError
  ∧ init None (Some "from_fk_metadata"%string) bw bw
      (delete "cap_weight_file"%string ProcessData.example_parameters)
    = Raise AssertionError
  ∧ init None (Some "from_fk_metadata"%string) bw bw
      ProcessData.example_parameters = Raise AssertionError.
Proof.
  intros init bw.
  split; [|split; [|split]].
  - destruct (@init_files Q ProcessData.Q_Float
                ProcessData.example_world_without_files None
                (Some "from_pick_file"%string) bw bw
                ProcessData.example_parameters
                ProcessData.example_parameters (None, None, None) eq_refl)
      as (Hpick & _).
    destruct (Hpick eq_refl) as (Hkey & _). apply Hkey. reflexivity.
  - destruct (@init_files Q ProcessData.Q_Float
                ProcessData.example_world_without_files None
                (Some "from_pick_file"%string) bw bw
                (<["pick_file"%string := ProcessData.VStr "picks.txt"]>
                   ProcessData.example_parameters)
                _ (None, None, None) eq_refl)
      as (Hpick & _).
    destruct (Hpick eq_refl) as (_ & Hfile).
    apply (Hfile "picks.txt"%string); reflexivity.
  - destruct (@init_files Q ProcessData.Q_Float
                ProcessData.example_world_without_files None
                (Some "from_fk_metadata"%string) bw bw
                (delete "cap_weight_file"%string
                   ProcessData.example_parameters)
                _ (None, None, None) eq_refl)
      as (_ & Hweight).
    destruct (Hweight (None, Some "greens/scak", Some "greens/scak", None)%string
                (ProcessData.VFloat 15%Q, ProcessData.VFloat 0%Q)
                eq_refl eq_refl (or_introl eq_refl)) as (Hkey & _).
    apply Hkey. reflexivity.
  - destruct (@init_files Q ProcessData.Q_Float
                ProcessData.example_world_without_files None
                (Some "from_fk_metadata"%string) bw bw
                ProcessData.example_parameters
                _ (None, None, None) eq_refl)
      as (_ & Hweight).
    destruct (Hweight (None, Some "greens/scak", Some "greens/scak", None)%string
                (ProcessData.VFloat 15%Q, ProcessData.VFloat 0%Q)
                eq_refl eq_refl (or_introl eq_refl)) as (_ & Hfile).
    apply (Hfile "weights.dat"%string); reflexivity.
Defined.

Lemma init_window_length_witness :
  let init := @ProcessData.__init__ Q ProcessData.Q_Float
                ProcessData.example_world in
  let fk := Some "from_fk_metadata"%string in
  let parameters :=
    delete "window_length"%string ProcessData.example_parameters in
  init None fk (Some "cap_sw"%string) None parameters = Raise AssertionError
  ∧ init None fk None None parameters = Raise KeyError.
Proof.
  intros init fk parameters. split.
  - destruct (@init_window_length Q ProcessData.Q_Float
                ProcessData.example_world None fk (Some "cap_sw"%string)
                None parameters parameters (None, None, None)
                (None, Some "greens/scak", Some "greens/scak", None)%string
                eq_refl eq_refl eq_refl) as (Hcap & _).
    apply Hcap. right. reflexivity.
  - destruct (@init_window_length Q ProcessData.Q_Float
                ProcessData.example_world None fk None
                None parameters parameters (None, None, None)
                (None, Some "greens/scak", Some "greens/scak", None)%string
                eq_refl eq_refl eq_refl) as (_ & Hnone).
    apply Hnone. reflexivity.
Defined.

Lemma init_bandpass_missing_witness :
  @ProcessData.__init__ Q ProcessData.Q_Float ProcessData.example_world
    (Some "Bandpass") (Some "from_fk_metadata") (Some "cap_bw")
    (Some "cap_bw")%string
    (<["freq_min"%string := ProcessData.VFloat 0.1%Q]>
       ProcessData.example_parameters)
  = Raise ValueError.
Proof.
  refine (@init_bandpass_missing Q ProcessData.Q_Float
            ProcessData.example_world _ _ _ _ _ _).
  - reflexivity.
  - right. reflexivity.
Defined.

Lemma init_keywords_witness :
  ProcessData.example_parameters !! "window_length"%string
  = Some (ProcessData.VFloat 15%Q)
  ∧ ProcessData.padding_length ProcessData.example_self
    = ProcessData.VFloat 0%Q
  ∧ ProcessData.scaling_distance ProcessData.example_self
    = Some (ProcessData.VFloat 1e5%Q).
Proof.
  destruct (@init_keywords Q ProcessData.Q_Float ProcessData.example_world
              None (Some "from_fk_metadata") (Some "cap_bw")
              (Some "cap_bw")%string ProcessData.example_parameters
              ProcessData.example_self eq_refl)
    as (Hwl & Hpl & Hsd & _).
  split; [exact Hwl|]. split; [exact Hpl|]. apply Hsd. discriminate.
Defined.

Lemma init_scaling_power_blank_witness :
  let init := @ProcessData.__init__ Q ProcessData.Q_Float
                ProcessData.example_world None (Some "from_fk_metadata")
                (Some "cap_bw") (Some "cap_bw")%string in
  let blank :=
    <["scaling power"%string := ProcessData.VFloat 3%Q]>
      ProcessData.example_parameters in
  init blank = Raise KeyError
  ∧ ∃ self,
      init (<["scaling_power"%string := ProcessData.VFloat 2%Q]> blank)
      = Ok self
      ∧ ProcessData.scaling_power self = Some (ProcessData.VFloat 2%Q).
Proof.
  intros init blank. split.
  - destruct (@init_scaling_power_blank Q ProcessData.Q_Float
                ProcessData.example_world None (Some "from_fk_metadata")
                (Some "cap_bw") (Some "cap_bw")%string blank blank
                (None, None, None)
                (None, Some "greens/scak", Some "greens/scak", None)%string
                (ProcessData.VFloat 15%Q, ProcessData.VFloat 0%Q)
                "weights.dat"%string ProcessData.example_weights
                eq_refl eq_refl eq_refl (or_introl eq_refl) eq_refl eq_refl
                eq_refl (ex_intro _ (ProcessData.VFloat 3%Q) eq_refl))
      as (Hmissing & _).
    apply Hmissing. reflexivity.
  - destruct (@init_scaling_power_blank Q ProcessData.Q_Float
                ProcessData.example_world None (Some "from_fk_metadata")
                (Some "cap_bw") (Some "cap_bw")%string
                (<["scaling_power"%string := ProcessData.VFloat 2%Q]> blank)
                (<["scaling_power"%string := ProcessData.VFloat 2%Q]> blank)
                (None, None, None)
                (None, Some "greens/scak", Some "greens/scak", None)%string
                (ProcessData.VFloat 15%Q, ProcessData.VFloat 0%Q)
                "weights.dat"%string ProcessData.example_weights)
      as (_ & Hgiven);
      [reflexivity|reflexivity|reflexivity|by left|reflexivity|reflexivity
      |reflexivity|by eexists|].
    apply (Hgiven (ProcessData.VFloat 2%Q)). reflexivity.
Defined.

(** ** Calls *)

Section CallMore.
Import ProcessData.
Context {F : Type} `{Float F} `{World F}.

Lemma rmap_length {A B} (body : A → result B) (l : list A) (l' : list B) :
  rmap body l = Ok l' → length l' = length l.
Proof.
  revert l'. induction l as [|x l IH]; intros l' Hl; cbn in Hl.
  - by injection Hl as <-.
  - apply rbind_Ok in Hl as (y & _ & Hl).
    apply rbind_Ok in Hl as (l'' & Hl'' & Hl).
    injection Hl as <-. cbn. by rewrite (IH l'').
Qed.

Lemma filter_traces_length self (traces traces' : list (Trace F)) :
  filter_traces self traces = Ok traces' → length traces' = length traces.
Proof.
  unfold filter_traces.
  repeat (destruct (is_ _ _); [apply rmap_length|]).
  by intros [= ->].
Qed.

(** The stages of a call: it fails before the pick stage and leaves the
    instance as it is, or runs the pick stage, then the window stage, and
    then the stages that read the instance only. *)
Lemma call_stages bundle station_arg origin_arg overwrite self self' r :
  __call__ bundle station_arg origin_arg overwrite self = (self', r) →
  (self' = self ∧ ∃ e, r = Raise e)
  ∨ ∃ id tags0 origin_ station_ distance_in_m azimuth back trace0 traces1
      r1 self1,
      ProcessData.id bundle = Some id
      ∧ tags bundle = Some tags0
      ∧ origin_arg ∪ origin bundle ∪ preliminary_origin bundle
        = Some origin_
      ∧ station_arg ∪ station bundle = Some station_
      ∧ gps2dist_azimuth (latitude origin_) (longitude origin_)
          (station_latitude station_) (station_longitude station_)
        = (distance_in_m, azimuth, back)
      ∧ traces bundle !! 0 = Some trace0
      ∧ let traces0 :=
          if has_tag "units:cm" tags0
          then imul (lit 1e-2) <$> traces bundle else traces bundle in
        let tags1 :=
          if has_tag "units:cm" tags0
          then retag "units:cm" "units:m" tags0 else tags0 in
        let traces2 :=
          if has_tag "type:velocity" tags1
          then (λ trace, set_data trace
                  ((λ a, fmul a (delta (stats trace0)))
                     <$> cumsum (data trace))) <$> traces1
          else traces1 in
        let tags2 :=
          if has_tag "type:velocity" tags1
          then retag "type:velocity" "type:displacement" tags1
          else tags1 in
        filter_traces self traces0 = Ok traces1
        ∧ determine_picks id traces2 origin_ distance_in_m self
          = (self1, r1)
        ∧ ((∃ e, r1 = Raise e ∧ self' = self1 ∧ r = Raise e)
           ∨ (r1 = Ok ()
              ∧ ∃ r2,
                  determine_window id origin_ self1 = (self', r2)
                  ∧ ((∃ e, r2 = Raise e ∧ r = Raise e)
                     ∨ (r2 = Ok ()
                        ∧ r = (bounds ← pad_window self' id tags2;
                               traces ← determine_weights self' id tags2
                                          distance_in_m
                                          (cut_and_taper bounds traces2);
                               Ok (set_traces (set_tags bundle tags2)
                                     traces)))))).
Proof.
  unfold __call__, mbind, M_bind, mret, M_ret. intros Hcall.
  destruct (ProcessData.id bundle) as [id|]; cycle 1.
  { left. injection Hcall as <- <-. eauto. }
  change (bind (lift (Ok id)) ?k) with (k id) in Hcall. cbn beta in Hcall.
  unfold bind at 1, lift at 1 in Hcall.
  match type of Hcall with
  | context [getattr ?o] =>
      assert (Horigin : o = origin_arg ∪ origin bundle
                            ∪ preliminary_origin bundle)
        by (by destruct origin_arg, (origin bundle),
                 (preliminary_origin bundle));
      rewrite Horigin in Hcall; clear Horigin
  end.
  destruct (origin_arg ∪ origin bundle ∪ preliminary_origin bundle)
    as [origin_|]; cycle 1.
  { left. injection Hcall as <- <-. eauto. }
  cbn [getattr] in Hcall.
  unfold bind at 1, lift at 1 in Hcall.
  match type of Hcall with
  | context [getattr ?o] =>
      assert (Hstation : o = station_arg ∪ station bundle)
        by (by destruct station_arg, (station bundle));
      rewrite Hstation in Hcall; clear Hstation
  end.
  destruct (station_arg ∪ station bundle) as [station_|]; cycle 1.
  { left. injection Hcall as <- <-. eauto. }
  cbn [getattr] in Hcall.
  destruct (gps2dist_azimuth _ _ _ _) as [[distance_in_m azimuth] back]
    eqn:Hgps.
  unfold bind at 1, lift at 1 in Hcall.
  unfold getindex in Hcall.
  destruct (traces bundle !! 0) as [trace0|] eqn:Htrace0; cycle 1.
  { left. injection Hcall as <- <-. eauto. }
  unfold bind at 1, lift at 1 in Hcall.
  destruct (tags bundle) as [tags0|]; cycle 1.
  { left. injection Hcall as <- <-. eauto. }
  set (tags1 := if has_tag "units:cm" tags0
                then retag "units:cm" "units:m" tags0 else tags0).
  set (traces0 := if has_tag "units:cm" tags0
                  then imul (lit 1e-2) <$> traces bundle
                  else traces bundle).
  replace (if has_tag "units:cm" tags0
           then (imul (lit 1e-2) <$> traces bundle,
                 retag "units:cm" "units:m" tags0)
           else (traces bundle, tags0))
    with (traces0, tags1) in Hcall
    by (unfold traces0, tags1; by destruct (has_tag "units:cm" tags0)).
  unfold bind at 1, get at 1 in Hcall.
  unfold bind at 1, lift at 1 in Hcall.
  destruct (filter_traces self traces0) as [traces1|e] eqn:Hfilter; cycle 1.
  { left. injection Hcall as <- <-. eauto. }
  set (tags2 := if has_tag "type:velocity" tags1
                then retag "type:velocity" "type:displacement" tags1
                else tags1).
  set (traces2 := if has_tag "type:velocity" tags1
                  then (λ trace, set_data trace
                          ((λ a, fmul a (delta (stats trace0)))
                             <$> cumsum (data trace))) <$> traces1
                  else traces1).
  match type of Hcall with
  | context [if has_tag "type:velocity" tags1 then ?a else ?b] =>
      replace (if has_tag "type:velocity" tags1 then a else b)
        with (traces2, tags2) in Hcall
        by (unfold traces2, tags2;
            by destruct (has_tag "type:velocity" tags1))
  end.
  right.
  exists id, tags0, origin_, station_, distance_in_m, azimuth, back, trace0,
    traces1.
  unfold bind at 1 in Hcall.
  destruct (determine_picks id traces2 origin_ distance_in_m self)
    as [self1 r1] eqn:Hpicks.
  exists r1, self1.
  do 6 (split; [done|]). cbv zeta. fold traces0 tags1 traces2 tags2.
  split; [done|]. split; [done|].
  destruct r1 as [[]|e]; cycle 1.
  { left. injection Hcall as <- <-. eauto. }
  right. split; [done|].
  unfold bind at 1 in Hcall.
  destruct (determine_window id origin_ self1) as [self2 r2] eqn:Hwindow.
  destruct r2 as [[]|e]; cycle 1.
  { injection Hcall as <- <-. exists (Raise e). split; [done|]. left. eauto. }
  unfold bind at 1, get at 1 in Hcall.
  unfold bind, lift, ret in Hcall.
  assert (Hr : self' = self2
               ∧ r = (bounds ← pad_window self2 id tags2;
                      traces ← determine_weights self2 id tags2
                                 distance_in_m
                                 (cut_and_taper bounds traces2);
                      Ok (set_traces (set_tags bundle tags2) traces))).
  { destruct (pad_window self2 id tags2) as [bounds|e]; cycle 1.
    { by injection Hcall as <- <-. }
    cbn.
    destruct (determine_weights self2 id tags2 distance_in_m _) as [ts|e];
      by injection Hcall as <- <-. }
  destruct Hr as [-> ->].
  exists (Ok ()). split; [done|]. right. done.
Qed.

Lemma call_inv bundle station_arg origin_arg overwrite self self' r :
  __call__ bundle station_arg origin_arg overwrite self = (self', r) →
  (self' = self ∧ ∃ e, r = Raise e)
  ∨ ∃ id tags0 origin_ distance_in_m traces2 r1 self1,
      ProcessData.id bundle = Some id
      ∧ tags bundle = Some tags0
      ∧ length traces2 = length (traces bundle)
      ∧ determine_picks id traces2 origin_ distance_in_m self = (self1, r1)
      ∧ ((∃ e, r1 = Raise e ∧ self' = self1 ∧ r = Raise e)
         ∨ (r1 = Ok ()
            ∧ ∃ r2,
                determine_window id origin_ self1 = (self', r2)
                ∧ ((∃ e, r2 = Raise e ∧ r = Raise e)
                   ∨ (r2 = Ok ()
                      ∧ let tags1 :=
                          if has_tag "units:cm" tags0
                          then retag "units:cm" "units:m" tags0 else tags0 in
                        let tags2 :=
                          if has_tag "type:velocity" tags1
                          then retag "type:velocity" "type:displacement"
                                 tags1
                          else tags1 in
                        r = (bounds ← pad_window self' id tags2;
                             traces ← determine_weights self' id tags2
                                        distance_in_m
                                        (cut_and_taper bounds traces2);
                             Ok (set_traces (set_tags bundle tags2)
                                   traces)))))).
Proof.
  intros Hcall. apply call_stages in Hcall as [?|Hcall]; [by left|right].
  destruct Hcall as (id & tags0 & origin_ & station_ & distance_in_m
                     & azimuth & back & trace0 & traces1 & r1 & self1
                     & Hid & Htags & _ & _ & _ & _ & Hrest).
  cbv zeta in Hrest. destruct Hrest as (Hfilter & Hpicks & Hrest).
  apply filter_traces_length in Hfilter.
  eexists id, tags0, origin_, distance_in_m, _, r1, self1.
  split; [done|]. split; [done|]. split; [|split; [exact Hpicks|exact Hrest]].
  destruct (has_tag "units:cm" tags0), (has_tag "type:velocity" _);
    rewrite ?length_fmap in *; congruence.
Qed.

(** *** What a call may change

    [changes_caches self self']: the instance [self'] is [self] with other
    caches; [keeps_windows] and [keeps_stations]: no window record is
    changed or dropped, and no station loses its pick record. *)
Local Abbreviation changes_caches self self' :=
  (self' = set_windows (λ _, _windows self')
             (set_picks (λ _, _picks self') self)).
Local Abbreviation keeps_windows self self' :=
  (_windows self ⊆ _windows self').
Local Abbreviation keeps_stations self self' :=
  (dom (_picks self) ⊆ dom (_picks self')).
Local Abbreviation grows self self' :=
  (changes_caches self self' ∧ keeps_windows self self'
   ∧ keeps_stations self self').

Lemma grows_refl (self : Instance F) : grows self self.
Proof. by destruct self. Qed.

Lemma grows_trans (self1 self2 self3 : Instance F) :
  grows self1 self2 → grows self2 self3 → grows self1 self3.
Proof.
  intros (Hc1 & Hw1 & Hp1) (Hc2 & Hw2 & Hp2). split; [|split].
  - rewrite Hc2 at 1. rewrite Hc1 at 1. by destruct self1.
  - by etrans.
  - by etrans.
Qed.

(** A computation under which the instance grows, from any instance. *)
Local Abbreviation growing m :=
  (∀ (self self' : Instance F) r, m self = (self', r) → grows self self').

Lemma growing_ret {A} (a : A) : growing (@ret F A a).
Proof. intros self self' r [= <- _]. apply grows_refl. Qed.

Lemma growing_lift {A} (x : result A) : growing (@lift F A x).
Proof. intros self self' r [= <- _]. apply grows_refl. Qed.

Lemma growing_get : growing (@get F).
Proof. intros self self' r [= <- _]. apply grows_refl. Qed.

Lemma growing_bind {A B} (m : M F A) (k : A → M F B) :
  growing m → (∀ a, growing (k a)) → growing (bind m k).
Proof.
  intros Hm Hk self self' r. unfold bind.
  destruct (m self) as [self1 [a|e]] eqn:Hm1.
  - intros Hk1. eapply grows_trans; [by eapply Hm|by eapply Hk].
  - intros [= <- _]. by eapply Hm.
Qed.

Lemma growing_set_picks (g : gmap string (Picks F) → gmap string (Picks F)) :
  (∀ m, dom m ⊆ dom (g m)) → growing (modify (set_picks g)).
Proof.
  intros Hg self self' r [= <- _]. split; [|split]; [by destruct self|done|].
  cbn. apply Hg.
Qed.

Lemma growing_picks_entry (id : string) : growing (picks_entry id).
Proof.
  unfold picks_entry, mbind, M_bind, mret, M_ret.
  apply growing_bind; [apply growing_get|]. intros self0.
  destruct (_picks self0 !! id); [apply growing_ret|].
  apply growing_bind; [|intros ?; apply growing_ret].
  apply growing_set_picks. intros m. rewrite dom_insert. set_solver.
Qed.

Lemma growing_assign_P (id : string) (x : F) : growing (assign_P id x).
Proof.
  unfold assign_P, mbind, M_bind.
  apply growing_bind; [apply growing_picks_entry|]. intros _.
  apply growing_set_picks. intros m. by rewrite dom_alter.
Qed.

Lemma growing_assign_S (id : string) (x : F) : growing (assign_S id x).
Proof.
  unfold assign_S, mbind, M_bind.
  apply growing_bind; [apply growing_picks_entry|]. intros _.
  apply growing_set_picks. intros m. by rewrite dom_alter.
Qed.

Lemma growing_for {A} (l : list A) (body : A → M F unit) :
  (∀ x, growing (body x)) → growing (for_ l body).
Proof.
  intros Hbody. induction l as [|x l IH]; cbn [for_].
  - apply growing_ret.
  - apply growing_bind; [apply Hbody|]. intros _. apply IH.
Qed.

Ltac growing_step :=
  first
    [ apply growing_ret | apply growing_lift | apply growing_get
    | apply growing_picks_entry | apply growing_assign_P
    | apply growing_assign_S
    | apply growing_bind; [|intros ?]
    | apply growing_for; intros ? ].

Lemma growing_determine_picks id traces origin distance_in_m :
  growing (determine_picks id traces origin distance_in_m).
Proof.
  unfold determine_picks, mbind, M_bind, mret, M_ret.
  apply growing_bind; [apply growing_get|]. intros self0.
  destruct (not_ _); [apply growing_ret|].
  destruct (negb _); [|apply growing_ret].
  apply growing_bind; [apply growing_picks_entry|]. intros _.
  destruct (is_ _ "from_taup_model"); [repeat growing_step|].
  destruct (is_ _ "from_fk_metadata"); [repeat growing_step|].
  destruct (is_ _ "from_sac_metadata"); [repeat growing_step|].
  destruct (is_ _ "from_cap_weight_file"); [apply growing_lift|].
  destruct (is_ _ "from_pick_file"); [repeat growing_step|].
  apply growing_ret.
Qed.

Lemma has_key_false {A} (k : string) (d : gmap string A) :
  has_key k d = false → d !! k = None.
Proof.
  unfold has_key. intros Hk. apply bool_decide_eq_false_1 in Hk.
  by apply eq_None_not_Some.
Qed.

Lemma growing_determine_window id origin :
  growing (determine_window id origin).
Proof.
  intros self self' r Hrun.
  unfold determine_window, picks_entry, mbind, M_bind, mret, M_ret, bind,
    get, modify, lift, ret in Hrun.
  destruct (not_ (window_type self)); [injection Hrun as <- _; apply grows_refl|].
  destruct (has_key id (_windows self)) eqn:Hk; cbn [negb] in Hrun;
    [injection Hrun as <- _; apply grows_refl|].
  apply has_key_false in Hk.
  assert (Hpicks : ∀ self1 : Instance F,
            self1 = self ∨ self1 = set_picks <[id:=no_picks]> self →
            grows self self1
            ∧ ∀ w, grows self (set_windows <[id:=w]> self1)).
  { intros self1 [-> | ->].
    - split; [apply grows_refl|]. intros w.
      split; [by destruct self|]. split; [by apply insert_subseteq|done].
    - split.
      + split; [by destruct self|]. split; [done|]. cbn.
        rewrite dom_insert. set_solver.
      + intros w. split; [by destruct self|]. cbn.
        split; [by apply insert_subseteq|].
        rewrite dom_insert. set_solver. }
  destruct (_picks self !! id) as [picks|].
  - destruct (Hpicks self) as [Hg Hgw]; [by left|].
    repeat (case_match; simplify_eq/=; try done).
  - destruct (Hpicks (set_picks <[id:=no_picks]> self)) as [Hg Hgw];
      [by right|].
    repeat (case_match; simplify_eq/=; try done).
Qed.

(** The pick records: a computation that leaves the records [picks0] in
    place, where [picks0] has none for [id]. *)
Local Abbreviation keeping picks0 m :=
  (∀ (self self' : Instance F) r,
     picks0 ⊆ _picks self → m self = (self', r) → picks0 ⊆ _picks self').

Lemma keeping_ret {A} picks0 (a : A) : keeping picks0 (@ret F A a).
Proof. by intros self self' r Hsub [= <- _]. Qed.

Lemma keeping_lift {A} picks0 (x : result A) : keeping picks0 (@lift F A x).
Proof. by intros self self' r Hsub [= <- _]. Qed.

Lemma keeping_bind {A B} picks0 (m : M F A) (k : A → M F B) :
  keeping picks0 m → (∀ a, keeping picks0 (k a)) →
  keeping picks0 (bind m k).
Proof.
  intros Hm Hk self self' r Hsub. unfold bind.
  destruct (m self) as [self1 [a|e]] eqn:Hm1.
  - intros Hk1. eapply Hk; [|exact Hk1]. by eapply Hm.
  - intros [= <- _]. by eapply Hm.
Qed.

Lemma keeping_picks_entry picks0 (id : string) :
  picks0 !! id = None → keeping picks0 (picks_entry id).
Proof.
  intros Hid self self' r Hsub.
  unfold picks_entry, mbind, M_bind, mret, M_ret, bind, get, modify, ret.
  destruct (_picks self !! id) eqn:Hp; intros [= <- _]; [done|].
  cbn. etrans; [exact Hsub|]. by apply insert_subseteq.
Qed.

Lemma subseteq_alter (picks0 m : gmap string (Picks F)) g (id : string) :
  picks0 !! id = None → picks0 ⊆ m → picks0 ⊆ alter g id m.
Proof.
  intros Hid Hsub. apply map_subseteq_spec. intros j v Hj.
  assert (id ≠ j) by (intros ->; congruence).
  rewrite lookup_alter_ne by done.
  by eapply lookup_weaken.
Qed.

Lemma keeping_assign_P picks0 (id : string) (x : F) :
  picks0 !! id = None → keeping picks0 (assign_P id x).
Proof.
  intros Hid. unfold assign_P, mbind, M_bind.
  apply keeping_bind; [by apply keeping_picks_entry|]. intros _.
  intros self self' r Hsub [= <- _]. cbn. by apply subseteq_alter.
Qed.

Lemma keeping_assign_S picks0 (id : string) (x : F) :
  picks0 !! id = None → keeping picks0 (assign_S id x).
Proof.
  intros Hid. unfold assign_S, mbind, M_bind.
  apply keeping_bind; [by apply keeping_picks_entry|]. intros _.
  intros self self' r Hsub [= <- _]. cbn. by apply subseteq_alter.
Qed.

Lemma determine_picks_keeps_records id traces origin distance_in_m
    (self self' : Instance F) r :
  is_ (pick_type self) "from_pick_file" = false →
  determine_picks id traces origin distance_in_m self = (self', r) →
  _picks self ⊆ _picks self'.
Proof.
  intros Hfile. unfold determine_picks, mbind, M_bind, mret, M_ret.
  unfold bind at 1, get at 1.
  destruct (not_ _); [by intros [= <- _]|].
  destruct (has_key id (_picks self)) eqn:Hk; cbn [negb];
    [by intros [= <- _]|].
  apply has_key_false in Hk. rewrite Hfile.
  intros Hrun.
  match type of Hrun with
  | ?m self = _ =>
      assert (Hkeep : keeping (_picks self) m);
        [|by apply (Hkeep self self' r)]
  end.
  clear Hrun.
  apply keeping_bind; [by apply keeping_picks_entry|]. intros _.
  destruct (is_ _ "from_taup_model").
  { apply keeping_bind; [apply keeping_lift|intros ?].
    apply keeping_bind; [apply keeping_lift|intros ?].
    apply keeping_bind; [by apply keeping_assign_P|intros _].
    apply keeping_bind; [apply keeping_lift|intros ?].
    by apply keeping_assign_S. }
  destruct (is_ _ "from_fk_metadata").
  { apply keeping_bind; [apply keeping_lift|intros ?].
    apply keeping_bind; [apply keeping_lift|intros ?].
    apply keeping_bind; [apply keeping_lift|intros ?].
    apply keeping_bind; [apply keeping_lift|intros ?].
    apply keeping_bind; [by apply keeping_assign_P|intros _].
    apply keeping_bind; [apply keeping_lift|intros ?].
    by apply keeping_assign_S. }
  destruct (is_ _ "from_sac_metadata").
  { apply keeping_bind; [apply keeping_lift|intros ?].
    apply keeping_bind; [apply keeping_lift|intros ?].
    apply keeping_bind; [apply keeping_lift|intros ?].
    apply keeping_bind; [by apply keeping_assign_P|intros _].
    apply keeping_bind; [apply keeping_lift|intros ?].
    by apply keeping_assign_S. }
  destruct (is_ _ "from_cap_weight_file"); [apply keeping_lift|].
  apply keeping_ret.
Qed.

Lemma determine_window_keeps_records id origin (self self' : Instance F) r :
  determine_window id origin self = (self', r) →
  _picks self ⊆ _picks self'.
Proof.
  intros Hrun.
  unfold determine_window, picks_entry, mbind, M_bind, mret, M_ret, bind,
    get, modify, lift, ret in Hrun.
  destruct (not_ (window_type self)); [by injection Hrun as <- _|].
  destruct (has_key id (_windows self)); cbn [negb] in Hrun;
    [by injection Hrun as <- _|].
  destruct (_picks self !! id) as [picks|] eqn:Hp.
  - repeat (case_match; simplify_eq/=; try done).
  - assert (_picks self ⊆ <[id:=no_picks]> (_picks self))
      by by apply insert_subseteq.
    repeat (case_match; simplify_eq/=; try done).
Qed.

(** X11. What a call may change of the instance: nothing but the two
    caches; no window record is changed or dropped, of any station; no
    station loses its pick record; and unless the picks come from a pick
    file, no pick record is changed either.  This holds for calls that
    raise as for calls that return. *)
Theorem call_keeps_caches bundle station_arg origin_arg overwrite
    (self self' : Instance F) r :
  __call__ bundle station_arg origin_arg overwrite self = (self', r) →
  self' = set_windows (λ _, _windows self')
            (set_picks (λ _, _picks self') self)
  ∧ _windows self ⊆ _windows self'
  ∧ dom (_picks self) ⊆ dom (_picks self')
  ∧ (is_ (pick_type self) "from_pick_file" = false →
     _picks self ⊆ _picks self').
Proof.
  intros Hcall. apply call_inv in Hcall as [[-> _]|Hcall].
  { destruct (grows_refl self) as (? & ? & ?). by repeat split. }
  destruct Hcall as (id & tags0 & origin_ & distance_in_m & traces2 & r1
                     & self1 & _ & _ & _ & Hpicks & Hrest).
  pose proof (growing_determine_picks _ _ _ _ _ _ _ Hpicks) as Hg1.
  destruct Hrest as [(e & _ & -> & _)|(_ & r2 & Hwindow & _)].
  { destruct Hg1 as (? & ? & ?). repeat split; try done.
    intros Hfile. by eapply determine_picks_keeps_records. }
  pose proof (growing_determine_window _ _ _ _ _ Hwindow) as Hg2.
  destruct (grows_trans _ _ _ Hg1 Hg2) as (? & ? & ?).
  repeat split; try done.
  intros Hfile. etrans.
  - by eapply determine_picks_keeps_records.
  - by eapply determine_window_keeps_records.
Qed.

(** X12. Missing metadata: a call raises, and leaves the instance as it
    is, when the bundle has no identifier ([Exception]), when neither the
    argument nor the bundle gives an origin, preliminary or not
    ([AttributeError]), when neither gives a station ([AttributeError]),
    when the bundle has no trace ([IndexError]), and when it has no tags
    ([Exception]) - each once the checks before it have passed. *)
Theorem call_missing_metadata bundle station_arg origin_arg overwrite
    (self : Instance F) :
  let origin_ := origin_arg ∪ origin bundle ∪ preliminary_origin bundle in
  let station_ := station_arg ∪ station bundle in
  (ProcessData.id bundle = None →
   __call__ bundle station_arg origin_arg overwrite self
   = (self, Raise Exception))
  ∧ (is_Some (ProcessData.id bundle) → origin_ = None →
     __call__ bundle station_arg origin_arg overwrite self
     = (self, Raise AttributeError))
  ∧ (is_Some (ProcessData.id bundle) → is_Some origin_ → station_ = None →
     __call__ bundle station_arg origin_arg overwrite self
     = (self, Raise AttributeError))
  ∧ (is_Some (ProcessData.id bundle) → is_Some origin_ →
     is_Some station_ → traces bundle = [] →
     __call__ bundle station_arg origin_arg overwrite self
     = (self, Raise IndexError))
  ∧ (is_Some (ProcessData.id bundle) → is_Some origin_ →
     is_Some station_ → traces bundle ≠ [] → tags bundle = None →
     __call__ bundle station_arg origin_arg overwrite self
     = (self, Raise Exception)).
Proof.
  intros origin_ station_.
  assert (Horigin :
            match match origin_arg with
                  | Some _ => origin_arg
                  | None => origin bundle
                  end with
            | Some _ => match origin_arg with
                        | Some _ => origin_arg
                        | None => origin bundle
                        end
            | None => preliminary_origin bundle
            end = origin_).
  { unfold origin_.
    by destruct origin_arg, (origin bundle), (preliminary_origin bundle). }
  assert (Hstation :
            match station_arg with
            | Some _ => station_arg
            | None => station bundle
            end = station_).
  { unfold station_. by destruct station_arg, (station bundle). }
  unfold __call__, mbind, M_bind. rewrite Horigin, Hstation.
  clearbody origin_ station_.
  split; [|split; [|split; [|split]]].
  - by intros ->.
  - by intros [id ->] ->.
  - by intros [id ->] [o ->] ->.
  - intros [id ->] [o ->] [st ->] Htraces. unfold bind, lift. cbn.
    destruct (gps2dist_azimuth _ _ _ _) as [[? ?] ?]. by rewrite Htraces.
  - intros [id ->] [o ->] [st ->] Htraces Htags. unfold bind, lift. cbn.
    destruct (gps2dist_azimuth _ _ _ _) as [[? ?] ?].
    destruct (traces bundle) as [|trace0 ?]; [done|]. cbn.
    by rewrite Htags.
Qed.

(** After the pick stage the station has a pick record, whether the stage
    returned or raised. *)
Lemma determine_picks_entry id traces origin distance_in_m
    (self self' : Instance F) r :
  not_ (pick_type self) = false →
  determine_picks id traces origin distance_in_m self = (self', r) →
  is_Some (_picks self' !! id).
Proof.
  intros Htype. unfold determine_picks, mbind, M_bind.
  unfold bind at 1, get at 1. rewrite Htype.
  destruct (has_key id (_picks self)) eqn:Hk; cbn [negb].
  { intros [= <- _]. unfold has_key in Hk.
    by apply bool_decide_eq_true_1 in Hk. }
  unfold bind at 1.
  destruct (picks_entry id self) as [self1 r1] eqn:Hentry.
  assert (Hid : is_Some (_picks self1 !! id) ∧ ∃ p, r1 = Ok p).
  { unfold picks_entry, mbind, M_bind, mret, M_ret, bind, get, modify, ret
      in Hentry.
    apply has_key_false in Hk. rewrite Hk in Hentry.
    injection Hentry as <- <-. cbn. rewrite lookup_insert_eq. eauto. }
  destruct Hid as [Hid [p ->]]. intros Hrest.
  match type of Hrest with
  | ?m self1 = _ =>
      assert (Hgrow : growing m)
  end.
  { destruct (is_ _ "from_taup_model"); [repeat growing_step|].
    destruct (is_ _ "from_fk_metadata"); [repeat growing_step|].
    destruct (is_ _ "from_sac_metadata"); [repeat growing_step|].
    destruct (is_ _ "from_cap_weight_file"); [apply growing_lift|].
    destruct (is_ _ "from_pick_file"); [repeat growing_step|].
    apply growing_ret. }
  destruct (Hgrow _ _ _ Hrest) as (_ & _ & Hdom).
  apply elem_of_dom, Hdom, elem_of_dom. exact Hid.
Qed.

(** X13. A call that returns has cached the station: its identifier has a
    pick record (an instance always has a pick type), and a window record
    when the instance has a window type. *)
Theorem call_caches_station bundle station_arg origin_arg overwrite
    (self self' : Instance F) b id :
  __call__ bundle station_arg origin_arg overwrite self = (self', Ok b) →
  ProcessData.id bundle = Some id →
  (not_ (pick_type self) = false → is_Some (_picks self' !! id))
  ∧ (not_ (window_type self) = false → is_Some (_windows self' !! id)).
Proof.
  intros Hcall Hid.
  apply call_inv in Hcall as [[_ [e He]]|Hcall]; [done|].
  destruct Hcall as (id' & tags0 & origin_ & distance_in_m & traces2 & r1
                     & self1 & Hid' & _ & _ & Hpicks & Hrest).
  assert (id' = id) as -> by congruence.
  destruct Hrest as [(e & _ & _ & He)|(-> & r2 & Hwindow & Hrest)]; [done|].
  destruct Hrest as [(e & _ & He)|(-> & Hr)]; [done|].
  pose proof (growing_determine_picks _ _ _ _ _ _ _ Hpicks)
    as (Hc1 & _ & _).
  pose proof (growing_determine_window _ _ _ _ _ Hwindow)
    as (Hc2 & _ & Hdom).
  split.
  - intros Htype.
    apply elem_of_dom, Hdom, elem_of_dom.
    by eapply determine_picks_entry.
  - intros Htype. cbv zeta in Hr. symmetry in Hr.
    apply rbind_Ok in Hr as (bounds & Hpad & _).
    unfold pad_window in Hpad.
    replace (window_type self') with (window_type self) in Hpad
      by (rewrite Hc2, Hc1; by destruct self).
    rewrite Htype in Hpad.
    apply rbind_Ok in Hpad as (w & Hw & _).
    apply getitem_Ok in Hw. by rewrite Hw.
Qed.

(** X14. A station whose pick record lacks the phase its window needs -
    the P pick for 'cap_bw', the S pick for 'cap_sw' - and that has no
    window record cannot be processed: every call on a bundle with its
    identifier raises and leaves the instance as it is, since the picks
    of a station that has a record are not determined again. *)
Theorem call_blocked_station bundle station_arg origin_arg overwrite
    (self : Instance F) id picks :
  _picks self !! id = Some picks →
  _windows self !! id = None →
  (window_type self = Some "cap_bw"%string ∧ P picks = None)
  ∨ (window_type self = Some "cap_sw"%string ∧ S picks = None) →
  ProcessData.id bundle = Some id →
  ∃ e, __call__ bundle station_arg origin_arg overwrite self
       = (self, Raise e).
Proof.
  intros Hpicks Hwindows Hphase Hid.
  destruct (__call__ bundle station_arg origin_arg overwrite self)
    as [self' r] eqn:Hcall.
  apply call_inv in Hcall as [[-> [e ->]]|Hcall]; [by exists e|].
  destruct Hcall as (id' & tags0 & origin_ & distance_in_m & traces2 & r1
                     & self1 & Hid' & _ & _ & Hrun & Hrest).
  assert (id' = id) as -> by congruence.
  rewrite (determine_picks_cached self id picks) in Hrun by done.
  injection Hrun as <- <-.
  destruct Hrest as [(e & He & _)|(_ & r2 & Hwindow & Hrest)]; [done|].
  assert (Hraise : determine_window id origin_ self
                   = (self, Raise AttributeError)).
  { unfold determine_window, picks_entry, mbind, M_bind, mret, M_ret, bind,
      get, lift, ret.
    destruct Hphase as [[Hwt Hphase]|[Hwt Hphase]]; rewrite Hwt;
      cbn [not_ is_ String.eqb Ascii.eqb Bool.eqb];
      rewrite (has_key_None _ _ Hwindows); cbn [negb];
      by rewrite Hpicks, Hphase. }
  rewrite Hraise in Hwindow. injection Hwindow as <- <-.
  destruct Hrest as [(e & _ & ->)|(? & _)]; [by exists e|done].
Qed.

Lemma omap_length_le {A B} (g : A → option B) (l : list A) :
  length (omap g l) ≤ length l.
Proof.
  induction l as [|x l IH]; [done|]. csimpl.
  destruct (g x); cbn; lia.
Qed.

Lemma determine_weights_length (self : Instance F) id tags distance_in_m
    traces out :
  determine_weights self id tags distance_in_m traces = Ok out →
  length out ≤ length traces
  ∧ (not_ (weight_type self) = true ∨ has_tag "type:greens" tags = true →
     length out = length traces).
Proof.
  unfold determine_weights.
  destruct (not_ (weight_type self)) eqn:Hnot.
  { intros [= <-]. rewrite length_fmap. by split. }
  assert (Hblock : ∀ resolve,
            weight_block resolve self tags distance_in_m traces = Ok out →
            length out ≤ length traces
            ∧ (false = true ∨ has_tag "type:greens" tags = true →
               length out = length traces)).
  { intros resolve Hblock.
    destruct (has_tag "type:greens" tags) eqn:Hgreens.
    - rewrite weight_block_greens in Hblock by done.
      apply rmap_length in Hblock. split; [lia|done].
    - rewrite weight_block_data in Hblock by done.
      apply rbind_Ok in Hblock as (outs & Houts & Hblock).
      apply rmap_length in Houts, Hblock.
      pose proof (omap_length_le (λ o, o) outs).
      split; [lia|]. by intros [?|?]. }
  destruct (is_ (weight_type self) "cap_bw"); [apply Hblock|].
  destruct (is_ (weight_type self) "cap_sw"); [apply Hblock|].
  intros [= <-]. by split.
Qed.

Lemma cut_and_taper_length bounds (traces : list (Trace F)) :
  length (cut_and_taper bounds traces) = length traces.
Proof.
  unfold cut_and_taper. destruct bounds as [[? ?]|];
    by rewrite !length_fmap.
Qed.

(** X15. A call adds no trace: the bundle it returns has at most as many
    traces as the bundle it was given, and just as many when the instance
    has no weight type or the bundle is tagged 'type:greens'. *)
Theorem call_trace_count bundle station_arg origin_arg overwrite
    (self self' : Instance F) b :
  __call__ bundle station_arg origin_arg overwrite self = (self', Ok b) →
  length (traces b) ≤ length (traces bundle)
  ∧ (∀ tags', tags b = Some tags' →
       not_ (weight_type self) = true
       ∨ has_tag "type:greens" tags' = true →
       length (traces b) = length (traces bundle)).
Proof.
  intros Hcall.
  apply call_inv in Hcall as [[_ [e He]]|Hcall]; [done|].
  destruct Hcall as (id & tags0 & origin_ & distance_in_m & traces2 & r1
                     & self1 & _ & _ & Hlen & Hpicks & Hrest).
  destruct Hrest as [(e & _ & _ & He)|(-> & r2 & Hwindow & Hrest)]; [done|].
  destruct Hrest as [(e & _ & He)|(-> & Hr)]; [done|].
  pose proof (growing_determine_picks _ _ _ _ _ _ _ Hpicks)
    as (Hc1 & _ & _).
  pose proof (growing_determine_window _ _ _ _ _ Hwindow)
    as (Hc2 & _ & _).
  cbv zeta in Hr. symmetry in Hr.
  apply rbind_Ok in Hr as (bounds & _ & Hr).
  apply rbind_Ok in Hr as (out & Hout & Hr).
  injection Hr as <-. cbn [traces tags set_traces set_tags].
  apply determine_weights_length in Hout as [Hle Heq].
  rewrite cut_and_taper_length, Hlen in Hle, Heq.
  split; [exact Hle|].
  intros tags' [= <-] Hcase. apply Heq.
  replace (weight_type self') with (weight_type self)
    by (rewrite Hc2, Hc1; by destruct self).
  exact Hcase.
Qed.

(** [retag] replaces the first occurrence. *)
Lemma retag_first (old new : string) (tags : list string) :
  old ∈ tags →
  ∃ l1 l2, tags = l1 ++ old :: l2 ∧ (old ∉ l1)
           ∧ retag old new tags = l1 ++ new :: l2.
Proof.
  intros Hin. unfold retag.
  destruct (list_find (λ t, t = old) tags) as [[index t]|] eqn:Hfind.
  - apply list_find_Some in Hfind as (Hlook & -> & Hbefore).
    exists (take index tags), (drop (Datatypes.S index) tags).
    split; [by rewrite take_drop_middle|].
    split.
    + intros Hin1. apply list_elem_of_lookup_1 in Hin1 as [j Hj].
      pose proof (lookup_lt_Some _ _ _ Hj) as Hlt.
      rewrite length_take in Hlt.
      rewrite lookup_take_lt in Hj by lia.
      apply (Hbefore j old Hj); [lia|done].
    + apply insert_take_drop. by eapply lookup_lt_Some.
  - apply list_find_None in Hfind.
    exfalso. by eapply (proj1 (Forall_forall _ _) Hfind old Hin).
Qed.

Lemma retag_absent (old new : string) (tags : list string) :
  old ∉ tags → retag old new tags = tags.
Proof.
  intros Hnot. unfold retag.
  destruct (list_find (λ t, t = old) tags) as [[index t]|] eqn:Hfind;
    [|done].
  apply list_find_Some in Hfind as (Hlook & -> & _).
  exfalso. apply Hnot. by eapply list_elem_of_lookup_2.
Qed.

(** What follows for the tags of the bundle a call returns: their
    number, and which of the four tags are among them. *)
Lemma call_tags_members bundle station_arg origin_arg overwrite
    (self self' : Instance F) b tags0 :
  __call__ bundle station_arg origin_arg overwrite self = (self', Ok b) →
  tags bundle = Some tags0 →
  ∃ tags',
    tags b = Some tags'
    ∧ length tags' = length tags0
    ∧ ("units:cm"%string ∉ tags0 → "type:velocity"%string ∉ tags0 →
       tags' = tags0)
    ∧ ("units:cm"%string ∈ tags0 → "units:m"%string ∈ tags')
    ∧ ("type:velocity"%string ∈ tags0 →
       "type:displacement"%string ∈ tags')
    ∧ (NoDup tags0 →
       ("units:cm"%string ∉ tags') ∧ ("type:velocity"%string ∉ tags')).
Proof.
  intros Hcall Htags.
  apply call_inv in Hcall as [[_ [e He]]|Hcall]; [done|].
  destruct Hcall as (id & tags0' & origin_ & distance_in_m & traces2 & r1
                     & self1 & _ & Htags' & _ & _ & Hrest).
  assert (tags0' = tags0) as -> by congruence.
  destruct Hrest as [(e & _ & _ & He)|(-> & r2 & _ & Hrest)]; [done|].
  destruct Hrest as [(e & _ & He)|(-> & Hr)]; [done|].
  cbv zeta in Hr. symmetry in Hr.
  apply rbind_Ok in Hr as (bounds & _ & Hr).
  apply rbind_Ok in Hr as (out & _ & Hr).
  injection Hr as <-. cbn [tags set_traces set_tags].
  eexists. split; [reflexivity|].
  unfold has_tag.
  destruct (decide ("units:cm"%string ∈ tags0)) as [Hcm|Hcm].
  - rewrite (bool_decide_eq_true_2 _ Hcm).
    destruct (retag_first "units:cm" "units:m" tags0 Hcm)
      as (l1 & l2 & -> & Hl1 & ->).
    set (tags1 := l1 ++ "units:m"%string :: l2).
    assert (Hvel1 : "type:velocity"%string ∈ tags1
                    ↔ "type:velocity"%string ∈ l1 ++ "units:cm"%string :: l2).
    { unfold tags1. rewrite !elem_of_app, !elem_of_cons.
      split; intros [?|[?|?]]; auto; discriminate. }
    destruct (decide ("type:velocity"%string ∈ tags1)) as [Hvel|Hvel].
    + rewrite (bool_decide_eq_true_2 _ Hvel).
      destruct (retag_first "type:velocity" "type:displacement" tags1 Hvel)
        as (k1 & k2 & Hk & Hk1 & ->).
      assert (Hlen : length (k1 ++ "type:displacement"%string :: k2)
                     = length tags1)
        by (rewrite Hk, !length_app; reflexivity).
      split; [by rewrite Hlen; unfold tags1; rewrite !length_app|].
      split; [intros Hno; by destruct Hno|].
      split.
      { intros _.
        assert (Hm : "units:m"%string ∈ tags1)
          by (unfold tags1; rewrite elem_of_app, elem_of_cons; auto).
        rewrite Hk in Hm. rewrite !elem_of_app, !elem_of_cons in Hm |- *.
        destruct Hm as [?|[?|?]]; auto; discriminate. }
      split; [intros _; rewrite elem_of_app, elem_of_cons; auto|].
      intros Hnodup.
      assert (Hnd1 : "units:cm"%string ∉ tags1).
      { apply NoDup_app in Hnodup as (_ & _ & Hnd).
        apply NoDup_cons in Hnd as [Hl2 _].
        unfold tags1. rewrite !elem_of_app, !elem_of_cons.
        intros [?|[?|?]]; [done|discriminate|done]. }
      assert (Hcount : "type:velocity"%string ∉ k2).
      { assert (Hnd : NoDup (filter (λ t, t = "type:velocity"%string) tags1)).
        { unfold tags1. rewrite filter_app, filter_cons_False by discriminate.
          apply (NoDup_filter (λ t, t = "type:velocity"%string)) in Hnodup.
          by rewrite filter_app, filter_cons_False in Hnodup
            by discriminate. }
        rewrite Hk, filter_app, filter_cons_True in Hnd by done.
        apply NoDup_app in Hnd as (_ & _ & Hnd).
        apply NoDup_cons in Hnd as [Hk2 _].
        intros Hin. apply Hk2. by apply list_elem_of_filter. }
      split.
      * rewrite Hk in Hnd1. rewrite !elem_of_app, !elem_of_cons in Hnd1 |- *.
        intros [?|[?|?]]; [tauto|discriminate|tauto].
      * rewrite !elem_of_app, !elem_of_cons.
        intros [?|[?|?]]; [done|discriminate|done].
    + rewrite (bool_decide_eq_false_2 _ Hvel).
      split; [by unfold tags1; rewrite !length_app|].
      split; [intros Hno; by destruct Hno|].
      split; [intros _; unfold tags1; rewrite elem_of_app, elem_of_cons; auto|].
      split; [intros Hin; exfalso; by apply Hvel, Hvel1|].
      intros Hnodup. split; [|done].
      apply NoDup_app in Hnodup as (_ & _ & Hnd).
      apply NoDup_cons in Hnd as [Hl2 _].
      unfold tags1. rewrite !elem_of_app, !elem_of_cons.
      intros [?|[?|?]]; [done|discriminate|done].
  - rewrite (bool_decide_eq_false_2 _ Hcm).
    destruct (decide ("type:velocity"%string ∈ tags0)) as [Hvel|Hvel].
    + rewrite (bool_decide_eq_true_2 _ Hvel).
      destruct (retag_first "type:velocity" "type:displacement" tags0 Hvel)
        as (k1 & k2 & -> & Hk1 & ->).
      split; [by rewrite !length_app|].
      split; [intros _ Hno; by destruct Hno|].
      split; [intros Hin; by exfalso|].
      split; [intros _; rewrite elem_of_app, elem_of_cons; auto|].
      intros Hnodup.
      apply NoDup_app in Hnodup as (_ & _ & Hnd).
      apply NoDup_cons in Hnd as [Hk2 _].
      split.
      * rewrite !elem_of_app, !elem_of_cons in Hcm |- *.
        intros [?|[?|?]]; [tauto|discriminate|tauto].
      * rewrite !elem_of_app, !elem_of_cons.
        intros [?|[?|?]]; [done|discriminate|done].
    + rewrite (bool_decide_eq_false_2 _ Hvel).
      split; [done|]. split; [done|].
      split; [intros Hin; by exfalso|].
      split; [intros Hin; by exfalso|done].
Qed.

(** [tags'] is [tags] with its first [old], when it has one, replaced by
    [new], and every other tag left in its place. *)
Local Abbreviation first_replaced old new tags tags' :=
  (((old ∉ tags) ∧ tags' = tags)
   ∨ ∃ before after : list string,
       tags = before ++ old :: after ∧ (old ∉ before)
       ∧ tags' = before ++ new :: after).

Lemma retag_first_replaced (old new : string) (tags : list string) :
  first_replaced old new tags
    (if has_tag old tags then retag old new tags else tags).
Proof.
  unfold has_tag. destruct (decide (old ∈ tags)) as [Hin|Hin].
  - rewrite (bool_decide_eq_true_2 _ Hin). right.
    destruct (retag_first old new tags Hin) as (l1 & l2 & Hl & Hl1 & Hr).
    by exists l1, l2.
  - rewrite (bool_decide_eq_false_2 _ Hin). by left.
Qed.

(** X16. The tags of the bundle a call returns are the tags given, in
    their order, with the first 'units:cm' replaced by 'units:m' and
    then the first 'type:velocity' by 'type:displacement', every other
    tag left in its place: so tags with neither come back as they are,
    and tags without repetition come back with neither. *)
Theorem call_tags bundle station_arg origin_arg overwrite
    (self self' : Instance F) b tags0 :
  __call__ bundle station_arg origin_arg overwrite self = (self', Ok b) →
  tags bundle = Some tags0 →
  ∃ tags1 tags',
    tags b = Some tags'
    ∧ first_replaced "units:cm"%string "units:m"%string tags0 tags1
    ∧ first_replaced "type:velocity"%string "type:displacement"%string
        tags1 tags'
    ∧ length tags' = length tags0
    ∧ ("units:cm"%string ∉ tags0 → "type:velocity"%string ∉ tags0 →
       tags' = tags0)
    ∧ ("units:cm"%string ∈ tags0 → "units:m"%string ∈ tags')
    ∧ ("type:velocity"%string ∈ tags0 →
       "type:displacement"%string ∈ tags')
    ∧ (NoDup tags0 →
       ("units:cm"%string ∉ tags') ∧ ("type:velocity"%string ∉ tags')).
Proof.
  intros Hcall Htags.
  destruct (call_tags_members _ _ _ _ _ _ _ _ Hcall Htags)
    as (tags' & Hb & Hmembers).
  apply call_inv in Hcall as [[_ [e He]]|Hcall]; [done|].
  destruct Hcall as (id & tags0' & origin_ & distance_in_m & traces2 & r1
                     & self1 & _ & Htags' & _ & _ & Hrest).
  assert (tags0' = tags0) as -> by congruence.
  destruct Hrest as [(e & _ & _ & He)|(-> & r2 & _ & Hrest)]; [done|].
  destruct Hrest as [(e & _ & He)|(-> & Hr)]; [done|].
  cbv zeta in Hr. symmetry in Hr.
  apply rbind_Ok in Hr as (bounds & _ & Hr).
  apply rbind_Ok in Hr as (out & _ & Hr).
  injection Hr as <-. cbn [tags set_traces set_tags] in Hb.
  injection Hb as <-.
  eexists _, _. split; [reflexivity|].
  split; [apply retag_first_replaced|].
  split; [apply retag_first_replaced|].
  exact Hmembers.
Qed.

Lemma has_tag_retag (s old new : string) (tags : list string) :
  s ≠ old → s ≠ new → has_tag s (retag old new tags) = has_tag s tags.
Proof.
  intros Hold Hnew. unfold has_tag.
  destruct (decide (old ∈ tags)) as [Hin|Hin].
  - destruct (retag_first old new tags Hin) as (l1 & l2 & -> & _ & ->).
    apply bool_decide_ext. rewrite !elem_of_app, !elem_of_cons. tauto.
  - by rewrite retag_absent.
Qed.

Lemma fmap_if {A} (c : bool) (g : A → A) (l : list A) :
  (if c then g <$> l else l) = (λ x, if c then g x else x) <$> l.
Proof. destruct c; [done|]. by rewrite list_fmap_id. Qed.

(** X17. What a call does to the samples when the instance has no filter
    and no weight type.  Every trace of the bundle comes back, in its
    place, with the weight 1.0 and with its samples converted to metres
    when the bundle is tagged 'units:cm', then summed up and multiplied
    by the sampling interval of the first trace of the bundle when it is
    tagged 'type:velocity', then cut, then tapered.  The cut is to the
    window cached for the station - for Green's functions widened by
    [padding_length] on both sides - and there is none when the instance
    has no window type. *)
Theorem call_unweighted bundle station_arg origin_arg overwrite
    (self self' : Instance F) b id tags0 trace0 :
  __call__ bundle station_arg origin_arg overwrite self = (self', Ok b) →
  ProcessData.id bundle = Some id →
  tags bundle = Some tags0 →
  traces bundle !! 0 = Some trace0 →
  filter_type self = None →
  not_ (weight_type self) = true →
  let convert trace :=
    if has_tag "units:cm" tags0 then imul (lit 1e-2) trace else trace in
  let integrate trace :=
    if has_tag "type:velocity" tags0
    then set_data trace
           ((λ a, fmul a (delta (stats trace0))) <$> cumsum (data trace))
    else trace in
  let taper trace := set_data trace (cap_taper (data trace)) in
  ∃ window_cut : Trace F → Trace F,
    traces b
    = (λ trace,
         set_weight (taper (window_cut (integrate (convert trace))))
           (lit 1)) <$> traces bundle
    ∧ (not_ (window_type self) = true → ∀ trace, window_cut trace = trace)
    ∧ (not_ (window_type self) = false →
       ∃ window,
         _windows self' !! id = Some window
         ∧ if has_tag "type:greens" tags0
           then ∃ pad,
                  num (padding_length self) = Ok pad
                  ∧ ∀ trace, window_cut trace
                             = cut trace (fsub window.1 pad)
                                 (fadd window.2 pad)
           else ∀ trace, window_cut trace = cut trace window.1 window.2).
Proof.
  intros Hcall Hid Htags Htrace0 Hfilter Hweight convert integrate taper.
  apply call_stages in Hcall as [[_ [e He]]|Hcall]; [done|].
  destruct Hcall as (id' & tags0' & origin_ & station_ & distance_in_m
                     & azimuth & back & trace0' & traces1 & r1 & self1
                     & Hid' & Htags' & _ & _ & _ & Htrace0' & Hrest).
  assert (id' = id) as -> by congruence.
  assert (tags0' = tags0) as -> by congruence.
  assert (trace0' = trace0) as -> by congruence.
  cbv zeta in Hrest. destruct Hrest as (Hfiltered & Hpicks & Hrest).
  destruct Hrest as [(e & _ & _ & He)|(-> & r2 & Hwindow & Hrest)]; [done|].
  destruct Hrest as [(e & _ & He)|(-> & Hr)]; [done|].
  pose proof (growing_determine_picks _ _ _ _ _ _ _ Hpicks)
    as (Hc1 & _ & _).
  pose proof (growing_determine_window _ _ _ _ _ Hwindow)
    as (Hc2 & _ & _).
  assert (Hsame : window_type self' = window_type self
                  ∧ weight_type self' = weight_type self
                  ∧ padding_length self' = padding_length self)
    by (rewrite Hc2, Hc1; by destruct self).
  destruct Hsame as (Hwt & Hwgt & Hpl).
  unfold filter_traces in Hfiltered. rewrite Hfilter in Hfiltered.
  cbn [is_] in Hfiltered. injection Hfiltered as <-.
  assert (Hvel : has_tag "type:velocity"
                   (if has_tag "units:cm" tags0
                    then retag "units:cm" "units:m" tags0 else tags0)
                 = has_tag "type:velocity" tags0).
  { destruct (has_tag "units:cm" tags0); [|done].
    by apply has_tag_retag. }
  rewrite Hvel in Hr.
  set (tags2 := if has_tag "type:velocity" tags0 then _ else _) in Hr.
  assert (Hgreens : has_tag "type:greens" tags2
                    = has_tag "type:greens" tags0).
  { unfold tags2.
    destruct (has_tag "type:velocity" tags0), (has_tag "units:cm" tags0);
      by rewrite ?has_tag_retag by done. }
  symmetry in Hr.
  apply rbind_Ok in Hr as (bounds & Hpad & Hr).
  apply rbind_Ok in Hr as (out & Hout & Hr).
  injection Hr as <-. cbn [traces set_traces set_tags].
  unfold determine_weights in Hout. rewrite Hwgt, Hweight in Hout.
  injection Hout as <-.
  exists (λ trace, match bounds with
                   | Some (starttime, endtime) => cut trace starttime endtime
                   | None => trace
                   end).
  split; [|split].
  - unfold cut_and_taper. rewrite !fmap_if.
    destruct bounds as [[starttime endtime]|];
      rewrite <- !list_fmap_compose; by apply list_fmap_ext.
  - intros Hnone trace. unfold pad_window in Hpad.
    rewrite Hwt, Hnone in Hpad. by injection Hpad as <-.
  - intros Hsome. unfold pad_window in Hpad.
    rewrite Hwt, Hsome, Hgreens, Hpl in Hpad.
    apply rbind_Ok in Hpad as (window & Hw & Hpad).
    apply getitem_Ok in Hw. exists window. split; [done|].
    destruct (has_tag "type:greens" tags0).
    + apply rbind_Ok in Hpad as (pad & Hnum & Hpad).
      injection Hpad as <-. by exists pad.
    + injection Hpad as <-. by destruct window.
Qed.

(** *** The pick stage leaves the windows alone *)
Local Abbreviation windows_fixed m :=
  (∀ (self self' : Instance F) r, m self = (self', r) →
     _windows self' = _windows self).

Lemma windows_fixed_ret {A} (a : A) : windows_fixed (@ret F A a).
Proof. by intros self self' r [= <- _]. Qed.

Lemma windows_fixed_lift {A} (x : result A) : windows_fixed (@lift F A x).
Proof. by intros self self' r [= <- _]. Qed.

Lemma windows_fixed_bind {A B} (m : M F A) (k : A → M F B) :
  windows_fixed m → (∀ a, windows_fixed (k a)) → windows_fixed (bind m k).
Proof.
  intros Hm Hk self self' r. unfold bind.
  destruct (m self) as [self1 [a|e]] eqn:Hrun.
  - intros Hrun'. rewrite (Hk _ _ _ _ Hrun'). by eapply Hm.
  - intros [= <- _]. by eapply Hm.
Qed.

Lemma windows_fixed_picks_entry (id : string) :
  windows_fixed (picks_entry id).
Proof.
  intros self self' r.
  unfold picks_entry, mbind, M_bind, mret, M_ret, bind, get, modify, ret.
  destruct (_picks self !! id); by intros [= <- _].
Qed.

Lemma windows_fixed_assign_P (id : string) (x : F) :
  windows_fixed (assign_P id x).
Proof.
  apply windows_fixed_bind; [apply windows_fixed_picks_entry|].
  by intros _ self self' r [= <- _].
Qed.

Lemma windows_fixed_assign_S (id : string) (x : F) :
  windows_fixed (assign_S id x).
Proof.
  apply windows_fixed_bind; [apply windows_fixed_picks_entry|].
  by intros _ self self' r [= <- _].
Qed.

Lemma windows_fixed_for {A} (l : list A) (body : A → M F unit) :
  (∀ x, windows_fixed (body x)) → windows_fixed (for_ l body).
Proof.
  intros Hbody. induction l as [|x l IH]; [apply windows_fixed_ret|].
  apply windows_fixed_bind; [apply Hbody|intros _; exact IH].
Qed.

Ltac windows_fixed_step :=
  first
    [ apply windows_fixed_ret | apply windows_fixed_lift
    | apply windows_fixed_assign_P | apply windows_fixed_assign_S
    | apply windows_fixed_picks_entry
    | apply windows_fixed_for; intros ?
    | apply windows_fixed_bind; [|intros ?] ].

Lemma determine_picks_windows id traces origin distance_in_m :
  windows_fixed (determine_picks id traces origin distance_in_m).
Proof.
  intros self self' r. unfold determine_picks, mbind, M_bind.
  unfold bind at 1, get at 1.
  destruct (not_ (pick_type self)); [by intros [= <- _]|].
  destruct (negb (has_key id (_picks self))); [|by intros [= <- _]].
  revert self' r.
  match goal with
  | |- ∀ self' r, ?m self = _ → _ =>
      enough (Hfixed : windows_fixed m) by (intros ? ?; apply Hfixed)
  end.
  apply windows_fixed_bind; [apply windows_fixed_picks_entry|intros _].
  destruct (is_ _ "from_taup_model"); [repeat windows_fixed_step|].
  destruct (is_ _ "from_fk_metadata"); [repeat windows_fixed_step|].
  destruct (is_ _ "from_sac_metadata"); [repeat windows_fixed_step|].
  destruct (is_ _ "from_cap_weight_file"); [apply windows_fixed_lift|].
  destruct (is_ _ "from_pick_file"); [repeat windows_fixed_step|].
  apply windows_fixed_ret.
Qed.

(** X18. The window a call caches.  When the station has no window record
    and the call returns, the window it has cached for 'cap_bw' starts
    0.4 window lengths before the P pick of the station, as cached, and
    for 'cap_sw' 0.3 window lengths before its S pick; it is one window
    length long, and both ends are shifted by the origin time. *)
Theorem call_window_from_pick bundle station_arg origin_arg overwrite
    (self self' : Instance F) b id origin_ :
  __call__ bundle station_arg origin_arg overwrite self = (self', Ok b) →
  ProcessData.id bundle = Some id →
  origin_arg ∪ origin bundle ∪ preliminary_origin bundle = Some origin_ →
  _windows self !! id = None →
  window_type self = Some "cap_bw"%string
  ∨ window_type self = Some "cap_sw"%string →
  ∃ picks pick window_length,
    _picks self' !! id = Some picks
    ∧ (if is_ (window_type self) "cap_bw" then P picks else S picks)
      = Some pick
    ∧ num (ProcessData.window_length self) = Ok window_length
    ∧ let before :=
        if is_ (window_type self) "cap_bw" then lit 0.4 else lit 0.3 in
      let t1 := fsub pick (fmul before window_length) in
      let t2 := fadd t1 window_length in
      _windows self' !! id
      = Some (fadd t1 (time origin_), fadd t2 (time origin_)).
Proof.
  intros Hcall Hid Horigin Hwindows Htype.
  apply call_stages in Hcall as [[_ [e He]]|Hcall]; [done|].
  destruct Hcall as (id' & tags0 & origin_' & station_ & distance_in_m
                     & azimuth & back & trace0 & traces1 & r1 & self1
                     & Hid' & _ & Horigin' & _ & _ & _ & Hrest).
  assert (id' = id) as -> by congruence.
  assert (origin_' = origin_) as -> by congruence.
  cbv zeta in Hrest. destruct Hrest as (_ & Hpicks & Hrest).
  destruct Hrest as [(e & _ & _ & He)|(-> & r2 & Hwindow & Hrest)]; [done|].
  destruct Hrest as [(e & _ & He)|(-> & _)]; [done|].
  pose proof (growing_determine_picks _ _ _ _ _ _ _ Hpicks)
    as (Hc1 & _ & _).
  pose proof (determine_picks_windows _ _ _ _ _ _ _ Hpicks) as Hw1.
  assert (Hsame : window_type self1 = window_type self
                  ∧ ProcessData.window_length self1
                    = ProcessData.window_length self)
    by (rewrite Hc1; by destruct self).
  destruct Hsame as (Hwt & Hwl).
  unfold determine_window, picks_entry, mbind, M_bind, mret, M_ret in Hwindow.
  unfold bind at 1, get at 1 in Hwindow.
  rewrite Hwt, Hwl in Hwindow.
  rewrite has_key_None in Hwindow by by rewrite Hw1.
  assert (Hnot : not_ (window_type self) = false)
    by (by destruct Htype as [-> | ->]).
  rewrite Hnot in Hwindow. cbn [negb] in Hwindow.
  unfold bind at 1 in Hwindow. unfold bind at 1, get at 1 in Hwindow.
  destruct (_picks self1 !! id) as [picks|] eqn:Hentry; cycle 1.
  { exfalso. unfold bind, modify, ret, lift in Hwindow.
    destruct Htype as [Htype|Htype]; rewrite Htype in Hwindow;
      by cbn in Hwindow. }
  unfold ret at 1 in Hwindow.
  exists picks.
  destruct Htype as [Htype|Htype]; rewrite Htype in Hwindow |- *;
    cbn [is_ String.eqb Ascii.eqb Bool.eqb] in Hwindow |- *;
    unfold bind, lift, modify in Hwindow.
  - destruct (P picks) as [pick|]; [|done]. cbn [getattr] in Hwindow.
    destruct (num (ProcessData.window_length self)) as [wl|]; [|done].
    injection Hwindow as <-. exists pick, wl.
    split; [done|]. split; [done|]. split; [done|].
    cbn. by rewrite lookup_insert_eq.
  - destruct (S picks) as [pick|]; [|done]. cbn [getattr] in Hwindow.
    destruct (num (ProcessData.window_length self)) as [wl|]; [|done].
    injection Hwindow as <-. exists pick, wl.
    split; [done|]. split; [done|]. split; [done|].
    cbn. by rewrite lookup_insert_eq.
Qed.
End CallMore.

(** ** The weight blocks, further *)

Section WeightMore.
Import ProcessData.
Context {F : Type} `{Float F} `{!FloatLaws F} `{World F}.
Implicit Types (traces : list (Trace F)).

(** X19. In the surface wave block on data, a trace whose component is
    none of Z, R and T resolves to the weight 0, whatever the weight table
    holds, and is removed: the bundle is processed as if the trace were
    not in it. *)
Theorem cap_sw_other_component self id tags distance_in_m table trace c
    traces1 traces2 :
  has_tag "type:greens" tags = false →
  weight_type self = Some "cap_sw"%string →
  weights self = Some table →
  component trace = Some c →
  c ≠ "Z"%char → c ≠ "R"%char → c ≠ "T"%char →
  cap_sw_weight self id c = Ok (lit 0)
  ∧ determine_weights self id tags distance_in_m
      (traces1 ++ trace :: traces2)
    = determine_weights self id tags distance_in_m (traces1 ++ traces2).
Proof.
  intros Hgreens Hwt Hweights Hc HZ HR HT.
  assert (Hzero : cap_sw_weight self id c = Ok (lit 0)).
  { unfold cap_sw_weight. rewrite Hweights. cbn.
    destruct (has_key id table); [cbn|done].
    apply Ascii.eqb_neq in HZ, HR, HT. by rewrite HZ, HR, HT. }
  split; [exact Hzero|].
  rewrite !determine_weights_cap by by right.
  rewrite !weight_block_data by done.
  rewrite Hwt. cbn [is_]. cbn [String.eqb Ascii.eqb Bool.eqb].
  rewrite !rmap_app. cbn [rmap].
  replace (weigh (cap_sw_weight self id) trace)
    with (@Ok (option (Trace F)) None).
  2:{ unfold weigh. rewrite Hc, Hzero. cbn. by rewrite truthy_zero. }
  destruct (rmap _ traces1) as [o1|e]; cbn; [|done].
  destruct (rmap _ traces2) as [o2|e]; cbn; [|done].
  by rewrite !omap_app.
Qed.

(** The column of the weight table a block reads for a component. *)
Local Abbreviation reads wt c k :=
  (wt = Some "cap_bw"%string ∧ (c = "Z"%char ∧ k = 1 ∨ c = "R"%char ∧ k = 2)
   ∨ wt = Some "cap_sw"%string
     ∧ (c = "Z"%char ∧ k = 3 ∨ c = "R"%char ∧ k = 4
        ∨ c = "T"%char ∧ k = 5)).

Lemma rmap_raise {A B} (body : A → result B) (l1 l2 : list A) (x : A) e :
  (∀ y, y ∈ l1 → ∃ z, body y = Ok z) → body x = Raise e →
  rmap body (l1 ++ x :: l2) = Raise e.
Proof.
  intros Hl1 Hx. induction l1 as [|y l1 IH]; cbn.
  - by rewrite Hx.
  - destruct (Hl1 y) as [z ->]; [by left|]. cbn.
    rewrite IH; [done|]. intros y' Hy'. apply Hl1. by right.
Qed.

(** X20. The columns of the weight table: the body wave block reads
    column 1 for Z and column 2 for R, the surface wave block columns 3,
    4 and 5 for Z, R and T, of the row of the station.  On data, when
    that row is too short for the component of a trace, and the traces
    before it could be weighed, the weights are not determined:
    [IndexError]. *)
Theorem weight_row_too_short self id tags distance_in_m table row trace c k
    traces1 traces2 :
  let resolve :=
    if is_ (weight_type self) "cap_bw"
    then cap_bw_weight self id else cap_sw_weight self id in
  has_tag "type:greens" tags = false →
  weights self = Some table →
  table !! id = Some row →
  reads (weight_type self) c k →
  component trace = Some c →
  (∀ trace' c', trace' ∈ traces1 → component trace' = Some c' →
     ∃ w, resolve c' = Ok w) →
  (∀ w, row !! k = Some w → resolve c = Ok w)
  ∧ (length row ≤ k →
     determine_weights self id tags distance_in_m
       (traces1 ++ trace :: traces2) = Raise IndexError).
Proof.
  intros resolve Hgreens Hweights Hrow Hreads Hc Hbefore.
  assert (Hresolve : resolve c = getindex k row).
  { unfold resolve, cap_bw_weight, cap_sw_weight, getitem.
    rewrite Hweights. cbn [getattr mbind result_bind rbind].
    rewrite (has_key_Some _ _ _ Hrow). cbn [negb]. rewrite Hrow.
    destruct Hreads as [[-> Hreads]|[-> Hreads]];
      cbn [is_ String.eqb Ascii.eqb Bool.eqb];
      repeat (destruct Hreads as [Hreads|Hreads]);
      by destruct Hreads as [-> ->]. }
  split.
  { intros w Hw. rewrite Hresolve. unfold getindex. by rewrite Hw. }
  intros Hshort.
  assert (Hwt : weight_type self = Some "cap_bw"%string
                ∨ weight_type self = Some "cap_sw"%string)
    by (destruct Hreads as [[-> _]|[-> _]]; auto).
  rewrite determine_weights_cap by done.
  rewrite weight_block_data by done. fold resolve.
  rewrite (rmap_raise (weigh resolve) traces1 traces2 trace IndexError);
    [done| |].
  - intros trace' Hin. unfold weigh.
    destruct (component trace') as [c'|] eqn:Hc'; [|eauto].
    destruct (Hbefore trace' c' Hin Hc') as [w ->]. cbn. eauto.
  - unfold weigh. rewrite Hc, Hresolve. unfold getindex.
    by rewrite (lookup_ge_None_2 row k) by lia.
Qed.
End WeightMore.

(** ** Picks from a pick file *)

Section PickFile.
Import ProcessData.
Context {F : Type} `{Float F} `{World F}.

(** What a row of the pick file stores. *)
Local Abbreviation stores row _id p s :=
  (∃ ps ss rest, row = _id :: ps :: ss :: rest
                 ∧ float_of_str ps = Ok p ∧ float_of_str ss = Ok s).
Local Abbreviation names row _id := (head row = Some _id).

Lemma set_picks_set_picks g1 g2 (self : Instance F) :
  set_picks g2 (set_picks g1 self) = set_picks (λ m, g2 (g1 m)) self.
Proof. done. Qed.

Lemma assign_both (_id : string) (p s : F) (self : Instance F) :
  (_ ← assign_P _id p; assign_S _id s) self
  = (set_picks <[_id := {| P := Some p; S := Some s |}]> self, Ok ()).
Proof.
  unfold assign_P, assign_S, picks_entry, mbind, M_bind, mret, M_ret, bind,
    get, modify, ret.
  assert (Hmap : ∀ m : gmap string (Picks F),
            is_Some (m !! _id) →
            alter (λ q, {| P := P q; S := Some s |}) _id
              (alter (λ q, {| P := Some p; S := S q |}) _id m)
            = <[_id := {| P := Some p; S := Some s |}]> m).
  { intros m [q Hq]. apply map_eq. intros k.
    destruct (decide (k = _id)) as [->|Hne].
    - by rewrite lookup_alter_eq, lookup_alter_eq, Hq, lookup_insert_eq.
    - by rewrite !lookup_alter_ne, lookup_insert_ne. }
  destruct (_picks self !! _id) as [q|] eqn:Hentry; cbn.
  - rewrite lookup_alter_eq, Hentry. cbn.
    rewrite set_picks_set_picks. f_equal.
    unfold set_picks. f_equal. by apply Hmap.
  - rewrite lookup_alter_eq, lookup_insert_eq. cbn.
    rewrite !set_picks_set_picks.
    unfold set_picks. f_equal. f_equal.
    rewrite Hmap by (rewrite lookup_insert_eq; eauto).
    by rewrite insert_insert_eq.
Qed.

(** The loop over the rows, when every row stores picks. *)
Lemma pick_file_loop (rows : list (list string)) : ∀ self : Instance F,
  (∀ row, row ∈ rows → ∃ _id p s, stores row _id p s) →
  ∃ picks',
    for_ rows (λ row,
      _id ← lift (getindex 0 row);
      p ← lift (getindex 1 row ≫= float_of_str);
      _ ← assign_P _id p;
      s ← lift (getindex 2 row ≫= float_of_str);
      assign_S _id s) self
    = (set_picks (λ _, picks') self, Ok ())
    ∧ (∀ _id, (∀ row, row ∈ rows → ¬ names row _id) →
         picks' !! _id = _picks self !! _id)
    ∧ (∀ rows1 row rows2 _id p s,
         rows = rows1 ++ row :: rows2 → stores row _id p s →
         (∀ row', row' ∈ rows2 → ¬ names row' _id) →
         picks' !! _id = Some {| P := Some p; S := Some s |}).
Proof.
  induction rows as [|row rows IH]; intros self Hrows.
  - exists (_picks self). split; [by destruct self|]. split; [done|].
    intros rows1 row rows2 _id p s Heq. by destruct rows1.
  - destruct (Hrows row) as (_id & p & s & ps & ss & rest & -> & Hp & Hs);
      [by left|].
    set (self1 := set_picks <[_id := {| P := Some p; S := Some s |}]> self).
    destruct (IH self1) as (picks' & Hrun & Hother & Hlast).
    { intros row' Hin. apply Hrows. by right. }
    exists picks'. split; [|split].
    + cbn [for_]. unfold bind at 1.
      assert (Hbody :
        (_id0 ← lift (getindex 0 (_id :: ps :: ss :: rest));
         p0 ← lift (getindex 1 (_id :: ps :: ss :: rest) ≫= float_of_str);
         _ ← assign_P _id0 p0;
         s0 ← lift (getindex 2 (_id :: ps :: ss :: rest) ≫= float_of_str);
         assign_S _id0 s0) self = (self1, Ok ())).
      { unfold mbind, M_bind, result_bind.
        change (getindex 0 (_id :: ps :: ss :: rest)) with (Ok _id).
        change (getindex 1 (_id :: ps :: ss :: rest)) with (Ok ps).
        change (getindex 2 (_id :: ps :: ss :: rest)) with (Ok ss).
        cbn [rbind]. rewrite Hp, Hs.
        unfold bind at 1 2, lift at 1 2.
        pose proof (assign_both _id p s self) as Hboth.
        unfold mbind, M_bind in Hboth.
        unfold bind at 1. unfold bind at 1 in Hboth.
        destruct (assign_P _id p self) as [self2 [[]|e]];
          [|by injection Hboth].
        unfold bind at 1, lift at 1. exact Hboth. }
      rewrite Hbody, Hrun. by destruct self.
    + intros _id' Hnone. rewrite Hother.
      * unfold self1. cbn. rewrite lookup_insert_ne; [done|].
        intros ->. by apply (Hnone (_id' :: ps :: ss :: rest)); [left|].
      * intros row' Hin. apply Hnone. by right.
    + intros rows1 row rows2 _id' p' s' Heq Hstores Hnone.
      destruct rows1 as [|row1 rows1]; cbn in Heq.
      * injection Heq as <- <-.
        destruct Hstores as (ps' & ss' & rest' & [= <- <- <- <-] & Hp' & Hs').
        rewrite (Hother _id Hnone). unfold self1. cbn.
        rewrite lookup_insert_eq. congruence.
      * injection Heq as <- ->. by eapply Hlast.
Qed.

(** X21. Picks from a pick file.  The call on the first station that has
    no pick record reads the whole file: when every row holds a station
    identifier and two numbers, the pick stage returns, every station
    that a row names has the P and S picks of the last row that names it,
    the station of the call gets a blank pick record when no row names
    it, and the pick records of all other stations stay as they are. *)
Theorem pick_file_stations id traces origin distance_in_m
    (self : Instance F) file rows :
  pick_type self = Some "from_pick_file"%string →
  _picks self !! id = None →
  _pick_file self = Some file →
  read_pick_file file = Ok rows →
  (∀ row, row ∈ rows → ∃ _id p s, stores row _id p s) →
  ∃ picks',
    determine_picks id traces origin distance_in_m self
    = (set_picks (λ _, picks') self, Ok ())
    ∧ (∀ rows1 row rows2 _id p s,
         rows = rows1 ++ row :: rows2 → stores row _id p s →
         (∀ row', row' ∈ rows2 → ¬ names row' _id) →
         picks' !! _id = Some {| P := Some p; S := Some s |})
    ∧ ((∀ row, row ∈ rows → ¬ names row id) →
       picks' !! id = Some no_picks)
    ∧ (∀ _id, _id ≠ id → (∀ row, row ∈ rows → ¬ names row _id) →
       picks' !! _id = _picks self !! _id).
Proof.
  intros Htype Hnone Hfile Hread Hrows.
  set (self1 := set_picks <[id := no_picks]> self).
  destruct (pick_file_loop rows self1 Hrows)
    as (picks' & Hrun & Hother & Hlast).
  exists picks'. split; [|split; [|split]].
  - unfold determine_picks, picks_entry, mbind, M_bind, mret, M_ret.
    unfold bind at 1, get at 1. rewrite Htype.
    cbn [not_ is_ String.eqb Ascii.eqb Bool.eqb].
    rewrite (has_key_None _ _ Hnone). cbn [negb].
    unfold bind at 1. unfold bind at 1, get at 1. rewrite Hnone.
    unfold bind at 1, modify at 1. unfold ret at 1.
    fold self1.
    unfold bind at 1, lift at 1. rewrite Hfile. cbn [getattr].
    unfold bind at 1, lift at 1. rewrite Hread.
    etrans; [exact Hrun|]. by destruct self.
  - exact Hlast.
  - intros Hnames. rewrite (Hother id Hnames). unfold self1. cbn.
    by rewrite lookup_insert_eq.
  - intros _id Hne Hnames. rewrite (Hother _id Hnames). unfold self1. cbn.
    by rewrite lookup_insert_ne.
Qed.
End PickFile.

(** ** The grid search, further *)

Section GridSearchMore.
Import Numpy GridSearch.
Context {Data Greens Origin Source V : Type}.
Variable select : Greens → Origin → Greens.
Variable partition : list Source → nat → list (list Source).
Implicit Types (misfit : @misfit_fn Data Greens Source V).

Lemma concatenate_axis0_shape (parts : list (ndarray V)) (n : nat) :
  parts ≠ [] →
  Forall (λ x, ncols x = n ∧ wf x) parts →
  ∃ results,
    concatenate_axis0 parts = Ok results
    ∧ shape results = (length (concat (rows <$> parts)), n)
    ∧ wf results.
Proof.
  intros Hne Hparts. destruct parts as [|a rest]; [done|].
  pose proof Hparts as Hall.
  apply Forall_cons in Hparts as [[Ha Hwa] Hrest].
  cbn [concatenate_axis0].
  replace (forallb _ rest) with true; cycle 1.
  { symmetry. apply forallb_forall. intros b Hb.
    apply list_elem_of_In in Hb. rewrite Forall_forall in Hrest.
    destruct (Hrest b Hb) as [-> _]. apply Nat.eqb_eq. done. }
  eexists. split; [reflexivity|]. split.
  - unfold shape, nrows. cbn [rows ncols]. by rewrite Ha.
  - unfold wf. cbn [rows ncols].
    apply Forall_concat, Forall_fmap.
    eapply Forall_impl; [exact Hall|].
    intros x [Hx Hwx]. cbn. unfold wf in Hwx. by rewrite Ha, <- Hx.
Qed.

(** X24. The shape of the gathered matrix.  In an MPI environment with
    [allgather=True], when [partition] cuts the grid into one part for
    each process and loses or adds no source, there is an origin, and the
    misfit callable returns a column of shape (m, 1) for a grid of m
    sources, every process returns a matrix of shape
    [(len(sources), len(origins))]. *)
Theorem grid_search_mpi_shape env data greens misfit
    (origins : list Origin) (sources : list Source) msg_interval :
  _is_mpi_env env = true →
  COMM_WORLD_rank env < COMM_WORLD_size env →
  length (partition sources (COMM_WORLD_size env)) = COMM_WORLD_size env →
  length (concat (partition sources (COMM_WORLD_size env)))
  = length sources →
  1 ≤ length origins →
  (∀ g srcs h, shape (misfit data g srcs h) = (length srcs, 1)
               ∧ wf (misfit data g srcs h)) →
  ∃ results,
    grid_search select partition env data greens misfit origins sources
      msg_interval true = Ok results
    ∧ shape results = (length sources, length origins)
    ∧ wf results.
Proof.
  intros Henv Hrank Hlen Hsources Horigins Hmisfit.
  set (nproc := COMM_WORLD_size env) in *.
  set (parts := partition sources nproc) in *.
  assert (Hserial : ∀ p msg, ∃ res,
            _grid_search_serial select data greens misfit origins p msg
            = Ok res
            ∧ shape res = (length p, length origins) ∧ wf res).
  { intros p msg. unfold _grid_search_serial.
    set (arrs := imap _ origins).
    assert (Harrs : length arrs = length origins) by apply length_imap.
    destruct (concatenate_columns arrs (length p))
      as (res & Hres & Hshape & Hwf & _).
    { intros Hnil. rewrite Hnil in Harrs. cbn in Harrs. lia. }
    { intros x Hx. apply list_elem_of_lookup in Hx as [i Hi].
      subst arrs. rewrite list_lookup_imap in Hi.
      destruct (origins !! i) as [o|]; [|discriminate].
      injection Hi as <-.
      destruct (Hmisfit (select greens o) p
                  {| start := i * length p;
                     stop := length origins * length p;
                     percent := msg |}) as [Hs Hw].
      unfold shape in Hs. by injection Hs as Hr Hc. }
    exists res. by rewrite Hshape, Harrs. }
  assert (Hranks : ∀ r p, parts !! r = Some p → ∃ res,
            rank_results select partition data greens misfit origins
              sources msg_interval nproc r = Ok res
            ∧ shape res = (length p, length origins) ∧ wf res).
  { intros r p Hp. unfold rank_results, scatter. fold parts.
    rewrite Hlen, Nat.eqb_refl, Hp. cbn [rbind]. apply Hserial. }
  assert (Hgather : ∃ results : list (ndarray V),
            allgather_results select partition data greens misfit origins
              sources msg_interval nproc = Ok results
            ∧ Forall2 (λ p res, shape res = (length p, length origins)
                                ∧ wf res) parts results).
  { unfold allgather_results.
    assert (Hgen : ∀ first (ps : list (list Source)),
              (∀ r p, ps !! r = Some p → parts !! (first + r) = Some p) →
              ∃ results : list (ndarray V),
                rsequence
                  ((λ r, rank_results select partition data greens misfit
                           origins sources msg_interval nproc r)
                     <$> seq first (length ps)) = Ok results
                ∧ Forall2 (λ p res, shape res = (length p, length origins)
                                    ∧ wf res) ps results).
    { intros first ps. revert first.
      induction ps as [|p ps IH]; intros first Hps.
      - exists []. by split.
      - cbn [length seq fmap list_fmap rsequence].
        destruct (Hranks first p) as (res & -> & Hres).
        { rewrite <- (Nat.add_0_r first). by apply (Hps 0). }
        destruct (IH (S first)) as (results & -> & Hresults).
        { intros r p' Hp'.
          replace (S first + r) with (first + S r) by lia.
          by apply (Hps (S r)). }
        exists (res :: results). split; [done|]. by constructor. }
    destruct (Hgen 0 parts) as (results & Hresults & Hshapes);
      [by intros r p Hp|].
    rewrite Hlen in Hresults. rewrite Hresults. by exists results. }
  destruct Hgather as (results & Hgather & Hshapes).
  destruct (lookup_lt_is_Some_2 parts (COMM_WORLD_rank env)) as [p Hp];
    [lia|].
  destruct (Hranks _ p Hp) as (own & Hown & _).
  destruct (concatenate_axis0_shape results (length origins))
    as (res & Hres & Hshape & Hwf).
  { intros ->. apply Forall2_nil_inv_r in Hshapes.
    rewrite Hshapes in Hp. done. }
  { clear -Hshapes. induction Hshapes as [|p res ps ress [Hs Hw] _ IH];
      [done|].
    constructor; [|done]. unfold shape in Hs. by injection Hs. }
  exists res. split; [|split; [|exact Hwf]].
  - unfold grid_search. rewrite Henv. cbn [andb].
    fold nproc. rewrite Hown. cbn [rbind]. by rewrite Hgather.
  - rewrite Hshape. f_equal. rewrite <- Hsources. fold parts.
    clear -Hshapes.
    induction Hshapes as [|p res ps ress [Hs Hw] _ IH]; [done|].
    cbn. rewrite !length_app, IH. unfold shape, nrows in Hs.
    by injection Hs as -> _.
Qed.
End GridSearchMore.

(** * The further properties in the example worlds *)

Section CallExamples.
Import ProcessData.
#[local] Existing Instance example_world.

(** The first call on the data of station II.KDAK. *)
Lemma call_keeps_caches_witness :
  let bundle :=
    example_bundle "II.KDAK" ["units:m"; "type:displacement"]%string
      [example_trace "BHZ" [3%Q; 4%Q]] in
  let self' := (example_call example_self bundle).1 in
  self' = set_windows (λ _, _windows self')
            (set_picks (λ _, _picks self') example_self)
  ∧ _windows example_self ⊆ _windows self'
  ∧ dom (_picks example_self) ⊆ dom (_picks self')
  ∧ (is_ (pick_type example_self) "from_pick_file" = false →
     _picks example_self ⊆ _picks self').
Proof.
  intros bundle self'.
  exact (@call_keeps_caches Q Q_Float example_world
      bundle None None false example_self self'
           (example_call example_self bundle).2 (surjective_pairing _)).
Defined.

Lemma call_caches_station_witness :
  let bundle :=
    example_bundle "II.KDAK" ["units:m"; "type:displacement"]%string
      [example_trace "BHZ" [3%Q; 4%Q]] in
  ∃ self' b,
    example_call example_self bundle = (self', Ok b)
    ∧ is_Some (_picks self' !! "II.KDAK"%string)
    ∧ is_Some (_windows self' !! "II.KDAK"%string).
Proof.
  intros bundle.
  destruct (example_call example_self bundle) as [self' [b|e]] eqn:Hcall;
    [|by vm_compute in Hcall].
  exists self', b. split; [reflexivity|].
  destruct (@call_caches_station Q Q_Float example_world
      bundle None None false example_self
              self' b "II.KDAK"%string Hcall eq_refl) as [Hp Hw].
  split; [apply Hp|apply Hw]; reflexivity.
Defined.

(** A station with a blank pick record and no window. *)
Lemma call_blocked_station_witness :
  let self := set_picks <["IU.COLA"%string := no_picks]> example_self in
  let bundle :=
    example_bundle "IU.COLA" ["units:m"; "type:displacement"]%string
      [example_trace "BHZ" [3%Q; 4%Q]] in
  ∃ e, example_call self bundle = (self, Raise e).
Proof.
  intros self bundle.
  refine (@call_blocked_station Q Q_Float example_world
      bundle None None false self
            "IU.COLA"%string no_picks _ _ _ _).
  - reflexivity.
  - reflexivity.
  - left. split; reflexivity.
  - reflexivity.
Defined.

(** Of the traces BHZ and BHT the body wave block removes the second. *)
Lemma call_trace_count_witness :
  let bundle :=
    example_bundle "II.KDAK" ["units:m"; "type:displacement"]%string
      [example_trace "BHZ" [3%Q]; example_trace "BHT" [5%Q]] in
  ∃ self' b,
    example_call example_self bundle = (self', Ok b)
    ∧ length (traces b) ≤ 2
    ∧ (∀ tags', tags b = Some tags' →
         not_ (weight_type example_self) = true
         ∨ has_tag "type:greens" tags' = true →
         length (traces b) = 2).
Proof.
  intros bundle.
  destruct (example_call example_self bundle) as [self' [b|e]] eqn:Hcall;
    [|by vm_compute in Hcall].
  exists self', b. split; [reflexivity|].
  exact (@call_trace_count Q Q_Float example_world
      bundle None None false example_self self' b
           Hcall).
Defined.

Lemma call_tags_witness :
  let tags0 := ["units:cm"; "type:velocity"; "type:data"]%string in
  let bundle :=
    example_bundle "II.KDAK" tags0 [example_trace "BHZ" [3%Q; 4%Q]] in
  ∃ self' b tags',
    example_call example_self bundle = (self', Ok b)
    ∧ tags b = Some tags'
    ∧ length tags' = 3
    ∧ "units:m"%string ∈ tags'
    ∧ "type:displacement"%string ∈ tags'
    ∧ ("units:cm"%string ∉ tags') ∧ ("type:velocity"%string ∉ tags').
Proof.
  intros tags0 bundle.
  destruct (example_call example_self bundle) as [self' [b|e]] eqn:Hcall;
    [|by vm_compute in Hcall].
  destruct (@call_tags Q Q_Float example_world
              bundle None None false example_self self' b
              tags0 Hcall eq_refl)
    as (tags1 & tags' & Htags & _ & _ & Hlen & _ & Hm & Hd & Hnodup).
  exists self', b, tags'. split; [reflexivity|]. split; [exact Htags|].
  split; [exact Hlen|].
  split; [apply Hm; left|].
  split; [apply Hd; right; left|].
  apply Hnodup. apply (bool_decide_unpack _). by vm_compute.
Defined.

(** Velocities in cm/s: the samples 100 and 200 are converted to 1 and
    2, summed up to 1 and 3, and weighted 1.0. *)
Lemma call_unweighted_witness :
  let bundle :=
    example_bundle "II.KDAK" ["units:cm"; "type:velocity"]%string
      [example_trace "BHZ" [100%Q; 200%Q]] in
  ∃ self self' b,
    example_init (Some "cap_bw"%string) None example_parameters = Ok self
    ∧ example_call self bundle = (self', Ok b)
    ∧ summary (traces b) = [("BHZ"%string, [1%Q; 3%Q], Some 1%Q)].
Proof.
  intros bundle.
  destruct (example_init (Some "cap_bw"%string) None example_parameters)
    as [self|e] eqn:Hinit; [|by vm_compute in Hinit].
  vm_compute in Hinit. injection Hinit as <-.
  match goal with
  | |- ∃ self self' b, _ = Ok self ∧ _ => eexists
  end.
  match goal with
  | |- ∃ self' b, Ok ?self = _ ∧ _ =>
      destruct (example_call self bundle) as [self' [b|e]] eqn:Hcall;
        [|by vm_compute in Hcall];
      exists self', b; split; [reflexivity|]; split;
        [exact Hcall|];
      destruct (@call_unweighted Q Q_Float example_world
          bundle None None false self self' b
                  "II.KDAK"%string
                  ["units:cm"; "type:velocity"]%string
                  (example_trace "BHZ" [100%Q; 200%Q])
                  Hcall eq_refl eq_refl eq_refl eq_refl eq_refl)
        as (window_cut & Htraces & _ & Hcut)
  end.
  destruct (Hcut eq_refl) as (window & _ & Hcut').
  rewrite Htraces. cbn in Hcut'.
  unfold summary, bundle, example_bundle. cbn [fmap list_fmap traces].
  rewrite Hcut'. reflexivity.
Defined.

(** The P pick 30 s, a window of 15 s, the origin time 1000 s. *)
Lemma call_window_from_pick_witness :
  let bundle :=
    example_bundle "II.KDAK" ["units:m"; "type:displacement"]%string
      [example_trace "BHZ" [3%Q; 4%Q]] in
  ∃ self' b picks pick window_length,
    example_call example_self bundle = (self', Ok b)
    ∧ _picks self' !! "II.KDAK"%string = Some picks
    ∧ P picks = Some pick
    ∧ num (ProcessData.window_length example_self) = Ok window_length
    ∧ _windows self' !! "II.KDAK"%string
      = Some ((pick - 0.4 * window_length + 1000)%Q,
              (pick - 0.4 * window_length + window_length + 1000)%Q).
Proof.
  intros bundle.
  destruct (example_call example_self bundle) as [self' [b|e]] eqn:Hcall;
    [|by vm_compute in Hcall].
  destruct (@call_window_from_pick Q Q_Float example_world
      bundle None None false example_self
              self' b "II.KDAK"%string
              {| latitude := 61.5%Q; longitude := (-149.7)%Q;
                 depth_in_m := 33000%Q; time := 1000%Q |}
              Hcall eq_refl eq_refl eq_refl (or_introl eq_refl))
    as (picks & pick & wl & Hpicks & Hpick & Hwl & Hwindow).
  exists self', b, picks, pick, wl.
  split; [reflexivity|]. split; [exact Hpicks|]. split; [exact Hpick|].
  split; [exact Hwl|exact Hwindow].
Defined.

(** The east component in the surface wave block. *)
Lemma cap_sw_other_component_witness :
  ∃ self,
    example_init (Some "cap_sw"%string) (Some "cap_sw"%string)
      example_parameters = Ok self
    ∧ cap_sw_weight self "II.KDAK" "E" = Ok 0%Q
    ∧ determine_weights self "II.KDAK" ["units:m"]%string 200000%Q
        ([example_trace "BHZ" [3%Q]]
         ++ example_trace "BHE" [5%Q] :: [example_trace "BHR" [7%Q]])
      = determine_weights self "II.KDAK" ["units:m"]%string 200000%Q
          ([example_trace "BHZ" [3%Q]] ++ [example_trace "BHR" [7%Q]]).
Proof.
  destruct (example_init (Some "cap_sw"%string) (Some "cap_sw"%string)
              example_parameters) as [self|e] eqn:Hinit;
    [|by vm_compute in Hinit].
  exists self. split; [reflexivity|].
  vm_compute in Hinit. injection Hinit as <-.
  refine (@cap_sw_other_component Q Q_Float Q_FloatLaws
      _ "II.KDAK" ["units:m"]%string
            200000%Q example_weights (example_trace "BHE" [5%Q]) "E"%char
            [example_trace "BHZ" [3%Q]] [example_trace "BHR" [7%Q]]
            _ _ _ _ _ _ _).
  - reflexivity.
  - reflexivity.
  - reflexivity.
  - reflexivity.
  - discriminate.
  - discriminate.
  - discriminate.
Defined.

(** A row of two columns: the weight of BHZ is read, that of BHR is
    not there. *)
Lemma weight_row_too_short_witness :
  let table : gmap string (list Q) := {[ "II.KDAK"%string := [200; 1]%Q ]} in
  let self := example_self_with_weights table in
  cap_bw_weight self "II.KDAK" "Z" = Ok 1%Q
  ∧ determine_weights self "II.KDAK" ["units:m"]%string 200000%Q
      ([example_trace "BHZ" [3%Q]]
       ++ example_trace "BHR" [7%Q] :: [])
    = Raise IndexError.
Proof.
  intros table self. split.
  - refine (proj1 (@weight_row_too_short Q Q_Float self "II.KDAK"
                     ["units:m"]%string 200000%Q table [200; 1]%Q
                     (example_trace "BHZ" [3%Q]) "Z"%char 1 [] []
                     eq_refl eq_refl eq_refl
                     (or_introl (conj eq_refl (or_introl (conj eq_refl
                                                            eq_refl))))
                     eq_refl _) 1%Q eq_refl).
    intros trace' c' Hin. by apply elem_of_nil in Hin.
  - refine (proj2 (@weight_row_too_short Q Q_Float self "II.KDAK"
                     ["units:m"]%string 200000%Q table [200; 1]%Q
                     (example_trace "BHR" [7%Q]) "R"%char 2
                     [example_trace "BHZ" [3%Q]] []
                     eq_refl eq_refl eq_refl
                     (or_introl (conj eq_refl (or_intror (conj eq_refl
                                                            eq_refl))))
                     eq_refl _) _).
    + intros trace' c' Hin Hc.
      apply list_elem_of_singleton in Hin as ->.
      injection Hc as <-. by exists 1%Q.
    + cbn. lia.
Defined.
End CallExamples.

Lemma example_init_with_pick_file :
  @ProcessData.__init__ Q ProcessData.Q_Float_digits
    ProcessData.example_world_with_pick_file None
    (Some "from_pick_file"%string) (Some "cap_bw"%string) None
    {[ "pick_file"%string := ProcessData.VStr "picks.dat";
       "window_length"%string := ProcessData.VFloat 15%Q ]}
  = Ok ProcessData.example_self_with_pick_file.
Proof. by vm_compute. Qed.

(** The call on station AK.RC01, which the pick file does not name, loads
    the picks of II.KDAK, from its last row, and of IU.COLA. *)
Lemma pick_file_stations_witness :
  let origin :=
    {| ProcessData.latitude := 61.5%Q; ProcessData.longitude := (-149.7)%Q;
       ProcessData.depth_in_m := 33000%Q; ProcessData.time := 1000%Q |} in
  ∃ picks',
    @ProcessData.determine_picks Q ProcessData.Q_Float_digits
      ProcessData.example_world_with_pick_file "AK.RC01" [] origin 200000%Q
      ProcessData.example_self_with_pick_file
    = (ProcessData.set_picks (λ _, picks')
         ProcessData.example_self_with_pick_file, Ok ())
    ∧ picks' !! "II.KDAK"%string
      = Some {| ProcessData.P := Some 31%Q; ProcessData.S := Some 53%Q |}
    ∧ picks' !! "IU.COLA"%string
      = Some {| ProcessData.P := Some 10%Q; ProcessData.S := Some 18%Q |}
    ∧ picks' !! "AK.RC01"%string
      = Some {| ProcessData.P := None; ProcessData.S := None |}.
Proof.
  intros origin.
  destruct (@pick_file_stations Q ProcessData.Q_Float_digits
              ProcessData.example_world_with_pick_file "AK.RC01" [] origin
              200000%Q ProcessData.example_self_with_pick_file
              "picks.dat" ProcessData.example_pick_file
              eq_refl eq_refl eq_refl eq_refl)
    as (picks' & Hrun & Hlast & Hblank & _).
  { intros row Hin. unfold ProcessData.example_pick_file in Hin.
    repeat (apply elem_of_cons in Hin as [->|Hin]);
      [by eexists _, _, _, _, _, _..|by apply elem_of_nil in Hin]. }
  exists picks'. split; [exact Hrun|]. split; [|split].
  - apply (Hlast [["II.KDAK"; "30"; "52"]; ["IU.COLA"; "10"; "18"]]%string
             ["II.KDAK"; "31"; "53"]%string [] "II.KDAK"%string 31%Q 53%Q
             eq_refl).
    + by eexists _, _, _.
    + intros row' Hin. by apply elem_of_nil in Hin.
  - apply (Hlast [["II.KDAK"; "30"; "52"]]%string
             ["IU.COLA"; "10"; "18"]%string
             [["II.KDAK"; "31"; "53"]]%string "IU.COLA"%string 10%Q 18%Q
             eq_refl).
    + by eexists _, _, _.
    + intros row' Hin. apply list_elem_of_singleton in Hin as ->.
      discriminate.
  - apply Hblank. intros row Hin.
    unfold ProcessData.example_pick_file in Hin.
    repeat (apply elem_of_cons in Hin as [->|Hin]);
      [discriminate..|by apply elem_of_nil in Hin].
Defined.

Lemma grid_search_mpi_shape_witness :
  let select := λ g o : nat, g + o in
  let partition := λ (l : list nat) (n : nat), [take 1 l; drop 1 l] in
  let misfit : @GridSearch.misfit_fn unit nat nat nat :=
    λ _ g srcs _, Numpy.column_of ((λ s, g * s) <$> srcs) in
  let env := {| GridSearch.mpi4py_importable := true;
                GridSearch.mpi4py_MPI_importable := true;
                GridSearch.COMM_WORLD_size := 2;
                GridSearch.COMM_WORLD_rank := 1 |} in
  ∃ results,
    GridSearch.grid_search select partition env () 0 misfit [1; 2]
      [10; 20; 30] 25 true = Ok results
    ∧ Numpy.shape results = (3, 2)
    ∧ Numpy.wf results.
Proof.
  intros select partition misfit env.
  refine (grid_search_mpi_shape select partition env () 0 misfit [1; 2]
            [10; 20; 30] 25 eq_refl _ eq_refl eq_refl _ _).
  - cbn. lia.
  - cbn. lia.
  - intros g srcs h. split.
    + unfold Numpy.shape, Numpy.nrows, misfit, Numpy.column_of. cbn.
      by rewrite !length_fmap.
    + apply Forall_fmap, Forall_true. done.
Defined.

(** ** Figure headers *)

Section HeaderFacts.
Import ProcessData.
Context {F MomentTensor : Type} `{Float F} `{World F}
  `{Header.Libraries F MomentTensor}.
#[local] Existing Instance Header.W_ret.
#[local] Existing Instance Header.W_bind.

(** An item that [TextHeader] accepts: two numbers between 0 and 1, the
    text, and whatever follows. *)
Local Abbreviation accepted item :=
  (∃ xp yp text rest,
     item = Header.OFloat xp :: Header.OFloat yp :: text :: rest
     ∧ fleb (lit 0) xp = true ∧ fleb xp (lit 1) = true
     ∧ fleb (lit 0) yp = true ∧ fleb yp (lit 1) = true).

Lemma rmap_units {A} (body : A → result unit) (l : list A) :
  match rmap body l with
  | Ok _ => Forall (λ x, body x = Ok ()) l
  | Raise e => ∃ x, x ∈ l ∧ body x = Raise e
  end.
Proof.
  induction l as [|x l IH]; cbn; [done|].
  destruct (body x) as [[]|e] eqn:Hx; cbn.
  - destruct (rmap body l) as [us|e]; cbn.
    + by constructor.
    + destruct IH as (y & Hy & He). exists y. split; [by right|done].
  - exists x. split; [by left|done].
Qed.

(** X25. The items of a [TextHeader].  The constructor returns, and then
    keeps the items as they are, when every item starts with two
    numbers between 0 and 1 and has a third entry; otherwise it raises
    [AssertionError], or [TypeError] for a position that is not a
    number - an item that is too short is refused before it is
    indexed. *)
Theorem text_header_items (items : list (list (Header.object F))) :
  match Header.TextHeader.__init__ items with
  | Ok self => self = items ∧ Forall (λ item, accepted item) items
  | Raise e =>
      (e = AssertionError ∨ e = TypeError)
      ∧ ¬ Forall (λ item, accepted item) items
  end.
Proof.
  unfold Header.TextHeader.__init__.
  match goal with
  | |- context [rmap ?body items] => set (validate := body)
  end.
  assert (Hbody : ∀ item,
            match validate item with
            | Ok _ => accepted item
            | Raise e => (e = AssertionError ∨ e = TypeError)
                         ∧ ¬ accepted item
            end).
  { intros item. unfold validate.
    destruct item as [|xp [|yp [|text rest]]];
      try (cbn; split; [by left|];
           by intros (? & ? & ? & ? & ? & _)).
    change (3 <=? length (xp :: yp :: text :: rest)) with true.
    change (getindex 0 (xp :: yp :: text :: rest)) with (Ok xp).
    change (getindex 1 (xp :: yp :: text :: rest)) with (Ok yp).
    change (getindex 2 (xp :: yp :: text :: rest)) with (Ok text).
    unfold mbind, result_bind. cbn [rbind assert_].
    destruct xp as [xp|s|kw];
      try (cbn; split; [by right|];
           by intros (? & ? & ? & ? & ? & _)).
    cbn [Header.TextHeader.within_0_1 rbind].
    destruct (fleb (lit 0) xp) eqn:Hx0; cycle 1.
    { cbn. split; [by left|].
      intros (? & ? & ? & ? & [= <- _ _ _] & ? & _). congruence. }
    destruct (fleb xp (lit 1)) eqn:Hx1; cycle 1.
    { cbn. split; [by left|].
      intros (? & ? & ? & ? & [= <- _ _ _] & _ & ? & _). congruence. }
    cbn [andb assert_ rbind].
    destruct yp as [yp|s|kw];
      try (cbn; split; [by right|];
           by intros (? & ? & ? & ? & ? & _)).
    cbn [Header.TextHeader.within_0_1 rbind].
    destruct (fleb (lit 0) yp) eqn:Hy0; cycle 1.
    { cbn. split; [by left|].
      intros (? & ? & ? & ? & [= _ <- _ _] & _ & _ & ? & _). congruence. }
    destruct (fleb yp (lit 1)) eqn:Hy1; cycle 1.
    { cbn. split; [by left|].
      intros (? & ? & ? & ? & [= _ <- _ _] & _ & _ & _ & ?). congruence. }
    cbn. by exists xp, yp, text, rest. }
  pose proof (rmap_units validate items) as Hitems.
  unfold mbind, result_bind.
  destruct (rmap validate items) as [us|e]; cbn [rbind].
  - split; [done|]. eapply Forall_impl; [exact Hitems|].
    intros item Hitem. cbn in Hitem.
    specialize (Hbody item). by rewrite Hitem in Hbody.
  - destruct Hitems as (item & Hin & Hitem).
    specialize (Hbody item). rewrite Hitem in Hbody.
    destruct Hbody as [He Hnot]. split; [exact He|].
    intros Hall. rewrite Forall_forall in Hall. by apply Hnot, Hall.
Qed.

(** The passband attributes of a processor the constructor of
    [ProcessData] returned. *)
Lemma passband_of_init filter_type pick_type window_type weight_type
    parameters (process : Instance F) :
  ProcessData.__init__ filter_type pick_type window_type weight_type
    parameters = Ok process →
  (filter_type = Some "Bandpass"%string
   ∧ ∃ fmin fmax,
       freq_min process = Some fmin ∧ freq_max process = Some fmax
       ∧ Header.MomentTensorHeader.passband (Some process)
         = (T_min ← power fmax (lit (-1));
            T_max ← power fmin (lit (-1));
            Ok (Some T_min, Some T_max, Some (window_length process))))
  ∨ (filter_type ≠ Some "Bandpass"%string
     ∧ Header.MomentTensorHeader.passband (Some process)
       = Raise AttributeError).
Proof.
  intros Hinit.
  apply init_Ok_inv in Hinit
    as (parameters' & fmin & fmax & fr & tm & fd & fm & pf & wl & pl & w
        & sp & sd & Hfilter & _ & _ & _ & ->).
  unfold Header.MomentTensorHeader.passband. cbn [freq_min freq_max].
  destruct (check_filter_recognised _ _ _ Hfilter)
    as [-> | [-> | [-> | ->]]].
  - right. split; [done|]. by injection Hfilter as _ <- <- _.
  - left. split; [done|].
    apply check_filter_bandpass in Hfilter
      as (a & b & -> & -> & _). by exists a, b.
  - right. split; [done|].
    by apply check_filter_lowpass in Hfilter as (f & -> & -> & _).
  - right. split; [done|].
    by apply check_filter_highpass in Hfilter as (f & -> & -> & _).
Qed.

(** X26. A header needs band-pass processors.  Given a body wave
    processor that the constructor of [ProcessData] returned, the
    constructor of [MomentTensorHeader] returns only if the filter of the
    processor is 'Bandpass'; the header then holds the inverses of the
    corner frequencies as periods, shortest first, and the window length
    of the processor, and holds the processor as [misfit_bw] too,
    whatever misfit object was given.  For any other filter, and none,
    it raises [AttributeError] once the misfit values and the norm are
    read. *)
Theorem header_processor filter_type pick_type window_type weight_type
    parameters (process : Instance F) event_name process_sw misfit_bw
    misfit_sw model solver (mt : MomentTensor) lune_dict origin
    best_misfit_bw best_misfit_sw :
  ProcessData.__init__ filter_type pick_type window_type weight_type
    parameters = Ok process →
  match Header.MomentTensorHeader.__init__ event_name (Some process)
          process_sw misfit_bw misfit_sw model solver mt lune_dict origin
          best_misfit_bw best_misfit_sw with
  | Ok self =>
      filter_type = Some "Bandpass"%string
      ∧ ∃ fmin fmax,
          freq_min process = Some fmin ∧ freq_max process = Some fmax
          ∧ Header.MomentTensorHeader.bw_T_min self
            = Some (fpow fmax (lit (-1)))
          ∧ Header.MomentTensorHeader.bw_T_max self
            = Some (fpow fmin (lit (-1)))
          ∧ Header.MomentTensorHeader.bw_win_len self
            = Some (window_length process)
          ∧ Header.MomentTensorHeader.process_bw self = Some process
          ∧ Header.MomentTensorHeader.misfit_bw self = Some process
  | Raise e =>
      filter_type ≠ Some "Bandpass"%string →
      best_misfit_bw ≠ [] → best_misfit_sw ≠ [] → is_Some misfit_bw →
      e = AttributeError
  end.
Proof.
  intros Hinit. unfold Header.MomentTensorHeader.__init__.
  unfold mbind, result_bind.
  destruct (passband_of_init _ _ _ _ _ _ Hinit)
    as [(-> & fmin & fmax & Hfmin & Hfmax & Hband)|(Hfilter & Hband)];
    rewrite Hband.
  - destruct (getindex 0 best_misfit_bw) as [x|e]; cbn [rbind]; [|done].
    destruct (getindex 0 best_misfit_sw) as [y|e]; cbn [rbind]; [|done].
    destruct (getattr misfit_bw) as [misfit|e]; cbn [rbind]; [|done].
    unfold mbind, result_bind.
    destruct (power fmax (lit (-1))) as [T_min|e] eqn:Hmin;
      cbn [rbind]; [|done].
    destruct (power fmin (lit (-1))) as [T_max|e] eqn:Hmax;
      cbn [rbind]; [|done].
    apply power_Ok in Hmin as ->. apply power_Ok in Hmax as ->.
    destruct (Header.MomentTensorHeader.passband process_sw)
      as [[[? ?] ?]|e]; cbn [rbind]; [|done].
    split; [done|]. by exists fmin, fmax.
  - destruct best_misfit_bw as [|x ?]; [by intros _ ? |].
    destruct best_misfit_sw as [|y ?]; [by intros _ _ ? |].
    destruct misfit_bw as [misfit|]; [|by intros _ _ _ [? ?]].
    cbn. done.
Qed.

(** *** Writing a header *)

Lemma bind_lift_Ok {A B} (a : A) (k : A → Header.W F B) :
  Header.bind (Header.lift (Ok a)) k = k a.
Proof. unfold Header.bind, Header.lift. by destruct (k a). Qed.

Lemma bind_call {B} (e : Header.event F) (k : unit → Header.W F B) :
  Header.bind (Header.call e) k
  = (let '(calls, r) := k () in (e :: calls, r)).
Proof. unfold Header.bind, Header.call. by destruct (k ()). Qed.

(** A computation that raises. *)
Local Abbreviation raises m := (∃ calls e, m = (calls, Raise e)).

Lemma raises_bind_l {A B} (m : Header.W F A) (k : A → Header.W F B) :
  raises m → raises (Header.bind m k).
Proof. intros (calls & e & ->). by exists calls, e. Qed.

Lemma raises_bind_r {A B} (m : Header.W F A) (k : A → Header.W F B) :
  (∀ a, raises (k a)) → raises (Header.bind m k).
Proof.
  intros Hk. unfold Header.bind. destruct m as [calls [a|e]].
  - destruct (Hk a) as (calls' & e & ->). by eexists _, _.
  - by eexists _, _.
Qed.

(** What the constructor stores. *)
Lemma header_init_inv event_name process_bw process_sw misfit_bw misfit_sw
    model solver (mt : MomentTensor) lune_dict origin best_misfit_bw
    best_misfit_sw self :
  Header.MomentTensorHeader.__init__ event_name process_bw process_sw
    misfit_bw misfit_sw model solver mt lune_dict origin best_misfit_bw
    best_misfit_sw = Ok self →
  Header.MomentTensorHeader.process_bw self = process_bw
  ∧ Header.MomentTensorHeader.process_sw self = process_sw
  ∧ Header.MomentTensorHeader.passband process_bw
    = Ok (Header.MomentTensorHeader.bw_T_min self,
          Header.MomentTensorHeader.bw_T_max self,
          Header.MomentTensorHeader.bw_win_len self)
  ∧ Header.MomentTensorHeader.passband process_sw
    = Ok (Header.MomentTensorHeader.sw_T_min self,
          Header.MomentTensorHeader.sw_T_max self,
          Header.MomentTensorHeader.sw_win_len self)
  ∧ Header.MomentTensorHeader.event_name self = event_name
  ∧ Header.MomentTensorHeader.model self = model
  ∧ Header.MomentTensorHeader.solver self = solver
  ∧ Header.MomentTensorHeader.mt self = mt
  ∧ Header.MomentTensorHeader.lune_dict self = lune_dict
  ∧ Header.MomentTensorHeader.origin self = origin.
Proof.
  unfold Header.MomentTensorHeader.__init__. intros Hinit.
  apply rbind_Ok in Hinit as (x & _ & Hinit).
  apply rbind_Ok in Hinit as (y & _ & Hinit).
  apply rbind_Ok in Hinit as (misfit & _ & Hinit).
  apply rbind_Ok in Hinit as ([[a b] c] & Hbw & Hinit).
  apply rbind_Ok in Hinit as ([[a' b'] c'] & Hsw & Hinit).
  injection Hinit as <-. cbn. by rewrite Hbw, Hsw.
Qed.

Lemma passband_Some (process : Instance F) a b c :
  Header.MomentTensorHeader.passband (Some process) = Ok (a, b, c) →
  is_Some a ∧ is_Some b ∧ is_Some c.
Proof.
  unfold Header.MomentTensorHeader.passband. intros Hband.
  apply rbind_Ok in Hband as (fmax & _ & Hband).
  apply rbind_Ok in Hband as (T_min & _ & Hband).
  apply rbind_Ok in Hband as (fmin & _ & Hband).
  apply rbind_Ok in Hband as (T_max & _ & Hband).
  injection Hband as <- <- <-. eauto.
Qed.

(** X27. A header for body waves only cannot be written.  When the
    constructor was given a body wave processor and no surface wave
    processor, [write] raises, whatever the figure and the arguments:
    the third line is chosen by testing the body wave processor twice,
    and reads the surface wave attributes that were never assigned.
    When the width and the height given are not zero and the axes, the
    beachball and the first two lines succeed, the error is
    [AttributeError], raised after those two lines are on the figure. *)
Theorem write_body_waves_only event_name (process : Instance F) misfit_bw
    misfit_sw model solver (mt : MomentTensor) lune_dict origin
    best_misfit_bw best_misfit_sw self height width margin_left margin_top :
  Header.MomentTensorHeader.__init__ event_name (Some process) None
    misfit_bw misfit_sw model solver mt lune_dict origin best_misfit_bw
    best_misfit_sw = Ok self →
  (∃ calls e,
     Header.MomentTensorHeader.write self height width margin_left
       margin_top = (calls, Raise e))
  ∧ ∀ latlon line1 line2,
      fltb height (Header.get_size_inches).2 = true →
      feqb width (lit 0) = false →
      feqb height (lit 0) = false →
      Header.plot_beachball "tmp.png" mt = Ok () →
      Header.imread "tmp.png" = Ok () →
      Header.MomentTensorHeader._lat_lon origin = Ok latlon →
      Header.format "%s  $M_w$ %.2f  Depth %d km  %s"
        [Header.AStr event_name;
         Header.ANum (Header.MomentTensorHeader.magnitude_ self);
         Header.ANum (Header.MomentTensorHeader.depth_in_km self);
         Header.AStr latlon] = Ok line1 →
      Header.format "Model %s   Solver %s   %s norm %.1e"
        [Header.AStr model; Header.AStr solver;
         Header.AStr (Header.MomentTensorHeader.norm_ self);
         Header.ANum (Header.MomentTensorHeader.best_misfit self)]
      = Ok line2 →
      let px0 :=
        fadd (fdiv (fadd margin_left (fmul (lit 0.75) height)) width)
          (lit 0.05) in
      let py0 := fsub (lit 0.8) (fdiv margin_top height) in
      ∃ axes image,
        Header.MomentTensorHeader.write self height width margin_left
          margin_top
        = ([axes; image;
            Header.pyplot_text px0 py0 line1 16 true;
            Header.pyplot_text px0 (fsub py0 (lit 0.175)) line2 14 false],
           Raise AttributeError).
Proof.
  intros Hinit.
  apply header_init_inv in Hinit
    as (Hbw & Hsw & Hband_bw & Hband_sw & Hname & Hmodel & Hsolver & Hmt
        & Hdict & Horigin).
  cbn in Hband_sw. injection Hband_sw as Hsw1 Hsw2 Hsw3.
  apply passband_Some in Hband_bw as ([a Ha] & [b Hb] & [c Hc]).
  split.
  - unfold Header.MomentTensorHeader.write, mbind, Header.W_bind.
    apply raises_bind_r. intros _.
    apply raises_bind_r. intros quotient1.
    apply raises_bind_r. intros quotient2.
    apply raises_bind_r. intros _.
    apply raises_bind_r. intros latlon.
    apply raises_bind_r. intros line1.
    apply raises_bind_r. intros _.
    apply raises_bind_r. intros line2.
    apply raises_bind_r. intros _.
    apply raises_bind_l.
    rewrite Hbw, Ha, Hb, Hc, <- Hsw1.
    rewrite bool_decide_eq_true_2 by eauto.
    cbn [andb getattr]. rewrite !bind_lift_Ok. by eexists _, _.
  - intros latlon line1 line2 Hfit Hwidth Hheight Hplot Himg Hlatlon Hline1
      Hline2 px0 py0.
    unfold Header.MomentTensorHeader.write,
      Header.MomentTensorHeader.display_source,
      Header.MomentTensorHeader._write_bold,
      Header.MomentTensorHeader._write_text, Header.Base._get_axis,
      truediv.
    destruct Header.get_size_inches as [fig_width figure_height].
    cbn [snd] in Hfit.
    unfold mbind, Header.W_bind.
    rewrite Hfit, Hwidth, Hheight, Hmt, Hplot, Himg, Horigin, Hlatlon,
      Hname, Hmodel, Hsolver, Hbw, Ha, Hb, Hc, <- Hsw1.
    rewrite bool_decide_eq_true_2 by eauto.
    cbn [assert_ andb getattr].
    repeat first [rewrite bind_lift_Ok | rewrite bind_call
                 | rewrite Hline1 | rewrite Hline2].
    cbn [Header.bind Header.lift]. by eexists _, _.
Qed.

(** X28. A header without processors repeats its second line.  When the
    constructor was given neither processor, the width and the height
    given are not zero, and the figure, the beachball and the four lines
    succeed, [write] puts four lines on the figure, 0.175 apart and
    left-aligned, and the third is the text of the second: the line is
    not set again when no branch is taken. *)
Theorem write_without_processors event_name misfit_bw misfit_sw model
    solver (mt : MomentTensor) lune_dict origin best_misfit_bw
    best_misfit_sw self height width margin_left margin_top latlon line1
    line2 mechanism lune :
  Header.MomentTensorHeader.__init__ event_name None None misfit_bw
    misfit_sw model solver mt lune_dict origin best_misfit_bw
    best_misfit_sw = Ok self →
  fltb height (Header.get_size_inches).2 = true →
  feqb width (lit 0) = false →
  feqb height (lit 0) = false →
  Header.plot_beachball "tmp.png" mt = Ok () →
  Header.imread "tmp.png" = Ok () →
  Header.MomentTensorHeader._lat_lon origin = Ok latlon →
  Header.format "%s  $M_w$ %.2f  Depth %d km  %s"
    [Header.AStr event_name;
     Header.ANum (Header.MomentTensorHeader.magnitude_ self);
     Header.ANum (Header.MomentTensorHeader.depth_in_km self);
     Header.AStr latlon] = Ok line1 →
  Header.format "Model %s   Solver %s   %s norm %.1e"
    [Header.AStr model; Header.AStr solver;
     Header.AStr (Header.MomentTensorHeader.norm_ self);
     Header.ANum (Header.MomentTensorHeader.best_misfit self)]
  = Ok line2 →
  Header.MomentTensorHeader._focal_mechanism lune_dict = Ok mechanism →
  Header.MomentTensorHeader._delta_gamma lune_dict = Ok lune →
  let px0 :=
    fadd (fdiv (fadd margin_left (fmul (lit 0.75) height)) width)
      (lit 0.05) in
  let py1 := fsub (lit 0.8) (fdiv margin_top height) in
  let py2 := fsub py1 (lit 0.175) in
  let py3 := fsub py2 (lit 0.175) in
  let py4 := fsub py3 (lit 0.175) in
  ∃ axes image,
    Header.MomentTensorHeader.write self height width margin_left
      margin_top
    = ([axes; image;
        Header.pyplot_text px0 py1 line1 16 true;
        Header.pyplot_text px0 py2 line2 14 false;
        Header.pyplot_text px0 py3 line2 14 false;
        Header.pyplot_text px0 py4 (mechanism +:+ lune) 14 false],
       Ok ()).
Proof.
  intros Hinit Hfit Hwidth Hheight Hplot Himg Hlatlon Hline1 Hline2 Hmech
    Hlune px0 py1 py2 py3 py4.
  apply header_init_inv in Hinit
    as (Hbw & Hsw & _ & _ & Hname & Hmodel & Hsolver & Hmt & Hdict
        & Horigin).
  unfold Header.MomentTensorHeader.write,
    Header.MomentTensorHeader.display_source,
    Header.MomentTensorHeader._write_bold,
    Header.MomentTensorHeader._write_text, Header.Base._get_axis, truediv.
  destruct Header.get_size_inches as [fig_width figure_height].
  cbn [snd] in Hfit.
  unfold mbind, Header.W_bind, mret, Header.W_ret.
  rewrite Hfit, Hwidth, Hheight, Hmt, Hplot, Himg, Horigin, Hlatlon, Hname,
    Hmodel, Hsolver, Hbw, Hsw, Hdict, Hmech, Hlune.
  cbn [assert_].
  rewrite (bool_decide_eq_false_2 (is_Some None)) by by intros [? ?].
  cbn [andb].
  change (@Header.ret F string) with (λ a : string, Header.lift (F:=F) (Ok a)).
  cbn beta.
  repeat first [rewrite bind_lift_Ok | rewrite bind_call
               | rewrite Hline1 | rewrite Hline2].
  cbn [Header.call]. by eexists _, _.
Qed.
End HeaderFacts.

(** *** Headers in the example world *)

Lemma header_processor_witness :
  ∃ process self,
    Header.example_process = Ok process
    ∧ Header.example_header (Some process) None = Ok self
    ∧ Header.MomentTensorHeader.bw_T_min self
      = Some (ProcessData.Qpow 0.5 (-1))
    ∧ Header.MomentTensorHeader.bw_T_max self
      = Some (ProcessData.Qpow 0.1 (-1))
    ∧ Header.MomentTensorHeader.bw_win_len self
      = Some (ProcessData.VFloat 15%Q)
    ∧ Header.MomentTensorHeader.misfit_bw self = Some process.
Proof.
  destruct Header.example_process as [process|e] eqn:Hinit;
    [|by vm_compute in Hinit].
  pose proof (@header_processor Q unit ProcessData.Q_Float
                ProcessData.example_world Header.example_libraries
                _ _ _ _ _ process "20090407201255351" None
                (Some {| Header.norm := "L2" |})
                (Some {| Header.norm := "L2" |}) "ak135" "syngine" ()
                {[ "kappa"%string := 30%Q; "theta"%string := 60%Q;
                   "sigma"%string := 90%Q; "delta"%string := 0%Q;
                   "gamma"%string := 0%Q ]}
                {| ProcessData.latitude := 61.5%Q;
                   ProcessData.longitude := (-149.7)%Q;
                   ProcessData.depth_in_m := 33000%Q;
                   ProcessData.time := 1000%Q |}
                [1e-10%Q] [2e-10%Q] Hinit) as Hheader.
  fold (Header.example_header (Some process) None) in Hheader.
  vm_compute in Hinit. injection Hinit as <-.
  destruct (Header.example_header _ None) as [self|e] eqn:Hself;
    [|by vm_compute in Hself].
  destruct Hheader as (_ & fmin & fmax & Hfmin & Hfmax & Hmin & Hmax & Hlen
                       & _ & Hmisfit).
  injection Hfmin as <-. injection Hfmax as <-.
  eexists _, self. split; [reflexivity|]. split; [exact Hself|].
  split; [exact Hmin|]. split; [exact Hmax|]. split; [exact Hlen|].
  exact Hmisfit.
Defined.

Lemma write_body_waves_only_witness :
  ∃ process self axes image,
    Header.example_process = Ok process
    ∧ Header.example_header (Some process) None = Ok self
    ∧ @Header.MomentTensorHeader.write Q unit ProcessData.Q_Float
        Header.example_libraries self 1%Q 8%Q 0.5%Q 0.1%Q
      = ([axes; image;
          Header.pyplot_text ((0.5 + 0.75 * 1) / 8 + 0.05)%Q
            (0.8 - 0.1 / 1)%Q "%s  $M_w$ %.2f  Depth %d km  %s" 16 true;
          Header.pyplot_text ((0.5 + 0.75 * 1) / 8 + 0.05)%Q
            (0.8 - 0.1 / 1 - 0.175)%Q
            "Model %s   Solver %s   %s norm %.1e" 14 false],
         Raise AttributeError).
Proof.
  destruct Header.example_process as [process|e] eqn:Hinit;
    [|by vm_compute in Hinit].
  exists process. vm_compute in Hinit. injection Hinit as <-.
  destruct (Header.example_header _ None) as [self|e] eqn:Hself;
    [|by vm_compute in Hself].
  pose proof Hself as Hheader. unfold Header.example_header in Hheader.
  match type of Hheader with
  | Header.MomentTensorHeader.__init__ ?ev (Some ?p) None ?mb ?ms ?mo ?so
      ?mt ?ld ?o ?bb ?bs = _ =>
      destruct (proj2 (@write_body_waves_only Q unit ProcessData.Q_Float
                         Header.example_libraries ev p mb ms mo so mt ld o
                         bb bs self 1%Q 8%Q 0.5%Q 0.1%Q Hheader)
                  _ _ _ eq_refl eq_refl eq_refl eq_refl eq_refl eq_refl
                  eq_refl eq_refl)
        as (axes & image & Hwrite)
  end.
  exists self, axes, image.
  split; [reflexivity|]. split; [reflexivity|]. exact Hwrite.
Defined.

Lemma write_without_processors_witness :
  ∃ self axes image,
    Header.example_header None None = Ok self
    ∧ @Header.MomentTensorHeader.write Q unit ProcessData.Q_Float
        Header.example_libraries self 1%Q 8%Q 0.5%Q 0.1%Q
      = ([axes; image;
          Header.pyplot_text ((0.5 + 0.75 * 1) / 8 + 0.05)%Q
            (0.8 - 0.1 / 1)%Q "%s  $M_w$ %.2f  Depth %d km  %s" 16 true;
          Header.pyplot_text ((0.5 + 0.75 * 1) / 8 + 0.05)%Q
            (0.8 - 0.1 / 1 - 0.175)%Q
            "Model %s   Solver %s   %s norm %.1e" 14 false;
          Header.pyplot_text ((0.5 + 0.75 * 1) / 8 + 0.05)%Q
            (0.8 - 0.1 / 1 - 0.175 - 0.175)%Q
            "Model %s   Solver %s   %s norm %.1e" 14 false;
          Header.pyplot_text ((0.5 + 0.75 * 1) / 8 + 0.05)%Q
            (0.8 - 0.1 / 1 - 0.175 - 0.175 - 0.175)%Q
            ("strike  dip  slip:  %d  %d  %d;  " +:+ "  %s  %s:  %d  %d")
            14 false],
         Ok ()).
Proof.
  destruct (Header.example_header None None) as [self|e] eqn:Hself;
    [|by vm_compute in Hself].
  pose proof Hself as Hheader. unfold Header.example_header in Hheader.
  match type of Hheader with
  | Header.MomentTensorHeader.__init__ ?ev None None ?mb ?ms ?mo ?so
      ?mt ?ld ?o ?bb ?bs = _ =>
      destruct (@write_without_processors Q unit ProcessData.Q_Float
                  Header.example_libraries ev mb ms mo so mt ld o bb bs
                  self 1%Q 8%Q 0.5%Q 0.1%Q _ _ _ _ _ Hheader
                  eq_refl eq_refl eq_refl eq_refl eq_refl eq_refl eq_refl
                  eq_refl eq_refl eq_refl)
        as (axes & image & Hwrite)
  end.
  exists self, axes, image. split; [reflexivity|]. exact Hwrite.
Defined.

(** Two processes, and a misfit that is the product of the source and the
    number selected for the origin. *)
Lemma grid_search_mpi_gather_witness :
  let select := λ g o : nat, g + o in
  let partition := λ (l : list nat) (n : nat), [take 1 l; drop 1 l] in
  let f := λ (_ : unit) (g s : nat), g * s in
  let misfit : @GridSearch.misfit_fn unit nat nat nat :=
    λ d g srcs _, Numpy.column_of (f d g <$> srcs) in
  let env := {| GridSearch.mpi4py_importable := true;
                GridSearch.mpi4py_MPI_importable := true;
                GridSearch.COMM_WORLD_size := 2;
                GridSearch.COMM_WORLD_rank := 1 |} in
  GridSearch.grid_search select partition env () 0 misfit [1; 2]
    [10; 20; 30] 25 true
  = GridSearch._grid_search_serial select () 0 misfit [1; 2] [10; 20; 30]
      25.
Proof.
  intros select partition f misfit env.
  refine (grid_search_mpi_gather select partition f env () 0 misfit [1; 2]
            [10; 20; 30] 25 _ eq_refl _ eq_refl eq_refl).
  - reflexivity.
  - cbn. lia.
Defined.
